(** * nnet3/nnet-training.cc: the per-minibatch training step

    A shallow embedding of [src/nnet3/nnet-training.cc]: the trainer
    ([NnetTrainer::Train], [TrainInternal], [ProcessOutputs],
    [PrintTotalStats], [PrintMaxChangeStats]), the statistics record
    ([ObjectiveFunctionInfo]) and [ComputeObjectiveFunction].

    Conventions.
    - [BaseFloat] (a typedef of base/kaldi-types.h) is a type parameter
      with the arithmetic and comparison operators the file uses
      ([BaseFloatOps]).  Results that only follow the control flow hold for
      every interpretation of these operators; results that compute with
      sums and products assume the laws of exact arithmetic
      ([BaseFloatExact]), so rounding is outside the model.
    - [int32] values are integers of [Z] wrapped to 32 bits ([int32_wrap]).
    - [KALDI_ERR] and a failed [KALDI_ASSERT] end the process: a call
      returns [Fatal]; the state reached at that point is kept beside it.
    - The matrix library, the network and the compute-graph executor are
      not part of the file.  The matrix operations are modelled on lists;
      the executor and the update engine are parameters ([Collaborators]). *)

From Stdlib Require Import ZArith QArith Qcanon Ring Lia String.
From stdpp Require Import gmap strings list fin_maps.

(** ** Outcomes of fallible calls *)

Inductive outcome (A : Type) : Type :=
| Ok (a : A)
| Fatal (msg : string).
Arguments Ok {A} a.
Arguments Fatal {A} msg.

Definition is_fatal {A} (o : outcome A) : bool :=
  match o with Ok _ => false | Fatal _ => true end.

(** ** BaseFloat *)

(** The operators of [BaseFloat] used by the file.  [flit_half] is the
    literal [0.5], [of_int32] the conversion of an [int32] to [BaseFloat]. *)
Class BaseFloatOps (F : Type) : Type := {
  fzero : F;
  fone : F;
  flit_half : F;
  fadd : F -> F -> F;
  fsub : F -> F -> F;
  fmul : F -> F -> F;
  fdiv : F -> F -> F;
  fopp : F -> F;
  fgt : F -> F -> bool;
  fge : F -> F -> bool;
  feq : F -> F -> bool;
  of_int32 : Z -> F
}.

Declare Scope bf_scope.
Delimit Scope bf_scope with bf.
Infix "+!" := fadd (at level 50, left associativity) : bf_scope.
Infix "-!" := fsub (at level 50, left associativity) : bf_scope.
Infix "*!" := fmul (at level 40, left associativity) : bf_scope.
Infix "/!" := fdiv (at level 40, left associativity) : bf_scope.
Notation "-! x" := (fopp x) (at level 35, right associativity) : bf_scope.
Infix ">!" := fgt (at level 68, no associativity) : bf_scope.
Infix ">=!" := fge (at level 68, no associativity) : bf_scope.
Infix "==!" := feq (at level 68, no associativity) : bf_scope.
Local Open Scope bf_scope.

(** Facts about the comparisons that hold for IEEE numbers as well as for
    exact ones: [x > 0] excludes [x == 0] and gives [x >= 0]. *)
Class BaseFloatOrder (F : Type) `{BaseFloatOps F} : Prop := {
  fgt_zero_neq : forall x : F, x >! fzero = true -> x ==! fzero = false;
  fgt_zero_ge : forall x : F, x >! fzero = true -> x >=! fzero = true
}.

(** Exact arithmetic: the operators form a commutative ring and [==] is
    equality. *)
Class BaseFloatExact (F : Type) `{BaseFloatOps F} : Prop := {
  bf_ring : ring_theory fzero fone fadd fmul fsub fopp (@eq F);
  feq_spec : forall x y : F, x ==! y = true <-> x = y
}.

(** ** int32 *)

Definition int32_wrap (z : Z) : Z :=
  ((z + 2147483648) mod 4294967296 - 2147483648)%Z.

Definition int32_range (z : Z) : Prop :=
  (-2147483648 <= z <= 2147483647)%Z.

(** [a + b], [a * b], [a - b] on [int32]. *)
Definition int32_add (a b : Z) : Z := int32_wrap (a + b).
Definition int32_sub (a b : Z) : Z := int32_wrap (a - b).
Definition int32_mul (a b : Z) : Z := int32_wrap (a * b).
(** [a / b] and [a % b] truncate towards zero; C++ leaves [b = 0]
    undefined, the results below state [b <> 0] where they rely on it. *)
Definition int32_div (a b : Z) : Z := int32_wrap (Z.quot a b).
Definition int32_rem (a b : Z) : Z := int32_wrap (Z.rem a b).

(** ** Matrices *)

Section Matrices.
Context {F : Type} `{BaseFloatOps F}.

(** A dense matrix is the list of its rows. *)
Abbreviation Vector := (list F).
Abbreviation Matrix := (list (list F)).

Definition NumRows (m : Matrix) : nat := length m.

(** A matrix without rows has no columns. *)
Definition NumCols (m : Matrix) : nat :=
  match m with
  | [] => 0
  | row :: _ => length row
  end.

(** [Shape m r c]: [m] has [r] rows, each of [c] entries. *)
Definition Shape (m : Matrix) (r c : nat) : Prop :=
  length m = r /\ Forall (fun row => length row = c) m.

(** Modelled from the spec: the matrix library's constructor
    [CuMatrix(rows, cols, kUndefined)] is missing; the entries, undefined
    in the source, are overwritten before they are read and are zero here. *)
Definition Matrix_new (rows cols : nat) : Matrix :=
  replicate rows (replicate cols fzero).

(** Modelled from the spec: [VectorBase::Sum], missing; the sum of the
    entries. *)
Definition VecSum (v : Vector) : F := foldr fadd fzero v.

(** Modelled from the spec: [CuMatrixBase::Sum], missing; "the sum of all
    supervision entries". *)
Definition Sum (m : Matrix) : F := VecSum (map VecSum m).

(** Modelled from the spec: [VecVec], missing; the dot product. *)
Definition VecVec (a b : Vector) : F := VecSum (zip_with fmul a b).

(** Modelled from the spec: [TraceMatMat(A, B, kTrans)], missing; the
    trace of [A B^T], "the elementwise dot product". *)
Definition TraceMatMat_kTrans (A B : Matrix) : F :=
  VecSum (zip_with VecVec A B).

(** Modelled from the spec: [CuMatrixBase::AddMat(alpha, B)], missing;
    [A += alpha * B]. *)
Definition AddMat (alpha : F) (B A : Matrix) : Matrix :=
  zip_with (zip_with (fun a b => a +! alpha *! b)) A B.

(** *** Sparse matrices *)

(** Modelled from the spec: [SparseVector], missing; a dimension and the
    (index, value) pairs of the entries that are stored. *)
Record SparseVector : Type := {
  sv_dim : nat;
  sv_pairs : list (nat * F)
}.

Abbreviation SparseMatrix := (list SparseVector).

(** The class invariant of [SparseVector]: indexes below the dimension,
    no index twice. *)
Definition SparseVector_wf (sv : SparseVector) : Prop :=
  NoDup (map fst (sv_pairs sv)) /\
  Forall (fun p => fst p < sv_dim sv) (sv_pairs sv).

Definition SparseMatrix_NumRows (s : SparseMatrix) : nat := length s.

Definition SparseMatrix_NumCols (s : SparseMatrix) : nat :=
  match s with
  | [] => 0
  | sv :: _ => sv_dim sv
  end.

Definition SparseMatrix_wf (s : SparseMatrix) : Prop :=
  Forall (fun sv => SparseVector_wf sv /\ sv_dim sv = SparseMatrix_NumCols s) s.

Definition SparseVector_Sum (sv : SparseVector) : F :=
  VecSum (map snd (sv_pairs sv)).

(** Modelled from the spec: [CuSparseMatrix::Sum], missing. *)
Definition SparseMatrix_Sum (s : SparseMatrix) : F :=
  VecSum (map SparseVector_Sum s).

(** Modelled from the spec: [SparseVector::CopyElementsToVec], missing;
    the destination is zeroed, then each stored entry is written. *)
Definition CopyElementsToVec (sv : SparseVector) (vec : Vector) : Vector :=
  foldl (fun v p => <[fst p := snd p]> v)
        (replicate (length vec) fzero) (sv_pairs sv).

(** Modelled from the spec: [CuSparseMatrix::CopyToMat], missing; row by
    row into the destination. *)
Definition SparseMatrix_CopyToMat (s : SparseMatrix) (dest : Matrix) : Matrix :=
  zip_with CopyElementsToVec s dest.

(** The dense view of a sparse matrix. *)
Definition SparseMatrix_dense (s : SparseMatrix) : Matrix :=
  map (fun sv => CopyElementsToVec sv (replicate (sv_dim sv) fzero)) s.

Definition VecSvec (a : Vector) (sv : SparseVector) : F :=
  VecSum (map (fun p => default fzero (a !! fst p) *! snd p) (sv_pairs sv)).

(** Modelled from the spec: [TraceMatSmat(A, B, kTrans)], missing; the
    trace of [A B^T] for a sparse [B]. *)
Definition TraceMatSmat_kTrans (A : Matrix) (B : SparseMatrix) : F :=
  VecSum (zip_with VecSvec A B).

(** The elementwise difference and the sum of squared differences, as the
    specification writes them. *)
Definition Matrix_sub (A B : Matrix) : Matrix :=
  zip_with (zip_with fsub) A B.

Definition sum_squared_differences (A B : Matrix) : F :=
  Sum (map (map (fun d => d *! d)) (Matrix_sub A B)).

End Matrices.

Arguments SparseVector F : clear implicits.
Abbreviation Matrix F := (list (list F)).
Abbreviation SparseMatrix F := (list (SparseVector F)).

(** ** The network, examples and statistics *)

(** The objective kind of an output node.  The source handles [kLinear] and
    [kQuadratic]; [kOtherObjective] stands for any other value of the
    enumeration. *)
Inductive ObjectiveType : Type :=
| kLinear
| kQuadratic
| kOtherObjective (value : Z).

Inductive NodeKind : Type :=
| InputNode
| OutputNode (objective_type : ObjectiveType)
| OtherNode.

Section Model.
Context {F : Type} {ops : BaseFloatOps F}.

(** Modelled from the spec: [CompressedMatrix], missing; "a lossy encoded
    matrix materialized to dense on demand", kept as the dense matrix it
    decodes to. *)
Record CompressedMatrix : Type := {
  cm_decoded : Matrix F
}.

(** [GeneralMatrix]: the three encodings, named by the values of
    [GeneralMatrix::Type()]. *)
Inductive GeneralMatrix : Type :=
| kFullMatrix (mat : Matrix F)
| kSparseMatrix (smat : SparseMatrix F)
| kCompressedMatrix (cmat : CompressedMatrix).

Definition GeneralMatrix_NumRows (m : GeneralMatrix) : nat :=
  match m with
  | kFullMatrix mat => NumRows mat
  | kSparseMatrix smat => SparseMatrix_NumRows smat
  | kCompressedMatrix cmat => NumRows (cm_decoded cmat)
  end.

Definition GeneralMatrix_NumCols (m : GeneralMatrix) : nat :=
  match m with
  | kFullMatrix mat => NumCols mat
  | kSparseMatrix smat => SparseMatrix_NumCols smat
  | kCompressedMatrix cmat => NumCols (cm_decoded cmat)
  end.

(** [GeneralMatrix::GetMatrix] and [CopyFromGeneralMat]: the dense view of
    any encoding. *)
Definition GeneralMatrix_GetMatrix (m : GeneralMatrix) : Matrix F :=
  match m with
  | kFullMatrix mat => mat
  | kSparseMatrix smat => SparseMatrix_dense smat
  | kCompressedMatrix cmat => cm_decoded cmat
  end.

Record NnetIo : Type := {
  name : string;
  features : GeneralMatrix
}.

Record NnetExample : Type := {
  io : list NnetIo
}.

(** A component: its name, whether [Properties()] has
    [kUpdatableComponent], whether it derives from [UpdatableComponent],
    and its parameters. *)
Record Component : Type := {
  component_name : string;
  updatable_property : bool;
  inherits_UpdatableComponent : bool;
  params : list F
}.

Record Nnet : Type := {
  nodes : list (string * NodeKind);
  components : list Component
}.

Fixpoint find_node (nm : string) (l : list (string * NodeKind)) (i : Z) : Z :=
  match l with
  | [] => (-1)%Z
  | (nm', _) :: rest => if String.eqb nm nm' then i else find_node nm rest (i + 1)%Z
  end.

(** Modelled from the spec: [Nnet::GetNodeIndex], missing; the index of
    the node of that name, [-1] when there is none. *)
Definition GetNodeIndex (nnet : Nnet) (nm : string) : Z :=
  find_node nm (nodes nnet) 0%Z.

Definition GetNode (nnet : Nnet) (node_index : Z) : NodeKind :=
  match nodes nnet !! Z.to_nat node_index with
  | Some (_, k) => k
  | None => OtherNode
  end.

Definition IsOutputNode (nnet : Nnet) (node_index : Z) : bool :=
  match GetNode nnet node_index with
  | OutputNode _ => true
  | _ => false
  end.

Definition node_objective_type (nnet : Nnet) (node_index : Z) : ObjectiveType :=
  match GetNode nnet node_index with
  | OutputNode t => t
  | _ => kLinear
  end.

(** Modelled from the spec: [ScaleNnet], missing; "scale DeltaModel's
    buffer": every parameter is multiplied by [scale]. *)
Definition ScaleNnet (scale : F) (nnet : Nnet) : Nnet :=
  {| nodes := nodes nnet;
     components :=
       map (fun c => {| component_name := component_name c;
                        updatable_property := updatable_property c;
                        inherits_UpdatableComponent := inherits_UpdatableComponent c;
                        params := map (fmul scale) (params c) |})
           (components nnet) |}.

(** The parameters of a model, component after component. *)
Definition nnet_buffer (nnet : Nnet) : list (list F) :=
  map params (components nnet).

Definition NumUpdatableComponents (nnet : Nnet) : nat :=
  length (filter (fun c => updatable_property c = true) (components nnet)).

(** *** Log lines *)

Inductive LogLine : Type :=
| LogPhaseObjf (output_name : string) (start_minibatch end_minibatch : Z)
    (objf weight : F)
| LogPhaseObjfAux (output_name : string) (start_minibatch end_minibatch : Z)
    (objf aux_objf sum_objf weight : F)
| LogTotalObjf (nm : string) (objf weight : F)
| LogTotalObjfAux (nm : string) (objf aux_objf sum_objf weight : F)
| LogForScript (objf : F)
| LogAccuracyFollows
| LogMaxChangeComponent (nm : string) (percent : F)
| LogMaxChangeGlobal (percent : F)
| LogReadCache (path : string)
| WarnNoCache.

(** The minibatch range a per-phase line reports. *)
Definition reported_range (l : LogLine) : option (Z * Z) :=
  match l with
  | LogPhaseObjf _ s e _ _ => Some (s, e)
  | LogPhaseObjfAux _ s e _ _ _ _ => Some (s, e)
  | _ => None
  end.

(** *** ObjectiveFunctionInfo *)

Record ObjectiveFunctionInfo : Type := {
  current_phase : Z;
  tot_weight : F;
  tot_objf : F;
  tot_aux_objf : F;
  tot_weight_this_phase : F;
  tot_objf_this_phase : F;
  tot_aux_objf_this_phase : F
}.

(** Modelled from the spec: the default constructor of
    [ObjectiveFunctionInfo] (nnet-training.h), missing; phase 0 and zero
    totals. *)
Definition ObjectiveFunctionInfo_new : ObjectiveFunctionInfo :=
  {| current_phase := 0;
     tot_weight := fzero; tot_objf := fzero; tot_aux_objf := fzero;
     tot_weight_this_phase := fzero; tot_objf_this_phase := fzero;
     tot_aux_objf_this_phase := fzero |}.

Definition PrintStatsForThisPhase (output_name : string)
    (minibatches_per_phase : Z) (info : ObjectiveFunctionInfo) : LogLine :=
  let start_minibatch := int32_mul (current_phase info) minibatches_per_phase in
  let end_minibatch :=
    int32_sub (int32_add start_minibatch minibatches_per_phase) 1 in
  if tot_aux_objf_this_phase info ==! fzero then
    LogPhaseObjf output_name start_minibatch end_minibatch
      (tot_objf_this_phase info /! tot_weight_this_phase info)
      (tot_weight_this_phase info)
  else
    let objf := tot_objf_this_phase info /! tot_weight_this_phase info in
    let aux_objf := tot_aux_objf_this_phase info /! tot_weight_this_phase info in
    let sum_objf := objf +! aux_objf in
    LogPhaseObjfAux output_name start_minibatch end_minibatch
      objf aux_objf sum_objf (tot_weight_this_phase info).

(** [UpdateStats] returns the updated record and the lines it logged. *)
Definition UpdateStats (output_name : string)
    (minibatches_per_phase minibatch_counter : Z)
    (this_minibatch_weight this_minibatch_tot_objf this_minibatch_tot_aux_objf : F)
    (info : ObjectiveFunctionInfo)
    : outcome (ObjectiveFunctionInfo * list LogLine) :=
  let phase := int32_div minibatch_counter minibatches_per_phase in
  let flushed :=
    if negb (phase =? current_phase info)%Z then
      if (phase >? current_phase info)%Z then
        Ok ({| current_phase := phase;
               tot_weight := tot_weight info;
               tot_objf := tot_objf info;
               tot_aux_objf := tot_aux_objf info;
               tot_weight_this_phase := fzero;
               tot_objf_this_phase := fzero;
               tot_aux_objf_this_phase := fzero |},
            [PrintStatsForThisPhase output_name minibatches_per_phase info])
      else Fatal "KALDI_ASSERT: phase > current_phase"
    else Ok (info, [])
  in
  match flushed with
  | Fatal msg => Fatal msg
  | Ok (info, lines) =>
      Ok ({| current_phase := current_phase info;
             tot_weight := tot_weight info +! this_minibatch_weight;
             tot_objf := tot_objf info +! this_minibatch_tot_objf;
             tot_aux_objf := tot_aux_objf info +! this_minibatch_tot_aux_objf;
             tot_weight_this_phase :=
               tot_weight_this_phase info +! this_minibatch_weight;
             tot_objf_this_phase :=
               tot_objf_this_phase info +! this_minibatch_tot_objf;
             tot_aux_objf_this_phase :=
               tot_aux_objf_this_phase info +! this_minibatch_tot_aux_objf |},
          lines)
  end.

(** [ObjectiveFunctionInfo::PrintTotalStats]: the lines logged and whether
    the lifetime weight is non-zero. *)
Definition ObjectiveFunctionInfo_PrintTotalStats (nm : string)
    (info : ObjectiveFunctionInfo) : bool * list LogLine :=
  let objf := tot_objf info /! tot_weight info in
  let aux_objf := tot_aux_objf info /! tot_weight info in
  let sum_objf := objf +! aux_objf in
  let line :=
    if tot_aux_objf info ==! fzero then
      LogTotalObjf nm (tot_objf info /! tot_weight info) (tot_weight info)
    else LogTotalObjfAux nm objf aux_objf sum_objf (tot_weight info) in
  (negb (tot_weight info ==! fzero), [line; LogForScript objf]).

(** Whether an entry of a statistics map has a non-zero lifetime weight. *)
Definition has_data (entry : string * ObjectiveFunctionInfo) : bool :=
  negb (tot_weight (snd entry) ==! fzero).

(** [UpdateStats] called once per minibatch for counters [first],
    [first + 1], ... with a constant weight and objective, the auxiliary
    objective left at its default [0.0]. *)
Fixpoint feed_minibatches (output_name : string) (minibatches_per_phase : Z)
    (weight objf : F) (counters : list Z) (info : ObjectiveFunctionInfo)
    : outcome (ObjectiveFunctionInfo * list LogLine) :=
  match counters with
  | [] => Ok (info, [])
  | c :: rest =>
      match UpdateStats output_name minibatches_per_phase c weight objf fzero info with
      | Fatal msg => Fatal msg
      | Ok (info', lines) =>
          match feed_minibatches output_name minibatches_per_phase weight objf rest info' with
          | Fatal msg => Fatal msg
          | Ok (info'', lines') => Ok (info'', lines ++ lines')
          end
      end
  end.

(** The minibatch counters [0, 1, ..., N - 1]. *)
Definition first_counters (N : nat) : list Z := map Z.of_nat (seq 0 N).

(** The range the line of phase [p] has to report when a phase has [K]
    minibatches. *)
Definition phase_range (K : Z) (p : nat) : option (Z * Z) :=
  Some (Z.of_nat p * K, (Z.of_nat p + 1) * K - 1)%Z.

(** The number of per-phase lines logged while the counters [0 .. N-1]
    are fed to a new record. *)
Definition phase_flushes (output_name : string) (K : Z) (weight objf : F)
    (N : nat) : option nat :=
  match feed_minibatches output_name K weight objf (first_counters N)
          ObjectiveFunctionInfo_new with
  | Ok (_, lines) => Some (length lines)
  | Fatal _ => None
  end.

End Model.

Arguments CompressedMatrix F : clear implicits.
Arguments GeneralMatrix F : clear implicits.
Arguments NnetIo F : clear implicits.
Arguments NnetExample F : clear implicits.
Arguments Component F : clear implicits.
Arguments Nnet F : clear implicits.
Arguments LogLine F : clear implicits.
Arguments ObjectiveFunctionInfo F : clear implicits.

(** ** External collaborators *)

(** The compute-graph compiler and executor, the update engine and the
    network utilities are consumed as opaque services: the file only calls
    them.  [Run] threads the state of the C library's pseudo-random
    generator, which the executor may draw from. *)
Class Collaborators (F : Type) : Type := {
  NnetComputation : Type;
  NnetComputer : Type;
  (** [GetComputationRequest] followed by [compiler_.Compile] *)
  Compile : Nnet F -> NnetExample F -> bool -> bool -> NnetComputation;
  NnetComputer_new : NnetComputation -> Nnet F -> Nnet F -> NnetComputer;
  AcceptInputs : Nnet F -> list (NnetIo F) -> NnetComputer -> NnetComputer;
  Run : NnetComputer -> Z -> NnetComputer * Z;
  GetOutput : NnetComputer -> string -> Matrix F;
  AcceptInput : string -> Matrix F -> NnetComputer -> NnetComputer;
  (** the model the executor accumulates the derivatives into *)
  nnet_to_update : NnetComputer -> Nnet F;
  (** arguments: delta model, max_param_change, max_change_scale,
      scale_adding, model, per-component and global clip counters;
      results: success, model, counters *)
  UpdateNnetWithMaxChange :
    Nnet F -> F -> F -> F -> Nnet F -> list Z -> Z ->
    bool * Nnet F * list Z * Z;
  ComputeAccuracy : GeneralMatrix F -> Matrix F -> F * F;
  FreezeNaturalGradient : bool -> Nnet F -> Nnet F;
  ResetGenerators : Nnet F -> Nnet F;
  ZeroComponentStats : Nnet F -> Nnet F
}.

Section Training.
Context {F : Type} {ops : BaseFloatOps F} {ext : Collaborators F}.

(** ** ComputeObjectiveFunction *)

(** The result is the executor after the derivative was supplied (when it
    was), [*tot_weight] and [*tot_objf].  Only the two [KALDI_ERR] exits
    are failures here: the assertions of the matrix library on the shapes
    of its arguments and those of the executor are not in the source, and
    the results are stated for matrices of matching shape. *)
Definition ComputeObjectiveFunction (supervision : GeneralMatrix F)
    (objective_type : ObjectiveType) (output_name : string)
    (supply_deriv : bool) (computer : NnetComputer)
    : outcome (NnetComputer * F * F) :=
  let output := GetOutput computer output_name in
  if negb (Nat.eqb (NumCols output) (GeneralMatrix_NumCols supervision)) then
    Fatal "Nnet versus example output dimension (num-classes) mismatch"
  else
    match objective_type with
    | kLinear =>
        match supervision with
        | kSparseMatrix post =>
            let cu_post := post in
            let tot_weight := SparseMatrix_Sum cu_post in
            let tot_objf := TraceMatSmat_kTrans output cu_post in
            let computer :=
              if supply_deriv then
                let output_deriv :=
                  SparseMatrix_CopyToMat cu_post
                    (Matrix_new (NumRows output) (NumCols output)) in
                AcceptInput output_name output_deriv computer
              else computer in
            Ok (computer, tot_weight, tot_objf)
        | kFullMatrix mat =>
            let cu_post := mat in
            let tot_weight := Sum cu_post in
            let tot_objf := TraceMatMat_kTrans output cu_post in
            let computer :=
              if supply_deriv then AcceptInput output_name cu_post computer
              else computer in
            Ok (computer, tot_weight, tot_objf)
        | kCompressedMatrix _ =>
            let post := GeneralMatrix_GetMatrix supervision in
            let cu_post := post in
            let tot_weight := Sum cu_post in
            let tot_objf := TraceMatMat_kTrans output cu_post in
            let computer :=
              if supply_deriv then AcceptInput output_name cu_post computer
              else computer in
            Ok (computer, tot_weight, tot_objf)
        end
    | kQuadratic =>
        let diff := GeneralMatrix_GetMatrix supervision in
        let diff := AddMat (-! fone) output diff in
        let tot_weight := of_int32 (Z.of_nat (NumRows diff)) in
        let tot_objf := (-! flit_half) *! TraceMatMat_kTrans diff diff in
        let computer :=
          if supply_deriv then AcceptInput output_name diff computer
          else computer in
        Ok (computer, tot_weight, tot_objf)
    | kOtherObjective _ =>
        Fatal "Objective function type not handled."
    end.

(** [g] is an encoding of the dense matrix [m]. *)
Definition encodes (g : GeneralMatrix F) (m : Matrix F) : Prop :=
  match g with
  | kFullMatrix mat => mat = m
  | kSparseMatrix smat => SparseMatrix_wf smat /\ SparseMatrix_dense smat = m
  | kCompressedMatrix cmat => cm_decoded cmat = m
  end.

(** ** The trainer *)

Record NnetTrainerOptions : Type := {
  zero_component_stats : bool;
  store_component_stats : bool;
  print_interval : Z;
  momentum : F;
  max_param_change : F;
  backstitch_training_scale : F;
  backstitch_training_interval : Z;
  read_cache : string
}.

Record NnetTrainer : Type := {
  config_ : NnetTrainerOptions;
  nnet_ : Nnet F;
  delta_nnet_ : Nnet F;
  num_minibatches_processed_ : Z;
  srand_seed_ : Z;
  objf_info_ : gmap string (ObjectiveFunctionInfo F);
  accuracy_info_ : gmap string (ObjectiveFunctionInfo F);
  num_max_change_per_component_applied_ : list Z;
  num_max_change_global_applied_ : Z
}.

(** What a call does besides changing the trainer, in order: the control
    events of [Train]. *)
Inductive Event : Type :=
| EvFreezeNaturalGradient (freeze : bool)
| EvSrand (seed : Z)
| EvResetGenerators
| EvTrainInternal (is_backstitch_step : bool).

(** The process: the trainer, the state of the C library's pseudo-random
    generator, the log and the events so far. *)
Record Process : Type := {
  this : NnetTrainer;
  c_rand : Z;
  kaldi_log : list (LogLine F);
  trace : list Event
}.

Definition with_this (f : NnetTrainer -> NnetTrainer) (p : Process) : Process :=
  {| this := f (this p); c_rand := c_rand p;
     kaldi_log := kaldi_log p; trace := trace p |}.

Definition set_nnet_ (n : Nnet F) (t : NnetTrainer) : NnetTrainer :=
  {| config_ := config_ t; nnet_ := n; delta_nnet_ := delta_nnet_ t;
     num_minibatches_processed_ := num_minibatches_processed_ t;
     srand_seed_ := srand_seed_ t; objf_info_ := objf_info_ t;
     accuracy_info_ := accuracy_info_ t;
     num_max_change_per_component_applied_ :=
       num_max_change_per_component_applied_ t;
     num_max_change_global_applied_ := num_max_change_global_applied_ t |}.

Definition set_delta_nnet_ (n : Nnet F) (t : NnetTrainer) : NnetTrainer :=
  {| config_ := config_ t; nnet_ := nnet_ t; delta_nnet_ := n;
     num_minibatches_processed_ := num_minibatches_processed_ t;
     srand_seed_ := srand_seed_ t; objf_info_ := objf_info_ t;
     accuracy_info_ := accuracy_info_ t;
     num_max_change_per_component_applied_ :=
       num_max_change_per_component_applied_ t;
     num_max_change_global_applied_ := num_max_change_global_applied_ t |}.

Definition set_num_minibatches_processed_ (n : Z) (t : NnetTrainer) : NnetTrainer :=
  {| config_ := config_ t; nnet_ := nnet_ t; delta_nnet_ := delta_nnet_ t;
     num_minibatches_processed_ := n;
     srand_seed_ := srand_seed_ t; objf_info_ := objf_info_ t;
     accuracy_info_ := accuracy_info_ t;
     num_max_change_per_component_applied_ :=
       num_max_change_per_component_applied_ t;
     num_max_change_global_applied_ := num_max_change_global_applied_ t |}.

Definition set_objf_info_ (m : gmap string (ObjectiveFunctionInfo F))
    (t : NnetTrainer) : NnetTrainer :=
  {| config_ := config_ t; nnet_ := nnet_ t; delta_nnet_ := delta_nnet_ t;
     num_minibatches_processed_ := num_minibatches_processed_ t;
     srand_seed_ := srand_seed_ t; objf_info_ := m;
     accuracy_info_ := accuracy_info_ t;
     num_max_change_per_component_applied_ :=
       num_max_change_per_component_applied_ t;
     num_max_change_global_applied_ := num_max_change_global_applied_ t |}.

Definition set_accuracy_info_ (m : gmap string (ObjectiveFunctionInfo F))
    (t : NnetTrainer) : NnetTrainer :=
  {| config_ := config_ t; nnet_ := nnet_ t; delta_nnet_ := delta_nnet_ t;
     num_minibatches_processed_ := num_minibatches_processed_ t;
     srand_seed_ := srand_seed_ t; objf_info_ := objf_info_ t;
     accuracy_info_ := m;
     num_max_change_per_component_applied_ :=
       num_max_change_per_component_applied_ t;
     num_max_change_global_applied_ := num_max_change_global_applied_ t |}.

Definition set_update (n : Nnet F) (d : Nnet F) (per_component : list Z)
    (global : Z) (t : NnetTrainer) : NnetTrainer :=
  {| config_ := config_ t; nnet_ := n; delta_nnet_ := d;
     num_minibatches_processed_ := num_minibatches_processed_ t;
     srand_seed_ := srand_seed_ t; objf_info_ := objf_info_ t;
     accuracy_info_ := accuracy_info_ t;
     num_max_change_per_component_applied_ := per_component;
     num_max_change_global_applied_ := global |}.

(** *** The monad of trainer methods: state, with fatal errors *)

Definition M (A : Type) : Type := Process -> outcome A * Process.

Definition ret {A} (a : A) : M A := fun p => (Ok a, p).

Definition bind {A B} (m : M A) (k : A -> M B) : M B :=
  fun p =>
    match m p with
    | (Ok a, p') => k a p'
    | (Fatal msg, p') => (Fatal msg, p')
    end.

Notation "x <- m ;; k" := (bind m (fun x => k))
  (at level 100, m at level 99, right associativity).
Notation "m ;; k" := (bind m (fun _ => k))
  (at level 100, right associativity).

Definition get : M Process := fun p => (Ok p, p).
Definition modify (f : NnetTrainer -> NnetTrainer) : M unit :=
  fun p => (Ok tt, with_this f p).
Definition KALDI_ERR {A} (msg : string) : M A := fun p => (Fatal msg, p).
Definition KALDI_ASSERT (cond : bool) (text : string) : M unit :=
  fun p => if cond then (Ok tt, p) else (Fatal text, p).
Definition KALDI_LOG (lines : list (LogLine F)) : M unit :=
  fun p => (Ok tt, {| this := this p; c_rand := c_rand p;
                      kaldi_log := kaldi_log p ++ lines; trace := trace p |}).
Definition emit (e : Event) : M unit :=
  fun p => (Ok tt, {| this := this p; c_rand := c_rand p;
                      kaldi_log := kaldi_log p; trace := trace p ++ [e] |}).
Definition lift {A} (o : outcome A) : M A := fun p => (o, p).

(** [srand(seed)]: the argument is converted to [unsigned]. *)
Definition srand (seed : Z) : M unit :=
  fun p => (Ok tt, {| this := this p; c_rand := seed mod 4294967296;
                      kaldi_log := kaldi_log p; trace := trace p ++ [EvSrand seed] |}).

(** [computer.Run()] *)
Definition run (computer : NnetComputer) : M NnetComputer :=
  fun p => let '(computer', r) := Run computer (c_rand p) in
           (Ok computer', {| this := this p; c_rand := r;
                             kaldi_log := kaldi_log p; trace := trace p |}).

(** The test of [Train] and [TrainInternal]: backstitch is on and this
    minibatch is one of those it applies to. *)
Definition is_backstitch_minibatch (config : NnetTrainerOptions)
    (num_minibatches_processed : Z) : bool :=
  (backstitch_training_scale config >! fzero) &&
  (int32_rem num_minibatches_processed (backstitch_training_interval config) =? 0)%Z.

(** [objf_info_[key].UpdateStats(key, ...)]; [operator[]] inserts a
    default record when the key is new. *)
Definition update_objf_info (key : string) (weight objf : F) : M unit :=
  p <- get ;;
  let t := this p in
  let info := default ObjectiveFunctionInfo_new (objf_info_ t !! key) in
  modify (set_objf_info_ (<[key := info]> (objf_info_ t))) ;;
  r <- lift (UpdateStats key (print_interval (config_ t))
               (num_minibatches_processed_ t) weight objf fzero info) ;;
  KALDI_LOG (snd r) ;;
  modify (fun t => set_objf_info_ (<[key := fst r]> (objf_info_ t)) t).

Definition update_accuracy_info (key : string) (weight accuracy : F) : M unit :=
  p <- get ;;
  let t := this p in
  let info := default ObjectiveFunctionInfo_new (accuracy_info_ t !! key) in
  modify (set_accuracy_info_ (<[key := info]> (accuracy_info_ t))) ;;
  r <- lift (UpdateStats key (print_interval (config_ t))
               (num_minibatches_processed_ t) weight accuracy fzero info) ;;
  KALDI_LOG (snd r) ;;
  modify (fun t => set_accuracy_info_ (<[key := fst r]> (accuracy_info_ t)) t).

Fixpoint ProcessOutputs_loop (suffix : string) (ios : list (NnetIo F))
    (computer : NnetComputer) : M NnetComputer :=
  match ios with
  | [] => ret computer
  | io :: rest =>
      p <- get ;;
      let node_index := GetNodeIndex (nnet_ (this p)) (name io) in
      KALDI_ASSERT (0 <=? node_index)%Z "KALDI_ASSERT: node_index >= 0" ;;
      computer <-
        (if IsOutputNode (nnet_ (this p)) node_index then
           let obj_type := node_objective_type (nnet_ (this p)) node_index in
           let supply_deriv := true in
           r <- lift (ComputeObjectiveFunction (features io) obj_type (name io)
                        supply_deriv computer) ;;
           let '(computer, tot_weight, tot_objf) := r in
           update_objf_info (name io ++ suffix) tot_weight tot_objf ;;
           match obj_type with
           | kLinear =>
               let output := GetOutput computer (name io) in
               let '(tot_weight, tot_accuracy) :=
                 ComputeAccuracy (features io) output in
               update_accuracy_info (name io ++ suffix) tot_weight tot_accuracy
           | _ => ret tt
           end ;;
           ret computer
         else ret computer) ;;
      ProcessOutputs_loop suffix rest computer
  end.

Definition ProcessOutputs (is_backstitch_step : bool) (eg : NnetExample F)
    (computer : NnetComputer) : M NnetComputer :=
  let suffix := if is_backstitch_step then "_backstitch" else "" in
  ProcessOutputs_loop suffix (io eg) computer.

(** The three numbers [TrainInternal] settles before it calls the update
    engine: [max_change_scale], [scale_adding], [scale_delta_nnet]. *)
Definition update_parameters (config : NnetTrainerOptions)
    (num_minibatches_processed : Z) (is_backstitch_step : bool) : F * F * F :=
  let max_change_scale := fone in
  let scale_adding := fone -! momentum config in
  let scale_delta_nnet := momentum config in
  if is_backstitch_minibatch config num_minibatches_processed then
    if is_backstitch_step then
      (backstitch_training_scale config,
       -! backstitch_training_scale config,
       fzero)
    else
      (fone +! backstitch_training_scale config,
       fone +! backstitch_training_scale config,
       fzero)
  else (max_change_scale, scale_adding, scale_delta_nnet).

(** The last part of [TrainInternal]: the call of the update engine and
    the scaling of [delta_nnet_]. *)
Definition TrainInternal_update (is_backstitch_step : bool)
    (t : NnetTrainer) : NnetTrainer :=
  let '(max_change_scale, scale_adding, scale_delta_nnet) :=
    update_parameters (config_ t) (num_minibatches_processed_ t)
      is_backstitch_step in
  let '(success, nnet, per_component, global) :=
    UpdateNnetWithMaxChange (delta_nnet_ t) (max_param_change (config_ t))
      max_change_scale scale_adding (nnet_ t)
      (num_max_change_per_component_applied_ t)
      (num_max_change_global_applied_ t) in
  let delta :=
    if success then ScaleNnet scale_delta_nnet (delta_nnet_ t)
    else ScaleNnet fzero (delta_nnet_ t) in
  set_update nnet delta per_component global t.

Definition TrainInternal (eg : NnetExample F) (computation : NnetComputation)
    (is_backstitch_step : bool) : M unit :=
  emit (EvTrainInternal is_backstitch_step) ;;
  p <- get ;;
  let computer :=
    NnetComputer_new computation (nnet_ (this p)) (delta_nnet_ (this p)) in
  let computer := AcceptInputs (nnet_ (this p)) (io eg) computer in
  computer <- run computer ;;
  computer <- ProcessOutputs is_backstitch_step eg computer ;;
  computer <- run computer ;;
  modify (set_delta_nnet_ (nnet_to_update computer)) ;;
  modify (TrainInternal_update is_backstitch_step).

(** The two lines before each sub-step of a backstitch minibatch:
    [srand(srand_seed_ + num_minibatches_processed_)] and
    [ResetGenerators(nnet_)]. *)
Definition reseed : M unit :=
  p <- get ;;
  srand (int32_add (srand_seed_ (this p)) (num_minibatches_processed_ (this p))) ;;
  emit EvResetGenerators ;;
  modify (fun t => set_nnet_ (ResetGenerators (nnet_ t)) t).

(** [FreezeNaturalGradient(freeze, delta_nnet_)] *)
Definition freeze_natural_gradient (freeze : bool) : M unit :=
  emit (EvFreezeNaturalGradient freeze) ;;
  modify (fun t => set_delta_nnet_ (FreezeNaturalGradient freeze (delta_nnet_ t)) t).

Definition Train (eg : NnetExample F) : M unit :=
  p <- get ;;
  let need_model_derivative := true in
  let computation :=
    Compile (nnet_ (this p)) eg need_model_derivative
      (store_component_stats (config_ (this p))) in
  (if is_backstitch_minibatch (config_ (this p))
        (num_minibatches_processed_ (this p)) then
     KALDI_ASSERT (momentum (config_ (this p)) ==! fzero)
       "KALDI_ASSERT: config_.momentum == 0.0" ;;
     freeze_natural_gradient true ;;
     reseed ;;
     TrainInternal eg computation true ;;
     freeze_natural_gradient false ;;
     reseed ;;
     TrainInternal eg computation false
   else
     TrainInternal eg computation false) ;;
  modify (fun t => set_num_minibatches_processed_
                     (int32_add (num_minibatches_processed_ t) 1) t).

(** The share of minibatches, in percent, in which a max-change was
    enforced. *)
Definition max_change_percent (count : Z) (t : NnetTrainer) : F :=
  of_int32 100 *! of_int32 count /! of_int32 (num_minibatches_processed_ t)
  /! (if backstitch_training_scale (config_ t) >! fzero then of_int32 2
      else fone).

Fixpoint PrintMaxChangeStats_loop (comps : list (Component F)) (i : nat)
    : M unit :=
  match comps with
  | [] => ret tt
  | comp :: rest =>
      if updatable_property comp then
        (if inherits_UpdatableComponent comp then ret tt
         else KALDI_ERR "Updatable component does not inherit from class UpdatableComponent; change this code.") ;;
        p <- get ;;
        let count :=
          default 0%Z (num_max_change_per_component_applied_ (this p) !! i) in
        (if (count >? 0)%Z then
           KALDI_LOG [LogMaxChangeComponent (component_name comp)
                        (max_change_percent count (this p))]
         else ret tt) ;;
        PrintMaxChangeStats_loop rest (S i)
      else PrintMaxChangeStats_loop rest i
  end.

(** [KALDI_ASSERT(delta_nnet_ != NULL)] holds by construction: the trainer
    of the model always has its [delta_nnet_]. *)
Definition PrintMaxChangeStats : M unit :=
  p <- get ;;
  PrintMaxChangeStats_loop (components (delta_nnet_ (this p))) 0 ;;
  let count := num_max_change_global_applied_ (this p) in
  if (count >? 0)%Z then
    KALDI_LOG [LogMaxChangeGlobal (max_change_percent count (this p))]
  else ret tt.

(** [ans = ans || info.PrintTotalStats(name)] over the entries of a map:
    once [ans] is true the call is skipped.  The program iterates an
    [unordered_map], whose order is not fixed; [PrintTotalStats] below
    takes the entries in the order of [map_to_list]. *)
Fixpoint PrintTotalStats_loop
    (entries : list (string * ObjectiveFunctionInfo F)) (ans : bool) : M bool :=
  match entries with
  | [] => ret ans
  | (nm, info) :: rest =>
      ans <- (if ans then ret true
              else
                let '(b, lines) := ObjectiveFunctionInfo_PrintTotalStats nm info in
                KALDI_LOG lines ;; ret b) ;;
      PrintTotalStats_loop rest ans
  end.

Definition PrintTotalStats : M bool :=
  p <- get ;;
  let ans := false in
  ans <- PrintTotalStats_loop (map_to_list (objf_info_ (this p))) ans ;;
  let ans := false in
  KALDI_LOG [LogAccuracyFollows] ;;
  ans <- PrintTotalStats_loop (map_to_list (accuracy_info_ (this p))) ans ;;
  PrintMaxChangeStats ;;
  ret ans.

(** The constructor.  [rand_int] is the value of [RandInt(0, 100000)],
    [cache_opens] whether [read_cache] could be opened.  The result is the
    new trainer and the lines logged. *)
Definition NnetTrainer_new (config : NnetTrainerOptions) (nnet : Nnet F)
    (rand_int : Z) (cache_opens : bool)
    : outcome (NnetTrainer * list (LogLine F)) :=
  let nnet := if zero_component_stats config then ZeroComponentStats nnet
              else nnet in
  if negb ((momentum config >=! fzero) && (max_param_change config >=! fzero))
  then Fatal "KALDI_ASSERT: config.momentum >= 0.0 && config.max_param_change >= 0.0"
  else
    let delta_nnet := nnet in
    let delta_nnet := ScaleNnet fzero delta_nnet in
    let num_updatable := NumUpdatableComponents delta_nnet in
    let lines :=
      if negb (String.eqb (read_cache config) "") then
        if cache_opens then [LogReadCache (read_cache config)]
        else [WarnNoCache]
      else [] in
    Ok ({| config_ := config;
           nnet_ := nnet;
           delta_nnet_ := delta_nnet;
           num_minibatches_processed_ := 0;
           srand_seed_ := rand_int;
           objf_info_ := ∅;
           accuracy_info_ := ∅;
           num_max_change_per_component_applied_ := replicate num_updatable 0%Z;
           num_max_change_global_applied_ := 0 |},
        lines).

(** The process in which a trainer starts: generator state [r], the lines
    the constructor logged, no event yet. *)
Definition start (t : NnetTrainer) (lines : list (LogLine F)) (r : Z) : Process :=
  {| this := t; c_rand := r; kaldi_log := lines; trace := [] |}.

(** The sub-steps among a list of events. *)
Definition substeps (events : list Event) : list bool :=
  omap (fun e => match e with EvTrainInternal b => Some b | _ => None end)
       events.

(** [extends p events p']: from [p] to [p'] the configuration, the
    minibatch counter and the seed are unchanged and [events] were added
    to the trace. *)
Definition extends (p : Process) (events : list Event) (p' : Process) : Prop :=
  config_ (this p') = config_ (this p) /\
  num_minibatches_processed_ (this p') = num_minibatches_processed_ (this p) /\
  srand_seed_ (this p') = srand_seed_ (this p) /\
  trace p' = trace p ++ events.

(** A computation that adds no event. *)
Definition quiet {A} (m : M A) : Prop :=
  forall p, extends p [] (snd (m p)).

End Training.

Arguments NnetTrainerOptions F : clear implicits.
Arguments NnetTrainer F : clear implicits.
Arguments Process F : clear implicits.
Arguments M F A : clear implicits.

(** ** An instance: exact rationals and a table-driven executor *)

(** [BaseFloat] read as the rationals in lowest terms. *)
Definition Qc_gtb (x y : Qc) : bool :=
  match (x ?= y)%Qc with Gt => true | _ => false end.

Definition Qc_geb (x y : Qc) : bool :=
  match (x ?= y)%Qc with Lt => false | _ => true end.

#[export] Instance Qc_ops : BaseFloatOps Qc := {|
  fzero := Q2Qc 0;
  fone := Q2Qc 1;
  flit_half := Q2Qc (1 # 2);
  fadd := Qcplus;
  fsub := Qcminus;
  fmul := Qcmult;
  fdiv := Qcdiv;
  fopp := Qcopp;
  fgt := Qc_gtb;
  fge := Qc_geb;
  feq := Qc_eq_bool;
  of_int32 := fun z => Q2Qc (inject_Z z)
|}.

Section TableExecutor.
Context {F : Type} {ops : BaseFloatOps F}.

(** An executor that looks its outputs up in a table and records the
    derivatives it is given. *)
Record TableComputer : Type := {
  tc_outputs : list (string * Matrix F);
  tc_derivs : list (string * Matrix F);
  tc_delta : Nnet F
}.

Fixpoint table_lookup (nm : string) (l : list (string * Matrix F)) : Matrix F :=
  match l with
  | [] => []
  | (nm', m) :: rest => if String.eqb nm nm' then m else table_lookup nm rest
  end.

(** The compiled computation of an example: for every stream the dense
    view of its features, which the executor returns as the output of that
    name. *)
Definition table_of_example (eg : NnetExample F) : list (string * Matrix F) :=
  map (fun i => (name i, GeneralMatrix_GetMatrix (features i))) (io eg).

#[export] Instance table_collaborators : Collaborators F := {|
  NnetComputation := list (string * Matrix F);
  NnetComputer := TableComputer;
  Compile := fun _ eg _ _ => table_of_example eg;
  NnetComputer_new := fun computation _ delta =>
    {| tc_outputs := computation; tc_derivs := []; tc_delta := delta |};
  AcceptInputs := fun _ _ c => c;
  Run := fun c r => (c, r);
  GetOutput := fun c nm => table_lookup nm (tc_outputs c);
  AcceptInput := fun nm m c =>
    {| tc_outputs := tc_outputs c; tc_derivs := tc_derivs c ++ [(nm, m)];
       tc_delta := tc_delta c |};
  nnet_to_update := tc_delta;
  UpdateNnetWithMaxChange := fun _ _ _ _ nnet per_component global =>
    (true, nnet, per_component, global);
  ComputeAccuracy := fun _ _ => (fzero, fzero);
  FreezeNaturalGradient := fun _ nnet => nnet;
  ResetGenerators := fun nnet => nnet;
  ZeroComponentStats := fun nnet => nnet
|}.

(** The same executor with an update engine that reports failure and
    changes nothing. *)
Definition refusing_collaborators : Collaborators F := {|
  NnetComputation := list (string * Matrix F);
  NnetComputer := TableComputer;
  Compile := fun _ eg _ _ => table_of_example eg;
  NnetComputer_new := fun computation _ delta =>
    {| tc_outputs := computation; tc_derivs := []; tc_delta := delta |};
  AcceptInputs := fun _ _ c => c;
  Run := fun c r => (c, r);
  GetOutput := fun c nm => table_lookup nm (tc_outputs c);
  AcceptInput := fun nm m c =>
    {| tc_outputs := tc_outputs c; tc_derivs := tc_derivs c ++ [(nm, m)];
       tc_delta := tc_delta c |};
  nnet_to_update := tc_delta;
  UpdateNnetWithMaxChange := fun _ _ _ _ nnet per_component global =>
    (false, nnet, per_component, global);
  ComputeAccuracy := fun _ _ => (fzero, fzero);
  FreezeNaturalGradient := fun _ nnet => nnet;
  ResetGenerators := fun nnet => nnet;
  ZeroComponentStats := fun nnet => nnet
|}.

End TableExecutor.
Arguments TableComputer F : clear implicits.

(** A network with one input and one linear and one quadratic output, and
    one updatable component. *)
Definition sample_nnet : Nnet Qc :=
  {| nodes := [("input", InputNode); ("output", OutputNode kLinear);
               ("target", OutputNode kQuadratic)];
     components :=
       [{| component_name := "affine1"; updatable_property := true;
           inherits_UpdatableComponent := true;
           params := [Q2Qc 1; Q2Qc 2] |}] |}.

(** The supervision of the specification's example: one row, four columns,
    probability mass 1 at column 2, in the three encodings. *)
Definition sample_dense : Matrix Qc :=
  [[Q2Qc 0; Q2Qc 0; Q2Qc 1; Q2Qc 0]].

Definition sample_sparse : SparseMatrix Qc :=
  [{| sv_dim := 4; sv_pairs := [(2, Q2Qc 1)] |}].

Definition sample_output : Matrix Qc :=
  [[Q2Qc (-1); Q2Qc (-2); Q2Qc (-3); Q2Qc (-4)]].

Definition sample_computer : TableComputer Qc :=
  {| tc_outputs := [("output", sample_output)]; tc_derivs := [];
     tc_delta := sample_nnet |}.

Definition sample_eg : NnetExample Qc :=
  {| io := [{| name := "input"; features := kFullMatrix [[Q2Qc 1]] |};
            {| name := "output"; features := kSparseMatrix sample_sparse |}] |}.

(** Backstitch at every minibatch, no momentum. *)
Definition backstitch_config : NnetTrainerOptions Qc :=
  {| zero_component_stats := true; store_component_stats := false;
     print_interval := 100; momentum := Q2Qc 0; max_param_change := Q2Qc 2;
     backstitch_training_scale := Q2Qc 1; backstitch_training_interval := 1;
     read_cache := "" |}.

(** Momentum one half, no backstitch. *)
Definition momentum_config : NnetTrainerOptions Qc :=
  {| zero_component_stats := true; store_component_stats := false;
     print_interval := 100; momentum := Q2Qc (1 # 2);
     max_param_change := Q2Qc 2;
     backstitch_training_scale := Q2Qc 0; backstitch_training_interval := 1;
     read_cache := "" |}.

(** Momentum one half together with backstitch. *)
Definition conflicting_config : NnetTrainerOptions Qc :=
  {| zero_component_stats := true; store_component_stats := false;
     print_interval := 100; momentum := Q2Qc (1 # 2);
     max_param_change := Q2Qc 2;
     backstitch_training_scale := Q2Qc 1; backstitch_training_interval := 1;
     read_cache := "" |}.

Definition trainer_of (config : NnetTrainerOptions Qc) : NnetTrainer Qc :=
  {| config_ := config; nnet_ := sample_nnet;
     delta_nnet_ := ScaleNnet (Q2Qc 0) sample_nnet;
     num_minibatches_processed_ := 0; srand_seed_ := 4711;
     objf_info_ := ∅; accuracy_info_ := ∅;
     num_max_change_per_component_applied_ := [0%Z];
     num_max_change_global_applied_ := 0 |}.

Definition process_of (config : NnetTrainerOptions Qc) : Process Qc :=
  start (trainer_of config) [] 1.

(** A trainer that has seen one minibatch of weight 1 for "output" and has
    no accuracy statistics. *)
Definition sample_info : ObjectiveFunctionInfo Qc :=
  {| current_phase := 0;
     tot_weight := Q2Qc 1; tot_objf := Q2Qc (-3); tot_aux_objf := Q2Qc 0;
     tot_weight_this_phase := Q2Qc 1; tot_objf_this_phase := Q2Qc (-3);
     tot_aux_objf_this_phase := Q2Qc 0 |}.

Definition stats_process : Process Qc :=
  {| this :=
       {| config_ := momentum_config; nnet_ := sample_nnet;
          delta_nnet_ := ScaleNnet (Q2Qc 0) sample_nnet;
          num_minibatches_processed_ := 1; srand_seed_ := 4711;
          objf_info_ := {[ "output" := sample_info ]};
          accuracy_info_ := ∅;
          num_max_change_per_component_applied_ := [0%Z];
          num_max_change_global_applied_ := 0 |};
     c_rand := 1; kaldi_log := []; trace := [] |}.

(** The trainer of [stats_process] after a backstitch minibatch: a record
    for "output" and one for "output_backstitch", both with data. *)
Definition backstitch_stats_process : Process Qc :=
  {| this :=
       {| config_ := backstitch_config; nnet_ := sample_nnet;
          delta_nnet_ := ScaleNnet (Q2Qc 0) sample_nnet;
          num_minibatches_processed_ := 1; srand_seed_ := 4711;
          objf_info_ := {[ "output" := sample_info;
                           "output_backstitch" := sample_info ]};
          accuracy_info_ := ∅;
          num_max_change_per_component_applied_ := [0%Z];
          num_max_change_global_applied_ := 0 |};
     c_rand := 1; kaldi_log := []; trace := [] |}.

(** A trainer in the middle of training: [delta_nnet_] holds the
    parameters 1 and 2 of the last minibatch. *)
Definition carrying_trainer (config : NnetTrainerOptions Qc) : NnetTrainer Qc :=
  {| config_ := config; nnet_ := sample_nnet;
     delta_nnet_ := sample_nnet;
     num_minibatches_processed_ := 0; srand_seed_ := 4711;
     objf_info_ := ∅; accuracy_info_ := ∅;
     num_max_change_per_component_applied_ := [0%Z];
     num_max_change_global_applied_ := 0 |}.

(** A dense supervision of one row and two columns. *)
Definition two_column_supervision : GeneralMatrix Qc :=
  kFullMatrix [[Q2Qc 1; Q2Qc 0]].

(** An example with the input stream only, and one with a stream that
    is no node of [sample_nnet]. *)
Definition input_only_eg : NnetExample Qc :=
  {| io := [{| name := "input"; features := kFullMatrix [[Q2Qc 1]] |}] |}.

Definition unknown_eg : NnetExample Qc :=
  {| io := [{| name := "ivector"; features := kFullMatrix [[Q2Qc 1]] |}] |}.

(** ** Sequences of calls and what a method may touch *)

Section Sequences.
Context {F : Type} {ops : BaseFloatOps F} {ext : Collaborators F}.

(** [x] added [k] times to zero, in the order the accumulators of
    [UpdateStats] do it: [((0 + x) + x) + ...]. *)
Definition repeat_add (k : nat) (x : F) : F :=
  Nat.iter k (fun acc => acc +! x) fzero.

(** Of [n] minibatches fed with [K] per phase, the number that lie in the
    phase of the last one. *)
Definition in_phase (K n : nat) : nat := n - K * (Nat.pred n / K).

(** The statistics record after [n] minibatches with the counters
    [0 .. n-1], each of the same weight and objective. *)
Definition state_after (K : nat) (weight objf : F) (n : nat)
    : ObjectiveFunctionInfo F :=
  {| current_phase := Z.of_nat (Nat.pred n / K);
     tot_weight := repeat_add n weight;
     tot_objf := repeat_add n objf;
     tot_aux_objf := repeat_add n fzero;
     tot_weight_this_phase := repeat_add (in_phase K n) weight;
     tot_objf_this_phase := repeat_add (in_phase K n) objf;
     tot_aux_objf_this_phase := repeat_add (in_phase K n) fzero |}.

(** [Train] called on one example after the other. *)
Fixpoint Train_all (egs : list (NnetExample F)) : M F unit :=
  match egs with
  | [] => ret tt
  | eg :: rest => bind (Train eg) (fun _ => Train_all rest)
  end.

(** How many of the [k] minibatches from counter [n] on are backstitch
    minibatches. *)
Definition backstitch_minibatches (config : NnetTrainerOptions F) (n : Z)
    (k : nat) : nat :=
  length (List.filter (is_backstitch_minibatch config)
            (map (fun i => (n + Z.of_nat i)%Z) (seq 0 k))).

(** The events [Train] adds before and with the first sub-step of a
    backstitch minibatch, and those of the second sub-step. *)
Definition backstitch_first (seed : Z) : list Event :=
  [EvFreezeNaturalGradient true; EvSrand seed; EvResetGenerators;
   EvTrainInternal true].

Definition backstitch_second (seed : Z) : list Event :=
  [EvFreezeNaturalGradient false; EvSrand seed; EvResetGenerators;
   EvTrainInternal false].

(** The process in which a sub-step of a backstitch minibatch starts:
    the natural gradient of [delta_nnet_] frozen or unfrozen, the C
    generator seeded with [seed] (converted to [unsigned]), the generators
    of [nnet_] reset; everything else as in [p]. *)
Definition substep_entry (freeze : bool) (seed : Z) (p : Process F) : Process F :=
  {| this :=
       set_nnet_
         (ResetGenerators (nnet_ (this p)))
         (set_delta_nnet_ (FreezeNaturalGradient freeze (delta_nnet_ (this p)))
            (this p));
     c_rand := seed mod 4294967296;
     kaldi_log := kaldi_log p;
     trace := trace p ++ [EvFreezeNaturalGradient freeze; EvSrand seed;
                          EvResetGenerators] |}.

(** [PrintTotalStats] with the order in which the two [unordered_map]s are
    iterated given by the lists of their entries: the container fixes no
    order, [PrintTotalStats] above takes that of [map_to_list]. *)
Definition PrintTotalStats_in_order
    (objf_entries accuracy_entries : list (string * ObjectiveFunctionInfo F))
    : M F bool :=
  let ans := false in
  bind (PrintTotalStats_loop objf_entries ans) (fun ans =>
  let ans := false in
  bind (KALDI_LOG [LogAccuracyFollows]) (fun _ =>
  bind (PrintTotalStats_loop accuracy_entries ans) (fun ans =>
  bind PrintMaxChangeStats (fun _ =>
  ret ans)))).

(** [p'] differs from [p] at most in the two statistics maps and in lines
    added to the log. *)
Definition only_stats (p p' : Process F) : Prop :=
  config_ (this p') = config_ (this p) /\
  nnet_ (this p') = nnet_ (this p) /\
  delta_nnet_ (this p') = delta_nnet_ (this p) /\
  num_minibatches_processed_ (this p') = num_minibatches_processed_ (this p) /\
  srand_seed_ (this p') = srand_seed_ (this p) /\
  num_max_change_per_component_applied_ (this p') =
    num_max_change_per_component_applied_ (this p) /\
  num_max_change_global_applied_ (this p') =
    num_max_change_global_applied_ (this p) /\
  c_rand p' = c_rand p /\
  trace p' = trace p /\
  exists lines, kaldi_log p' = kaldi_log p ++ lines.

(** [p'] differs from [p] at most in lines added to the log. *)
Definition only_log (p p' : Process F) : Prop :=
  this p' = this p /\ c_rand p' = c_rand p /\ trace p' = trace p /\
  exists lines, kaldi_log p' = kaldi_log p ++ lines.

(** The entries [PrintTotalStats_loop] prints when it starts with
    [ans = false]: those up to the first one that has data. *)
Fixpoint printed_entries (entries : list (string * ObjectiveFunctionInfo F))
    : list (string * ObjectiveFunctionInfo F) :=
  match entries with
  | [] => []
  | e :: rest => if has_data e then [e] else e :: printed_entries rest
  end.

Definition total_lines (entries : list (string * ObjectiveFunctionInfo F))
    : list (LogLine F) :=
  concat (map (fun e => snd (ObjectiveFunctionInfo_PrintTotalStats (fst e) (snd e)))
              entries).

(** The keys under which [ProcessOutputs] records the objective of the
    streams [ios]: the names of those that are output nodes, with the
    suffix; and the keys under which it records an accuracy: those of the
    linear output nodes. *)
Definition objf_keys (nnet : Nnet F) (suffix : string) (ios : list (NnetIo F))
    : list string :=
  map (fun i => (name i ++ suffix)%string)
      (List.filter (fun i => IsOutputNode nnet (GetNodeIndex nnet (name i))) ios).

Definition is_linear_output (nnet : Nnet F) (i : NnetIo F) : bool :=
  match GetNode nnet (GetNodeIndex nnet (name i)) with
  | OutputNode kLinear => true
  | _ => false
  end.

Definition accuracy_keys (nnet : Nnet F) (suffix : string)
    (ios : list (NnetIo F)) : list string :=
  map (fun i => (name i ++ suffix)%string)
      (List.filter (is_linear_output nnet) ios).

(** Two models have the same topology: the same nodes, and components of
    the same names and kinds in the same order. *)
Definition same_topology (a b : Nnet F) : Prop :=
  nodes a = nodes b /\
  map (fun c => (component_name c, updatable_property c,
                 inherits_UpdatableComponent c, length (params c)))
      (components a) =
  map (fun c => (component_name c, updatable_property c,
                 inherits_UpdatableComponent c, length (params c)))
      (components b).

(** A component that has the updatable property without deriving from
    [UpdatableComponent]. *)
Definition bad_component (comp : Component F) : Prop :=
  updatable_property comp = true /\ inherits_UpdatableComponent comp = false.

(** From [p] to [p'] only statistics changed, of the objective only under
    the keys [keys_o] and of the accuracy only under the keys [keys_a], and
    no record was dropped. *)
Definition stats_grow (keys_o keys_a : list string) (p p' : Process F) : Prop :=
  only_stats p p' /\
  (forall key, key ∉ keys_o ->
     objf_info_ (this p') !! key = objf_info_ (this p) !! key) /\
  (forall key, key ∉ keys_a ->
     accuracy_info_ (this p') !! key = accuracy_info_ (this p) !! key) /\
  (forall key, is_Some (objf_info_ (this p) !! key) ->
     is_Some (objf_info_ (this p') !! key)) /\
  (forall key, is_Some (accuracy_info_ (this p) !! key) ->
     is_Some (accuracy_info_ (this p') !! key)).

(** The accuracy part of one pass of the loop of [ProcessOutputs]. *)
Definition accuracy_step (obj_type : ObjectiveType) (io : NnetIo F)
    (key : string) (computer : NnetComputer) : M F unit :=
  match obj_type with
  | kLinear =>
      let output := GetOutput computer (name io) in
      let '(tot_weight, tot_accuracy) := ComputeAccuracy (features io) output in
      update_accuracy_info key tot_weight tot_accuracy
  | _ => ret tt
  end.

End Sequences.

(** * Results *)

(** ** Sums, dot products and sparse rows *)

Section MatrixFacts.
Context {F : Type} {ops : BaseFloatOps F} {exact : BaseFloatExact F}.

Add Ring bf_ring_matrix : (@bf_ring F ops exact).

Lemma fmul_zero_r (x : F) : x *! fzero = fzero.
Proof. ring. Qed.

Lemma fmul_zero_l (x : F) : fzero *! x = fzero.
Proof. ring. Qed.

Lemma VecSum_cons (x : F) (v : list F) : VecSum (x :: v) = x +! VecSum v.
Proof. reflexivity. Qed.

Lemma VecVec_nil_l (b : list F) : VecVec [] b = fzero.
Proof. reflexivity. Qed.

Lemma VecVec_nil_r (a : list F) : VecVec a [] = fzero.
Proof. destruct a; reflexivity. Qed.

Lemma VecVec_cons (x y : F) (a b : list F) :
  VecVec (x :: a) (y :: b) = x *! y +! VecVec a b.
Proof. reflexivity. Qed.

Lemma VecVec_zeros (a : list F) (n : nat) : VecVec a (replicate n fzero) = fzero.
Proof.
  revert a; induction n as [|n IH]; intros [|x a]; simpl;
    rewrite ?VecVec_nil_l, ?VecVec_nil_r, ?VecVec_cons, ?IH; try reflexivity.
  ring.
Qed.

(** Writing [v] at a position that holds zero adds [a_j * v] to the dot
    product, where [a_j] is zero past the end of [a]. *)
Lemma VecVec_insert (a d : list F) (j : nat) (v : F) :
  d !! j = Some fzero ->
  VecVec a (<[j := v]> d) = VecVec a d +! default fzero (a !! j) *! v.
Proof.
  revert a j; induction d as [|y d IH]; intros a j Hj; [discriminate|].
  destruct a as [|x a].
  - rewrite !VecVec_nil_l. simpl. ring.
  - destruct j as [|j]; simpl in *.
    + injection Hj as ->. rewrite !VecVec_cons. ring.
    + rewrite !VecVec_cons, (IH a j Hj). ring.
Qed.

Lemma VecVec_write_pairs (a : list F) (pairs : list (nat * F)) (d : list F) :
  NoDup (map fst pairs) ->
  Forall (fun p => d !! fst p = Some fzero) pairs ->
  VecVec a (foldl (fun v p => <[fst p := snd p]> v) d pairs) =
  VecVec a d +! VecSum (map (fun p => default fzero (a !! fst p) *! snd p) pairs).
Proof.
  revert d; induction pairs as [|[j v] pairs IH]; intros d Hnd Hz;
    cbn [foldl map fst snd].
  - change (VecSum []) with (@fzero F _). ring.
  - inversion Hnd as [|? ? Hnotin Hnd']; subst.
    inversion Hz as [|? ? Hj Hz']; subst. cbn [fst] in Hj.
    rewrite IH; [|assumption|].
    + rewrite (VecVec_insert a d j v Hj), VecSum_cons. ring.
    + rewrite Forall_forall in Hz'. rewrite Forall_forall. intros [j' v'] Hin. simpl.
      rewrite list_lookup_insert_ne; [exact (Hz' _ Hin)|].
      intros ->. apply Hnotin. apply list_elem_of_In.
      apply in_map_iff. exists (j', v'). split; [reflexivity|].
      apply list_elem_of_In. exact Hin.
Qed.

Lemma CopyElementsToVec_length (sv : SparseVector F) (vec : list F) :
  length (CopyElementsToVec sv vec) = length vec.
Proof.
  unfold CopyElementsToVec.
  generalize (replicate (length vec) fzero) (length_replicate (length vec) (@fzero F _)).
  induction (sv_pairs sv) as [|p ps IH]; intros d Hd; simpl; [exact Hd|].
  apply IH. rewrite length_insert. exact Hd.
Qed.

Lemma CopyElementsToVec_length_only (sv : SparseVector F) (vec vec' : list F) :
  length vec = length vec' ->
  CopyElementsToVec sv vec = CopyElementsToVec sv vec'.
Proof. unfold CopyElementsToVec. intros ->. reflexivity. Qed.

(** The dot product with the dense view of a sparse row is the sum over
    its stored entries. *)
Lemma VecVec_CopyElementsToVec (a : list F) (sv : SparseVector F) :
  SparseVector_wf sv ->
  VecVec a (CopyElementsToVec sv (replicate (sv_dim sv) fzero)) = VecSvec a sv.
Proof.
  intros [Hnd Hlt]. unfold CopyElementsToVec, VecSvec.
  rewrite length_replicate, VecVec_write_pairs; [|exact Hnd|].
  - rewrite VecVec_zeros. ring.
  - eapply Forall_impl; [exact Hlt|]. intros p Hp. simpl in Hp.
    apply lookup_replicate_2. exact Hp.
Qed.

Lemma VecVec_ones (d : list F) : VecVec (replicate (length d) fone) d = VecSum d.
Proof.
  induction d as [|y d IH]; [reflexivity|]. cbn [length replicate].
  rewrite VecVec_cons, VecSum_cons, IH. ring.
Qed.

Lemma VecSum_CopyElementsToVec (sv : SparseVector F) :
  SparseVector_wf sv ->
  VecSum (CopyElementsToVec sv (replicate (sv_dim sv) fzero)) = SparseVector_Sum sv.
Proof.
  intros Hwf. rewrite <- VecVec_ones, CopyElementsToVec_length, length_replicate.
  rewrite (VecVec_CopyElementsToVec _ sv Hwf).
  destruct Hwf as [_ Hlt]. unfold VecSvec, SparseVector_Sum. f_equal.
  induction Hlt as [|p ps Hp _ IH]; [reflexivity|]. cbn [map].
  rewrite IH, (lookup_replicate_2 _ _ _ Hp). cbn [default]. unfold id. f_equal. ring.
Qed.

Lemma SparseMatrix_wf_rows (s : SparseMatrix F) :
  SparseMatrix_wf s -> Forall SparseVector_wf s.
Proof.
  unfold SparseMatrix_wf. intros Hwf.
  eapply Forall_impl; [exact Hwf|]. intros sv [Hsv _]. exact Hsv.
Qed.

Lemma Sum_SparseMatrix_dense (s : SparseMatrix F) :
  Forall SparseVector_wf s -> Sum (SparseMatrix_dense s) = SparseMatrix_Sum s.
Proof.
  unfold Sum, SparseMatrix_dense, SparseMatrix_Sum. intros Hwf. f_equal.
  induction Hwf as [|sv s Hsv _ IH]; [reflexivity|]. cbn [map].
  rewrite IH, (VecSum_CopyElementsToVec sv Hsv). reflexivity.
Qed.

Lemma TraceMatMat_SparseMatrix_dense (A : Matrix F) (s : SparseMatrix F) :
  Forall SparseVector_wf s ->
  TraceMatMat_kTrans A (SparseMatrix_dense s) = TraceMatSmat_kTrans A s.
Proof.
  unfold TraceMatMat_kTrans, TraceMatSmat_kTrans, SparseMatrix_dense.
  intros Hwf. f_equal. revert A.
  induction Hwf as [|sv s Hsv _ IH]; intros [|a A]; try reflexivity.
  cbn [map zip_with].
  rewrite IH, (VecVec_CopyElementsToVec a sv Hsv). reflexivity.
Qed.

(** Copying a sparse matrix into a fresh matrix of its own shape gives its
    dense view. *)
Lemma SparseMatrix_CopyToMat_new (s : SparseMatrix F) :
  SparseMatrix_wf s ->
  SparseMatrix_CopyToMat s (Matrix_new (length s) (SparseMatrix_NumCols s)) =
  SparseMatrix_dense s.
Proof.
  unfold SparseMatrix_wf, SparseMatrix_CopyToMat, Matrix_new, SparseMatrix_dense.
  generalize (SparseMatrix_NumCols s) as c. intros c Hwf.
  induction Hwf as [|sv s [_ Hdim] _ IH]; [reflexivity|].
  cbn [length replicate zip_with map].
  rewrite IH. f_equal. apply CopyElementsToVec_length_only.
  rewrite !length_replicate. symmetry. exact Hdim.
Qed.

Lemma SparseMatrix_dense_NumCols (s : SparseMatrix F) :
  NumCols (SparseMatrix_dense s) = SparseMatrix_NumCols s.
Proof.
  destruct s as [|sv s]; [reflexivity|]. simpl.
  rewrite CopyElementsToVec_length. apply length_replicate.
Qed.

Lemma SparseMatrix_dense_length (s : SparseMatrix F) :
  length (SparseMatrix_dense s) = length s.
Proof. unfold SparseMatrix_dense. apply length_map. Qed.

Lemma Shape_NumCols (m m' : Matrix F) (r c : nat) :
  Shape m r c -> Shape m' r c -> NumCols m = NumCols m'.
Proof.
  intros [Hr Hc] [Hr' Hc']. destruct m as [|row m], m' as [|row' m']; simpl in *;
    try congruence.
  inversion Hc; inversion Hc'; congruence.
Qed.

Lemma VecVec_diag (v : list F) : VecVec v v = VecSum (map (fun d => d *! d) v).
Proof.
  induction v as [|x v IH]; [reflexivity|].
  rewrite VecVec_cons. cbn [map]. rewrite VecSum_cons, IH. reflexivity.
Qed.

Lemma TraceMatMat_diag (m : Matrix F) :
  TraceMatMat_kTrans m m = Sum (map (map (fun d => d *! d)) m).
Proof.
  unfold TraceMatMat_kTrans, Sum. f_equal.
  induction m as [|row m IH]; [reflexivity|]. cbn [map zip_with].
  rewrite IH, VecVec_diag. reflexivity.
Qed.

Lemma AddMat_minus_one (A B : Matrix F) :
  AddMat (-! fone) B A = Matrix_sub A B.
Proof.
  unfold AddMat, Matrix_sub.
  apply zip_with_ext; [|reflexivity|reflexivity]. intros a b.
  apply zip_with_ext; [|reflexivity|reflexivity]. intros x y. ring.
Qed.

Lemma sum_squared_differences_diag (m : Matrix F) :
  sum_squared_differences m m = fzero.
Proof.
  unfold sum_squared_differences, Sum, Matrix_sub.
  induction m as [|row m IH]; [reflexivity|]. cbn [map zip_with].
  rewrite VecSum_cons, IH.
  assert (Hrow : VecSum (map (fun d => d *! d) (zip_with fsub row row)) = fzero).
  { induction row as [|x row IHr]; [reflexivity|]. cbn [map zip_with].
    rewrite VecSum_cons, IHr. ring. }
  rewrite Hrow. ring.
Qed.

End MatrixFacts.

(** ** ComputeObjectiveFunction *)

Section ObjectiveFacts.
Context {F : Type} {ops : BaseFloatOps F} {ext : Collaborators F}.

Lemma GeneralMatrix_GetMatrix_NumCols (g : GeneralMatrix F) :
  NumCols (GeneralMatrix_GetMatrix g) = GeneralMatrix_NumCols g.
Proof.
  destruct g as [mat|smat|cmat]; try reflexivity.
  destruct smat as [|sv s]; [reflexivity|]. simpl.
  unfold CopyElementsToVec.
  generalize (replicate (length (replicate (sv_dim sv) (@fzero F _))) (@fzero F _))
             (eq_trans (length_replicate (length (replicate (sv_dim sv) (@fzero F _))) (@fzero F _))
                       (length_replicate (sv_dim sv) (@fzero F _))).
  induction (sv_pairs sv) as [|p ps IH]; intros d Hd; simpl; [exact Hd|].
  apply IH. rewrite length_insert. exact Hd.
Qed.

Lemma GeneralMatrix_GetMatrix_NumRows (g : GeneralMatrix F) :
  NumRows (GeneralMatrix_GetMatrix g) = GeneralMatrix_NumRows g.
Proof.
  destruct g as [mat|smat|cmat]; try reflexivity.
  simpl. unfold NumRows, SparseMatrix_dense, SparseMatrix_NumRows.
  apply length_map.
Qed.

(** The two [KALDI_ERR] exits. *)
Lemma ComputeObjectiveFunction_exits (supervision : GeneralMatrix F)
    (objective_type : ObjectiveType) (output_name : string)
    (supply_deriv : bool) (computer : NnetComputer) :
  (is_fatal (ComputeObjectiveFunction supervision objective_type output_name
               supply_deriv computer) = true <->
   (NumCols (GetOutput computer output_name) <> GeneralMatrix_NumCols supervision \/
    (objective_type <> kLinear /\ objective_type <> kQuadratic))) /\
  (~ (NumCols (GetOutput computer output_name) <> GeneralMatrix_NumCols supervision \/
      (objective_type <> kLinear /\ objective_type <> kQuadratic)) ->
   exists computer' tot_weight tot_objf,
     ComputeObjectiveFunction supervision objective_type output_name
       supply_deriv computer = Ok (computer', tot_weight, tot_objf)).
Proof.
  unfold ComputeObjectiveFunction.
  destruct (Nat.eqb_spec (NumCols (GetOutput computer output_name))
              (GeneralMatrix_NumCols supervision)) as [Hc|Hc]; cbn [negb].
  - split.
    + destruct objective_type as [| |v]; [destruct supervision| |]; cbn [is_fatal];
        split; try discriminate; try (intros _; right; split; discriminate);
        intros [Hne|[Hl Hq]]; congruence.
    + intros Hnot.
      destruct objective_type as [| |v]; [destruct supervision| |];
        try (eexists _, _, _; reflexivity).
      exfalso. apply Hnot. right. split; discriminate.
  - split.
    + cbn [is_fatal]. split; [intros _; left; exact Hc|reflexivity].
    + intros Hnot. exfalso. apply Hnot. left. exact Hc.
Qed.


Section Exact.
Context {exact : BaseFloatExact F}.

(** C4: for a linear objective the result depends on the supervision only
    through the dense matrix [m] it encodes: whichever of the three
    encodings is given, the weight is the sum of the entries of [m], the
    objective the elementwise dot product of the output and [m], and the
    derivative supplied is [m]. *)
Theorem ComputeObjectiveFunction_linear_encodings
    (supervision : GeneralMatrix F) (m : Matrix F) (output_name : string)
    (supply_deriv : bool) (computer : NnetComputer) (r c : nat) :
  encodes supervision m ->
  Shape m r c ->
  Shape (GetOutput computer output_name) r c ->
  ComputeObjectiveFunction supervision kLinear output_name supply_deriv computer =
  Ok (if supply_deriv then AcceptInput output_name m computer else computer,
      Sum m,
      TraceMatMat_kTrans (GetOutput computer output_name) m).
Proof.
  intros Henc Hm Hout. unfold ComputeObjectiveFunction.
  assert (Hcols : NumCols (GetOutput computer output_name) =
                  GeneralMatrix_NumCols supervision).
  { rewrite <- GeneralMatrix_GetMatrix_NumCols.
    apply (Shape_NumCols _ _ r c Hout).
    destruct supervision as [mat|smat|cmat]; simpl in Henc |- *.
    - subst mat. exact Hm.
    - destruct Henc as [_ ->]. exact Hm.
    - rewrite Henc. exact Hm. }
  rewrite Hcols, Nat.eqb_refl. cbn [negb].
  destruct supervision as [mat|smat|cmat]; simpl in Henc.
  - subst mat. reflexivity.
  - destruct Henc as [Hwf Hdense].
    pose proof (SparseMatrix_wf_rows smat Hwf) as Hrows.
    rewrite <- Hdense, (Sum_SparseMatrix_dense smat Hrows),
      (TraceMatMat_SparseMatrix_dense _ smat Hrows).
    replace (NumRows (GetOutput computer output_name)) with (length smat).
    + cbn [GeneralMatrix_NumCols].
      rewrite (SparseMatrix_CopyToMat_new smat Hwf). reflexivity.
    + unfold NumRows. destruct Hout as [-> _]. destruct Hm as [<- _].
      rewrite <- Hdense. symmetry. apply SparseMatrix_dense_length.
  - cbn [GeneralMatrix_GetMatrix]. rewrite Henc. reflexivity.
Qed.

(** C5: for a quadratic objective the objective is [-0.5] times the sum of
    the squared entries of (supervision - output), the weight the number of
    rows of the supervision, and the derivative supplied is
    (supervision - output); when the supervision equals the output the
    objective is zero. *)
Theorem ComputeObjectiveFunction_quadratic
    (supervision : GeneralMatrix F) (output_name : string)
    (supply_deriv : bool) (computer : NnetComputer) (r c : nat) :
  Shape (GeneralMatrix_GetMatrix supervision) r c ->
  Shape (GetOutput computer output_name) r c ->
  ComputeObjectiveFunction supervision kQuadratic output_name supply_deriv computer =
  Ok (if supply_deriv then
        AcceptInput output_name
          (Matrix_sub (GeneralMatrix_GetMatrix supervision)
                      (GetOutput computer output_name)) computer
      else computer,
      of_int32 (Z.of_nat (GeneralMatrix_NumRows supervision)),
      (-! flit_half) *!
        sum_squared_differences (GeneralMatrix_GetMatrix supervision)
                                (GetOutput computer output_name)) /\
  (GeneralMatrix_GetMatrix supervision = GetOutput computer output_name ->
   exists computer',
     ComputeObjectiveFunction supervision kQuadratic output_name supply_deriv
       computer =
     Ok (computer', of_int32 (Z.of_nat (GeneralMatrix_NumRows supervision)),
         fzero)).
Proof.
  intros Hsup Hout.
  assert (Heq : ComputeObjectiveFunction supervision kQuadratic output_name
                  supply_deriv computer =
    Ok (if supply_deriv then
          AcceptInput output_name
            (Matrix_sub (GeneralMatrix_GetMatrix supervision)
                        (GetOutput computer output_name)) computer
        else computer,
        of_int32 (Z.of_nat (GeneralMatrix_NumRows supervision)),
        (-! flit_half) *!
          sum_squared_differences (GeneralMatrix_GetMatrix supervision)
                                  (GetOutput computer output_name))).
  { unfold ComputeObjectiveFunction.
    rewrite <- GeneralMatrix_GetMatrix_NumCols,
      (Shape_NumCols _ _ r c Hout Hsup), Nat.eqb_refl. cbn [negb].
    rewrite AddMat_minus_one, TraceMatMat_diag.
    replace (NumRows (Matrix_sub (GeneralMatrix_GetMatrix supervision)
                        (GetOutput computer output_name)))
      with (GeneralMatrix_NumRows supervision); [reflexivity|].
    rewrite <- GeneralMatrix_GetMatrix_NumRows. unfold NumRows, Matrix_sub.
    rewrite length_zip_with. destruct Hsup as [-> _], Hout as [-> _]. lia. }
  split; [exact Heq|].
  intros Hsame. eexists. rewrite Heq, Hsame, sum_squared_differences_diag.
  rewrite fmul_zero_r. reflexivity.
Qed.

End Exact.
End ObjectiveFacts.

(** ** Statistics *)

Lemma int32_wrap_id (z : Z) : int32_range z -> int32_wrap z = z.
Proof.
  unfold int32_range, int32_wrap. intros Hz.
  rewrite Z.mod_small by lia. lia.
Qed.

(** Consecutive counters stay in a phase or move to the next one. *)
Lemma div_succ_cases (n K : Z) :
  (1 <= n)%Z -> (1 <= K)%Z ->
  (n / K = (n - 1) / K \/ n / K = (n - 1) / K + 1)%Z.
Proof.
  intros Hn HK.
  pose proof (Z.div_mod (n - 1) K ltac:(lia)) as H1.
  pose proof (Z.mod_pos_bound (n - 1) K ltac:(lia)) as H2.
  destruct (Z.eq_dec ((n - 1) mod K + 1)%Z K) as [Heq|Hne].
  - right. symmetry. apply (Z.div_unique n K _ 0%Z); lia.
  - left. symmetry. apply (Z.div_unique n K _ ((n - 1) mod K + 1)%Z); lia.
Qed.

Lemma lookup_map {A B : Type} (f : A -> B) (l : list A) (i : nat) :
  map f l !! i = f <$> l !! i.
Proof.
  revert i; induction l as [|x l IH]; intros [|i]; try reflexivity.
  cbn [map]. apply IH.
Qed.

Section StatsFacts.
Context {F : Type} {ops : BaseFloatOps F}.

Lemma feed_minibatches_app (output_name : string) (K : Z) (weight objf : F)
    (l1 l2 : list Z) (info : ObjectiveFunctionInfo F) :
  feed_minibatches output_name K weight objf (l1 ++ l2) info =
  match feed_minibatches output_name K weight objf l1 info with
  | Fatal msg => Fatal msg
  | Ok (info1, lines1) =>
      match feed_minibatches output_name K weight objf l2 info1 with
      | Fatal msg => Fatal msg
      | Ok (info2, lines2) => Ok (info2, lines1 ++ lines2)
      end
  end.
Proof.
  revert info; induction l1 as [|c l1 IH]; intros info; cbn [app feed_minibatches].
  - destruct (feed_minibatches output_name K weight objf l2 info) as [[i l]|];
      reflexivity.
  - destruct (UpdateStats output_name K c weight objf fzero info) as [[i l]|];
      [|reflexivity].
    rewrite IH.
    destruct (feed_minibatches output_name K weight objf l1 i) as [[i1 ls1]|];
      [|reflexivity].
    destruct (feed_minibatches output_name K weight objf l2 i1) as [[i2 ls2]|];
      [|reflexivity].
    rewrite app_assoc. reflexivity.
Qed.

Lemma first_counters_S (n : nat) :
  first_counters (S n) = first_counters n ++ [Z.of_nat n].
Proof. unfold first_counters. rewrite seq_S, map_app. reflexivity. Qed.

Lemma reported_range_PrintStatsForThisPhase (output_name : string) (K : Z)
    (info : ObjectiveFunctionInfo F) :
  reported_range (PrintStatsForThisPhase output_name K info) =
  Some (int32_mul (current_phase info) K,
        int32_sub (int32_add (int32_mul (current_phase info) K) K) 1).
Proof.
  unfold PrintStatsForThisPhase.
  destruct (tot_aux_objf_this_phase info ==! fzero); reflexivity.
Qed.

(** One call with counter [n], after the counters below [n]. *)
Lemma UpdateStats_next (output_name : string) (K : Z) (weight objf : F)
    (n : nat) (info : ObjectiveFunctionInfo F) :
  (1 <= K <= 2147483647)%Z -> (Z.of_nat n <= 2147483647)%Z ->
  current_phase info = (Z.of_nat (Nat.pred n) / K)%Z ->
  exists info' lines,
    UpdateStats output_name K (Z.of_nat n) weight objf fzero info =
      Ok (info', lines) /\
    current_phase info' = (Z.of_nat n / K)%Z /\
    map reported_range lines =
      map (phase_range K)
          (seq (Z.to_nat (Z.of_nat (Nat.pred n) / K))
               (Z.to_nat (Z.of_nat n / K) - Z.to_nat (Z.of_nat (Nat.pred n) / K))).
Proof.
  intros HK Hn Hcur. unfold UpdateStats.
  assert (Hphase : int32_div (Z.of_nat n) K = (Z.of_nat n / K)%Z).
  { unfold int32_div. rewrite Z.quot_div_nonneg by lia.
    apply int32_wrap_id. unfold int32_range.
    pose proof (Z.div_pos (Z.of_nat n) K ltac:(lia) ltac:(lia)).
    pose proof (Z.div_le_upper_bound (Z.of_nat n) K 2147483647 ltac:(lia) ltac:(nia)).
    lia. }
  rewrite Hphase, Hcur.
  destruct n as [|n].
  - cbn [Nat.pred]. rewrite Z.eqb_refl. cbn [negb].
    eexists _, _. split; [reflexivity|]. split; [exact Hcur|].
    rewrite Nat.sub_diag. reflexivity.
  - cbn [Nat.pred] in Hcur. cbn [Nat.pred].
    replace (Z.of_nat n) with (Z.of_nat (S n) - 1)%Z in Hcur by lia.
    replace (Z.of_nat n) with (Z.of_nat (S n) - 1)%Z by lia.
    set (m := Z.of_nat (S n)) in *.
    assert (Hq : (0 <= (m - 1) / K)%Z) by (apply Z.div_pos; lia).
    destruct (div_succ_cases m K ltac:(lia) ltac:(lia)) as [Hsame|Hnext].
    + rewrite Hsame, Z.eqb_refl. cbn [negb].
      eexists _, _. split; [reflexivity|]. split; [cbn; congruence|].
      rewrite Nat.sub_diag. reflexivity.
    + rewrite Hnext.
      replace (((m - 1) / K + 1 =? (m - 1) / K)%Z) with false
        by (symmetry; apply Z.eqb_neq; lia).
      replace (((m - 1) / K + 1 >? (m - 1) / K)%Z) with true
        by (symmetry; apply Z.gtb_lt; lia).
      cbn [negb]. eexists _, _. split; [reflexivity|]. split; [reflexivity|].
      replace (Z.to_nat ((m - 1) / K + 1) - Z.to_nat ((m - 1) / K))%nat
        with 1%nat by lia.
      cbn [seq map]. rewrite reported_range_PrintStatsForThisPhase, Hcur.
      unfold phase_range. rewrite Z2Nat.id by lia.
      pose proof (Z.mul_div_le m K ltac:(lia)) as Hle. rewrite Hnext in Hle.
      unfold int32_mul, int32_add, int32_sub.
      rewrite (int32_wrap_id ((m - 1) / K * K)) by (unfold int32_range; nia).
      rewrite (int32_wrap_id ((m - 1) / K * K + K)) by (unfold int32_range; nia).
      rewrite int32_wrap_id by (unfold int32_range; nia).
      do 3 f_equal. ring.
Qed.

Lemma feed_minibatches_first (output_name : string) (K : Z) (weight objf : F)
    (N : nat) :
  (1 <= K <= 2147483647)%Z -> (Z.of_nat N <= 2147483648)%Z ->
  exists info lines,
    feed_minibatches output_name K weight objf (first_counters N)
      ObjectiveFunctionInfo_new = Ok (info, lines) /\
    current_phase info = (Z.of_nat (Nat.pred N) / K)%Z /\
    map reported_range lines =
      map (phase_range K) (seq 0 (Z.to_nat (Z.of_nat (Nat.pred N) / K))).
Proof.
  intros HK. induction N as [|N IH]; intros HN.
  - eexists _, _. split; [reflexivity|]. split; reflexivity.
  - destruct IH as (info & lines & Hfeed & Hcur & Hlines); [lia|].
    destruct (UpdateStats_next output_name K weight objf N info HK ltac:(lia) Hcur)
      as (info' & lines' & Hupd & Hcur' & Hlines').
    rewrite first_counters_S, feed_minibatches_app, Hfeed.
    cbn [feed_minibatches]. rewrite Hupd.
    eexists _, _. split; [reflexivity|]. cbn [Nat.pred].
    split; [exact Hcur'|].
    rewrite app_nil_r, map_app, Hlines, Hlines', <- map_app. f_equal.
    assert (Hmono : (Z.to_nat (Z.of_nat (Nat.pred N) / K) <=
                     Z.to_nat (Z.of_nat N / K))%nat).
    { apply Z2Nat.inj_le; [apply Z.div_pos; lia|apply Z.div_pos; lia|].
      apply Z.div_le_mono; lia. }
    rewrite <- seq_app. f_equal. lia.
Qed.

(** C8, as the code has it: feeding the counters [0 .. N-1] with [K]
    minibatches per phase logs exactly [(N - 1) / K] phase lines (a phase is
    flushed when the first minibatch of the next one arrives), and the
    line of phase [p] reports the range [p * K .. (p + 1) * K - 1]. *)
Theorem feed_minibatches_flushes (output_name : string) (K : Z)
    (weight objf : F) (N : nat) :
  (1 <= K <= 2147483647)%Z -> (1 <= N)%nat -> (Z.of_nat N <= 2147483648)%Z ->
  exists info lines,
    feed_minibatches output_name K weight objf (first_counters N)
      ObjectiveFunctionInfo_new = Ok (info, lines) /\
    Z.of_nat (length lines) = ((Z.of_nat N - 1) / K)%Z /\
    forall p : nat, (p < length lines)%nat ->
      reported_range <$> lines !! p =
      Some (Some (Z.of_nat p * K, (Z.of_nat p + 1) * K - 1)%Z).
Proof.
  intros HK HN1 HN.
  destruct (feed_minibatches_first output_name K weight objf N HK HN)
    as (info & lines & Hfeed & _ & Hlines).
  exists info, lines. split; [exact Hfeed|].
  replace (Z.of_nat (Nat.pred N)) with (Z.of_nat N - 1)%Z in Hlines by lia.
  assert (Hlen : length lines = Z.to_nat ((Z.of_nat N - 1) / K)).
  { rewrite <- (length_map reported_range lines), Hlines, length_map.
    apply length_seq. }
  split.
  - rewrite Hlen, Z2Nat.id; [reflexivity|apply Z.div_pos; lia].
  - intros p Hp.
    assert (Hget : map reported_range lines !! p = Some (phase_range K p)).
    { rewrite Hlines, lookup_map, lookup_seq_lt by lia. reflexivity. }
    rewrite lookup_map in Hget. exact Hget.
Qed.

(** C9: a call whose phase index is below the stored phase ends fatally,
    and every other call returns; a call that returns leaves the stored
    phase at least as large as it was, and when the phase advanced it
    logged the line of the completed phase and restarted the per-phase
    totals from zero. *)
Theorem UpdateStats_phase_monotone (output_name : string)
    (minibatches_per_phase minibatch_counter : Z)
    (weight objf aux_objf : F) (info : ObjectiveFunctionInfo F) :
  minibatches_per_phase <> 0%Z ->
  ((int32_div minibatch_counter minibatches_per_phase < current_phase info)%Z ->
   is_fatal (UpdateStats output_name minibatches_per_phase minibatch_counter
               weight objf aux_objf info) = true) /\
  ((current_phase info <= int32_div minibatch_counter minibatches_per_phase)%Z ->
   exists info' lines,
     UpdateStats output_name minibatches_per_phase minibatch_counter
       weight objf aux_objf info = Ok (info', lines)) /\
  (forall info' lines,
     UpdateStats output_name minibatches_per_phase minibatch_counter
       weight objf aux_objf info = Ok (info', lines) ->
     (current_phase info <= current_phase info')%Z /\
     current_phase info' = int32_div minibatch_counter minibatches_per_phase /\
     ((current_phase info < current_phase info')%Z ->
      lines = [PrintStatsForThisPhase output_name minibatches_per_phase info] /\
      tot_weight_this_phase info' = fzero +! weight /\
      tot_objf_this_phase info' = fzero +! objf /\
      tot_aux_objf_this_phase info' = fzero +! aux_objf)).
Proof.
  intros _. unfold UpdateStats.
  set (phase := int32_div minibatch_counter minibatches_per_phase).
  destruct (Z.eqb_spec phase (current_phase info)) as [Heq|Hne]; cbn [negb].
  - split; [lia|]. split; [intros _; eexists _, _; reflexivity|].
    intros info' lines [= <- <-]. cbn. lia.
  - destruct (Z.gtb_spec phase (current_phase info)) as [Hgt|Hle].
    + split; [lia|]. split; [intros _; eexists _, _; reflexivity|].
      intros info' lines [= <- <-]. cbn.
      repeat split; try reflexivity. lia.
    + split; [reflexivity|]. split; [lia|]. discriminate.
Qed.

End StatsFacts.

(** ** The trainer *)

Section TrainerFacts.
Context {F : Type} {ops : BaseFloatOps F} {ext : Collaborators F}.

(** *** What the methods leave alone *)

Lemma extends_refl (p : Process F) : extends p [] p.
Proof. unfold extends. rewrite app_nil_r. auto. Qed.

Lemma extends_trans (p p1 p2 : Process F) (e1 e2 : list Event) :
  extends p e1 p1 -> extends p1 e2 p2 -> extends p (e1 ++ e2) p2.
Proof.
  unfold extends. intros (Hc & Hn & Hs & Ht) (Hc' & Hn' & Hs' & Ht').
  rewrite Hc', Hn', Hs', Ht', Ht, app_assoc. auto.
Qed.

Lemma quiet_ret {A} (a : A) : quiet (ret a : M F A).
Proof. intros p. apply extends_refl. Qed.

Lemma quiet_bind {A B} (m : M F A) (k : A -> M F B) :
  quiet m -> (forall a, quiet (k a)) -> quiet (bind m k).
Proof.
  intros Hm Hk p. unfold bind. specialize (Hm p).
  destruct (m p) as [[a|msg] p1]; cbn [snd] in *; [|exact Hm].
  apply (extends_trans p p1 _ [] [] Hm (Hk a p1)).
Qed.

Lemma quiet_get : quiet (get : M F (Process F)).
Proof. intros p. apply extends_refl. Qed.

Lemma quiet_lift {A} (o : outcome A) : quiet (lift o : M F A).
Proof. intros p. apply extends_refl. Qed.

Lemma quiet_KALDI_ERR {A} (msg : string) : quiet (@KALDI_ERR F A msg).
Proof. intros p. apply extends_refl. Qed.

Lemma quiet_KALDI_ASSERT (cond : bool) (text : string) :
  quiet (KALDI_ASSERT cond text : M F unit).
Proof. intros p. unfold KALDI_ASSERT. destruct cond; apply extends_refl. Qed.

Lemma quiet_KALDI_LOG (lines : list (LogLine F)) : quiet (KALDI_LOG lines).
Proof. intros p. unfold KALDI_LOG, extends. cbn. rewrite app_nil_r. auto. Qed.

Lemma quiet_run (computer : NnetComputer) : quiet (run computer).
Proof.
  intros p. unfold run. destruct (Run computer (c_rand p)) as [c r].
  unfold extends. cbn. rewrite app_nil_r. auto.
Qed.

Lemma quiet_modify (f : NnetTrainer F -> NnetTrainer F) :
  (forall t, config_ (f t) = config_ t /\
             num_minibatches_processed_ (f t) = num_minibatches_processed_ t /\
             srand_seed_ (f t) = srand_seed_ t) ->
  quiet (modify f).
Proof.
  intros Hf p. unfold modify, with_this, extends. cbn.
  destruct (Hf (this p)) as (-> & -> & ->). rewrite app_nil_r. auto.
Qed.

Lemma TrainInternal_update_control (is_backstitch_step : bool) (t : NnetTrainer F) :
  config_ (TrainInternal_update is_backstitch_step t) = config_ t /\
  num_minibatches_processed_ (TrainInternal_update is_backstitch_step t) =
    num_minibatches_processed_ t /\
  srand_seed_ (TrainInternal_update is_backstitch_step t) = srand_seed_ t.
Proof.
  unfold TrainInternal_update.
  destruct (update_parameters _ _ _) as [[mcs sa] sdn].
  destruct (UpdateNnetWithMaxChange _ _ _ _ _ _ _) as [[[success n] pc] g].
  auto.
Qed.

Create HintDb quiet.
#[local] Hint Resolve quiet_ret quiet_get quiet_lift quiet_KALDI_ERR quiet_KALDI_ASSERT
  quiet_KALDI_LOG quiet_run TrainInternal_update_control : quiet.

Ltac quiet_steps :=
  repeat first
    [ apply quiet_bind; [|intros ?]
    | apply quiet_modify; intros ?; cbn; solve [auto with quiet]
    | solve [auto with quiet] ].

Lemma quiet_update_objf_info (key : string) (weight objf : F) :
  quiet (update_objf_info key weight objf).
Proof. unfold update_objf_info. quiet_steps. Qed.

Lemma quiet_update_accuracy_info (key : string) (weight accuracy : F) :
  quiet (update_accuracy_info key weight accuracy).
Proof. unfold update_accuracy_info. quiet_steps. Qed.

Lemma quiet_ProcessOutputs_loop (suffix : string) (ios : list (NnetIo F))
    (computer : NnetComputer) :
  quiet (ProcessOutputs_loop suffix ios computer).
Proof.
  revert computer; induction ios as [|io ios IH]; intros computer;
    cbn [ProcessOutputs_loop]; [apply quiet_ret|].
  apply quiet_bind; [apply quiet_get|intros p].
  apply quiet_bind; [apply quiet_KALDI_ASSERT|intros _].
  apply quiet_bind; [|intros c; apply IH].
  destruct (IsOutputNode _ _); [|apply quiet_ret].
  apply quiet_bind; [apply quiet_lift|intros [[c w] o]].
  apply quiet_bind; [apply quiet_update_objf_info|intros _].
  apply quiet_bind; [|intros _; apply quiet_ret].
  destruct (node_objective_type _ _); try apply quiet_ret.
  destruct (ComputeAccuracy _ _) as [w' a']. apply quiet_update_accuracy_info.
Qed.

(** A sub-step adds its own event to the trace and nothing else, whether
    it returns or ends fatally. *)
Lemma TrainInternal_extends (eg : NnetExample F) (computation : NnetComputation)
    (is_backstitch_step : bool) (p : Process F) :
  extends p [EvTrainInternal is_backstitch_step]
    (snd (TrainInternal eg computation is_backstitch_step p)).
Proof.
  unfold TrainInternal.
  set (rest := bind get _).
  assert (Hrest : quiet rest).
  { unfold rest. apply quiet_bind; [apply quiet_get|intros p0].
    apply quiet_bind; [apply quiet_run|intros c1].
    apply quiet_bind; [apply quiet_ProcessOutputs_loop|intros c2].
    apply quiet_bind; [apply quiet_run|intros c3].
    apply quiet_bind; apply quiet_modify || intros _.
    - intros t. cbn. auto.
    - apply quiet_modify. apply TrainInternal_update_control. }
  unfold bind at 1. cbn [emit].
  set (p1 := {| this := this p; c_rand := c_rand p; kaldi_log := kaldi_log p;
                trace := trace p ++ [EvTrainInternal is_backstitch_step] |}).
  assert (H1 : extends p [EvTrainInternal is_backstitch_step] p1)
    by (unfold extends; cbn; auto).
  pose proof (extends_trans _ _ _ _ _ H1 (Hrest p1)) as H2.
  rewrite app_nil_r in H2. exact H2.
Qed.

Lemma freeze_natural_gradient_extends (freeze : bool) (p : Process F) :
  fst (freeze_natural_gradient freeze p) = Ok tt /\
  extends p [EvFreezeNaturalGradient freeze]
    (snd (freeze_natural_gradient freeze p)).
Proof. unfold extends. cbn. auto. Qed.

Lemma reseed_extends (p : Process F) :
  fst (reseed p) = Ok tt /\
  extends p
    [EvSrand (int32_add (srand_seed_ (this p))
                        (num_minibatches_processed_ (this p)));
     EvResetGenerators]
    (snd (reseed p)).
Proof. unfold extends. cbn. rewrite <- app_assoc. auto. Qed.

End TrainerFacts.

(** *** Sequencing *)

Section TrainFacts.
Context {F : Type} {ops : BaseFloatOps F} {ext : Collaborators F}.

Lemma bind_inv {A B} (m : M F A) (k : A -> M F B) (p p' : Process F) (b : B) :
  bind m k p = (Ok b, p') ->
  exists a p1, m p = (Ok a, p1) /\ k a p1 = (Ok b, p').
Proof.
  unfold bind. destruct (m p) as [[a|msg] p1]; [|discriminate].
  intros Hk. exists a, p1. auto.
Qed.

Lemma pair_of_fst {A} (x : outcome A * Process F) (o : outcome A) :
  fst x = o -> x = (o, snd x).
Proof. destruct x. cbn. intros ->. reflexivity. Qed.

Lemma extends_of_eq {A} (m : M F A) (p p' : Process F) (o : outcome A)
    (events : list Event) :
  extends p events (snd (m p)) -> m p = (o, p') -> extends p events p'.
Proof. intros H E. rewrite E in H. exact H. Qed.

(** The test of [Train], in the words of the specification. *)
Lemma is_backstitch_minibatch_spec (config : NnetTrainerOptions F) (n : Z) :
  int32_range (backstitch_training_interval config) ->
  backstitch_training_interval config <> 0%Z ->
  is_backstitch_minibatch config n = true <->
  backstitch_training_scale config >! fzero = true /\
  (backstitch_training_interval config | n)%Z.
Proof.
  intros Hk Hk0. unfold is_backstitch_minibatch, int32_rem.
  rewrite andb_true_iff, Z.eqb_eq, <- Z.rem_divide by exact Hk0.
  pose proof (Z.rem_bound_abs n _ Hk0) as Hb.
  rewrite int32_wrap_id; [reflexivity|]. unfold int32_range in *. lia.
Qed.

(** What [Train] does after the sub-steps. *)
Lemma Train_unfold (eg : NnetExample F) (p : Process F) :
  Train eg p =
  let t := this p in
  let computation :=
    Compile (nnet_ t) eg true (store_component_stats (config_ t)) in
  let finish (r : outcome unit * Process F) : outcome unit * Process F :=
    match r with
    | (Ok _, q) =>
        (Ok tt,
         with_this (fun t => set_num_minibatches_processed_
                               (int32_add (num_minibatches_processed_ t) 1) t) q)
    | (Fatal msg, q) => (Fatal msg, q)
    end in
  if is_backstitch_minibatch (config_ t) (num_minibatches_processed_ t) then
    if momentum (config_ t) ==! fzero then
      match TrainInternal eg computation true
              (snd (reseed (snd (freeze_natural_gradient true p)))) with
      | (Ok _, q) =>
          finish (TrainInternal eg computation false
                    (snd (reseed (snd (freeze_natural_gradient false q)))))
      | (Fatal msg, q) => (Fatal msg, q)
      end
    else (Fatal "KALDI_ASSERT: config_.momentum == 0.0", p)
  else finish (TrainInternal eg computation false p).
Proof.
  unfold Train. cbv zeta. unfold bind at 1. cbn [get].
  destruct (is_backstitch_minibatch _ _).
  - unfold bind at 1. unfold bind at 1.
    destruct (momentum _ ==! fzero); [|reflexivity].
    cbn [KALDI_ASSERT]. unfold bind at 1. unfold bind at 1. unfold bind at 1.
    change (freeze_natural_gradient true p)
      with (Ok tt, snd (freeze_natural_gradient true p)).
    cbv iota.
    change (reseed (snd (freeze_natural_gradient true p)))
      with (Ok tt, snd (reseed (snd (freeze_natural_gradient true p)))).
    cbv iota.
    destruct (TrainInternal eg _ true _) as [[[]|msg] q]; [|reflexivity].
    unfold bind at 1. unfold bind at 1.
    change (freeze_natural_gradient false q)
      with (Ok tt, snd (freeze_natural_gradient false q)).
    cbv iota.
    change (reseed (snd (freeze_natural_gradient false q)))
      with (Ok tt, snd (reseed (snd (freeze_natural_gradient false q)))).
    cbv iota.
    destruct (TrainInternal eg _ false _) as [[[]|msg] q']; reflexivity.
  - unfold bind at 1.
    destruct (TrainInternal eg _ false _) as [[[]|msg] q']; reflexivity.
Qed.

(** One call of [Train], whatever its outcome. *)
Lemma Train_step (eg : NnetExample F) (p : Process F) :
  let t := this p in
  let n := num_minibatches_processed_ t in
  let seed := int32_add (srand_seed_ t) n in
  let r := Train eg p in
  config_ (this (snd r)) = config_ t /\
  srand_seed_ (this (snd r)) = srand_seed_ t /\
  num_minibatches_processed_ (this (snd r)) =
    (if is_fatal (fst r) then n else int32_add n 1) /\
  exists events,
    trace (snd r) = trace p ++ events /\
    if is_backstitch_minibatch (config_ t) n then
      if momentum (config_ t) ==! fzero then
        events = backstitch_first seed ++ backstitch_second seed \/
        (events = backstitch_first seed /\ is_fatal (fst r) = true)
      else events = [] /\ r = (Fatal "KALDI_ASSERT: config_.momentum == 0.0", p)
    else events = [EvTrainInternal false].
Proof.
  intros t n seed r. subst r. rewrite Train_unfold. cbv zeta. fold t. fold n.
  set (computation := Compile _ _ _ _).
  destruct (is_backstitch_minibatch (config_ t) n).
  - destruct (momentum (config_ t) ==! fzero).
    2: { cbn [fst snd is_fatal]. repeat split. exists []. rewrite app_nil_r. auto. }
    pose proof (proj2 (freeze_natural_gradient_extends true p)) as E2.
    pose proof (proj2 (reseed_extends (snd (freeze_natural_gradient true p)))) as E3.
    pose proof (TrainInternal_extends eg computation true
                  (snd (reseed (snd (freeze_natural_gradient true p))))) as E4.
    pose proof (extends_trans _ _ _ _ _ (extends_trans _ _ _ _ _ E2 E3) E4) as E.
    clear E2 E3 E4.
    change (extends p (backstitch_first seed)
              (snd (TrainInternal eg computation true
                      (snd (reseed (snd (freeze_natural_gradient true p)))))))
      in E.
    destruct (TrainInternal eg computation true _) as [[[]|msg] q]; cbn [snd] in E.
    2: { destruct E as (Hc & Hn & Hs & Ht). cbn [fst snd is_fatal].
         repeat split; try assumption. exists (backstitch_first seed). auto. }
    pose proof (proj2 (freeze_natural_gradient_extends false q)) as E5.
    pose proof (proj2 (reseed_extends (snd (freeze_natural_gradient false q)))) as E6.
    pose proof (TrainInternal_extends eg computation false
                  (snd (reseed (snd (freeze_natural_gradient false q))))) as E7.
    pose proof (extends_trans _ _ _ _ _ (extends_trans _ _ _ _ _ E5 E6) E7) as E'.
    clear E5 E6 E7.
    assert (Hseed : int32_add (srand_seed_ (this q)) (num_minibatches_processed_ (this q))
                    = seed).
    { destruct E as (_ & -> & -> & _). reflexivity. }
    change (extends q
              ([EvFreezeNaturalGradient false;
                EvSrand (int32_add (srand_seed_ (this q))
                                   (num_minibatches_processed_ (this q)));
                EvResetGenerators; EvTrainInternal false])
              (snd (TrainInternal eg computation false
                      (snd (reseed (snd (freeze_natural_gradient false q)))))))
      in E'.
    rewrite Hseed in E'. fold (backstitch_second seed) in E'.
    pose proof (extends_trans _ _ _ _ _ E E') as (Hc & Hn & Hs & Ht).
    destruct (TrainInternal eg computation false _) as [[[]|msg] q'];
      cbn [fst snd is_fatal with_this this trace set_num_minibatches_processed_
           config_ srand_seed_ num_minibatches_processed_] in *.
    + rewrite Hn. repeat split; try assumption.
      exists (backstitch_first seed ++ backstitch_second seed). auto.
    + repeat split; try assumption.
      exists (backstitch_first seed ++ backstitch_second seed). auto.
  - pose proof (TrainInternal_extends eg computation false p) as (Hc & Hn & Hs & Ht).
    destruct (TrainInternal eg computation false p) as [[[]|msg] q'];
      cbn [fst snd is_fatal with_this this trace set_num_minibatches_processed_
           config_ srand_seed_ num_minibatches_processed_] in *.
    + rewrite Hn. repeat split; try assumption.
      exists [EvTrainInternal false]. auto.
    + repeat split; try assumption.
      exists [EvTrainInternal false]. auto.
Qed.

(** A call of [Train] that returns: its control events and the counter. *)
Lemma Train_returns_trace (eg : NnetExample F) (p : Process F) :
  let t := this p in
  let n := num_minibatches_processed_ t in
  let backstitch :=
    backstitch_training_scale (config_ t) >! fzero = true /\
    (backstitch_training_interval (config_ t) | n)%Z in
  int32_range (backstitch_training_interval (config_ t)) ->
  backstitch_training_interval (config_ t) <> 0%Z ->
  int32_range (n + 1) ->
  int32_range (srand_seed_ t + n) ->
  fst (Train eg p) = Ok tt ->
  (backstitch ->
   trace (snd (Train eg p)) =
   trace p ++
     [EvFreezeNaturalGradient true;
      EvSrand (srand_seed_ t + n); EvResetGenerators; EvTrainInternal true;
      EvFreezeNaturalGradient false;
      EvSrand (srand_seed_ t + n); EvResetGenerators; EvTrainInternal false]) /\
  (~ backstitch ->
   trace (snd (Train eg p)) = trace p ++ [EvTrainInternal false]) /\
  num_minibatches_processed_ (this (snd (Train eg p))) = (n + 1)%Z.
Proof.
  intros t n backstitch Hk Hk0 Hn1 Hseed Hok.
  apply pair_of_fst in Hok. revert Hok.
  generalize (snd (Train eg p)) as p'. intros p' Hok.
  pose proof (is_backstitch_minibatch_spec (config_ t) n Hk Hk0) as Hspec.
  unfold Train in Hok.
  apply bind_inv in Hok as (p0 & p0' & Hget & Hok). injection Hget as <- <-.
  apply bind_inv in Hok as ([] & pb & Hbody & Hmod).
  injection Hmod as <-.
  fold t in Hbody. fold n in Hbody.
  assert (Hpb : exists events, extends p events pb /\
            (backstitch ->
             events = [EvFreezeNaturalGradient true;
                       EvSrand (srand_seed_ t + n); EvResetGenerators;
                       EvTrainInternal true;
                       EvFreezeNaturalGradient false;
                       EvSrand (srand_seed_ t + n); EvResetGenerators;
                       EvTrainInternal false]) /\
            (~ backstitch -> events = [EvTrainInternal false])).
  { destruct (is_backstitch_minibatch (config_ t) n) eqn:Hb.
    - apply bind_inv in Hbody as ([] & q1 & Hassert & Hbody).
      unfold KALDI_ASSERT in Hassert.
      destruct (momentum (config_ t) ==! fzero); [|discriminate].
      injection Hassert as <-.
      apply bind_inv in Hbody as ([] & q2 & H2 & Hbody).
      apply bind_inv in Hbody as ([] & q3 & H3 & Hbody).
      apply bind_inv in Hbody as ([] & q4 & H4 & Hbody).
      apply bind_inv in Hbody as ([] & q5 & H5 & Hbody).
      apply bind_inv in Hbody as ([] & q6 & H6 & H7).
      pose proof (extends_of_eq _ _ _ _ _
                    (proj2 (freeze_natural_gradient_extends true p)) H2) as E2.
      pose proof (extends_of_eq _ _ _ _ _ (proj2 (reseed_extends q2)) H3) as E3.
      pose proof (extends_of_eq _ _ _ _ _
                    (TrainInternal_extends eg _ true q3) H4) as E4.
      pose proof (extends_of_eq _ _ _ _ _
                    (proj2 (freeze_natural_gradient_extends false q4)) H5) as E5.
      pose proof (extends_of_eq _ _ _ _ _ (proj2 (reseed_extends q5)) H6) as E6.
      pose proof (extends_of_eq _ _ _ _ _
                    (TrainInternal_extends eg _ false q6) H7) as E7.
      pose proof (extends_trans _ _ _ _ _ E2 E3) as E23.
      pose proof (extends_trans _ _ _ _ _ E23 E4) as E24.
      pose proof (extends_trans _ _ _ _ _ E24 E5) as E25.
      pose proof (extends_trans _ _ _ _ _ E25 E6) as E26.
      pose proof (extends_trans _ _ _ _ _ E26 E7) as E27.
      eexists. split; [exact E27|]. split.
      + intros _.
        destruct E2 as (_ & Hn2 & Hs2 & _). destruct E25 as (_ & Hn5 & Hs5 & _).
        rewrite Hn2, Hs2, Hn5, Hs5. fold t. fold n.
        unfold int32_add. rewrite (int32_wrap_id _ Hseed). reflexivity.
      + intros Hnot. exfalso. apply Hnot. apply Hspec. reflexivity.
    - pose proof (extends_of_eq _ _ _ _ _
                    (TrainInternal_extends eg _ false p) Hbody) as E.
      eexists. split; [exact E|]. split; [|reflexivity].
      intros Hyes. apply Hspec in Hyes. congruence. }
  destruct Hpb as (events & (_ & Hn & _ & Htrace) & Hyes & Hno).
  cbn [snd with_this this trace set_num_minibatches_processed_
       num_minibatches_processed_].
  split; [|split].
  - intros Hb. rewrite Htrace, (Hyes Hb). reflexivity.
  - intros Hb. rewrite Htrace, (Hno Hb). reflexivity.
  - rewrite Hn. fold t. fold n. unfold int32_add. apply int32_wrap_id. exact Hn1.
Qed.

(** The two lines before a sub-step of a backstitch minibatch, after
    [FreezeNaturalGradient], lead to [substep_entry]. *)
Lemma substep_entry_eq (freeze : bool) (p : Process F) :
  int32_range (srand_seed_ (this p) + num_minibatches_processed_ (this p)) ->
  snd (reseed (snd (freeze_natural_gradient freeze p))) =
  substep_entry freeze
    (srand_seed_ (this p) + num_minibatches_processed_ (this p)) p.
Proof.
  intros Hseed. unfold substep_entry.
  cbn [reseed freeze_natural_gradient bind get srand emit modify with_this
       fst snd this c_rand kaldi_log trace set_delta_nnet_ set_nnet_
       srand_seed_ num_minibatches_processed_ nnet_ delta_nnet_ config_
       objf_info_ accuracy_info_ num_max_change_per_component_applied_
       num_max_change_global_applied_].
  unfold int32_add. rewrite (int32_wrap_id _ Hseed).
  rewrite <- !app_assoc. reflexivity.
Qed.

(** C1, as the code has it: what a call of [Train] runs, for every
    outcome.  At a backstitch minibatch (scale positive, counter divisible
    by the interval) with a momentum other than zero the call ends in the
    assertion, before any sub-step and with the counter unchanged.  With
    momentum zero the backstitch sub-step is run in the state
    [substep_entry true], that is, right after the C generator was seeded
    with [srand_seed_ + num_minibatches_processed_]; when it returns the
    normal sub-step is run in [substep_entry false] of the state it left,
    seeded with the same value; a sub-step that ends fatally ends the call
    and leaves the counter where it was.  At any other minibatch the one normal sub-step is run in the state of
    the call itself, with no reseeding.  The call returns exactly the
    state of its last sub-step with the counter grown by one. *)
Theorem Train_substeps (eg : NnetExample F) (p : Process F) :
  let t := this p in
  let n := num_minibatches_processed_ t in
  let seed := (srand_seed_ t + n)%Z in
  let computation :=
    Compile (nnet_ t) eg true (store_component_stats (config_ t)) in
  let backstitch :=
    backstitch_training_scale (config_ t) >! fzero = true /\
    (backstitch_training_interval (config_ t) | n)%Z in
  let counted := with_this (set_num_minibatches_processed_ (n + 1)) in
  int32_range (backstitch_training_interval (config_ t)) ->
  backstitch_training_interval (config_ t) <> 0%Z ->
  int32_range (n + 1) ->
  int32_range seed ->
  (backstitch -> momentum (config_ t) ==! fzero = false ->
   Train eg p = (Fatal "KALDI_ASSERT: config_.momentum == 0.0", p)) /\
  (backstitch -> momentum (config_ t) ==! fzero = true ->
   match TrainInternal eg computation true (substep_entry true seed p) with
   | (Fatal msg, q) => Train eg p = (Fatal msg, q)
   | (Ok _, q1) =>
       match TrainInternal eg computation false (substep_entry false seed q1) with
       | (Fatal msg, q) => Train eg p = (Fatal msg, q)
       | (Ok _, q2) => Train eg p = (Ok tt, counted q2)
       end
   end) /\
  (~ backstitch ->
   match TrainInternal eg computation false p with
   | (Fatal msg, q) => Train eg p = (Fatal msg, q)
   | (Ok _, q) => Train eg p = (Ok tt, counted q)
   end) /\
  (fst (Train eg p) = Ok tt ->
   (backstitch ->
    trace (snd (Train eg p)) =
    trace p ++
      [EvFreezeNaturalGradient true;
       EvSrand seed; EvResetGenerators; EvTrainInternal true;
       EvFreezeNaturalGradient false;
       EvSrand seed; EvResetGenerators; EvTrainInternal false]) /\
   (~ backstitch ->
    trace (snd (Train eg p)) = trace p ++ [EvTrainInternal false]) /\
   num_minibatches_processed_ (this (snd (Train eg p))) = (n + 1)%Z) /\
  (is_fatal (fst (Train eg p)) = true ->
   num_minibatches_processed_ (this (snd (Train eg p))) = n).
Proof.
  intros t n seed computation backstitch counted Hk Hk0 Hn1 Hseed.
  pose proof (is_backstitch_minibatch_spec (config_ t) n Hk Hk0) as Hspec.
  fold backstitch in Hspec.
  assert (Hcount : forall q : Process F,
            num_minibatches_processed_ (this q) = n ->
            with_this (fun t => set_num_minibatches_processed_
                                  (int32_add (num_minibatches_processed_ t) 1) t) q
            = counted q).
  { intros q Hq. unfold counted, with_this. rewrite Hq.
    unfold int32_add. rewrite (int32_wrap_id _ Hn1). reflexivity. }
  split; [|split; [|split; [|split]]].
  - intros Hb Hm. rewrite Train_unfold. cbv zeta. fold t. fold n.
    rewrite (proj2 Hspec Hb), Hm. reflexivity.
  - intros Hb Hm. rewrite Train_unfold. cbv zeta. fold t. fold n.
    fold computation. rewrite (proj2 Hspec Hb), Hm.
    rewrite (substep_entry_eq true p Hseed). fold t. fold n. fold seed.
    pose proof (TrainInternal_extends eg computation true
                  (substep_entry true seed p)) as E1.
    destruct (TrainInternal eg computation true (substep_entry true seed p))
      as [[[]|msg] q1]; [|reflexivity].
    cbn [snd] in E1. destruct E1 as (_ & Hn1' & Hs1 & _).
    cbn [substep_entry this set_nnet_ set_delta_nnet_
         num_minibatches_processed_ srand_seed_] in Hn1', Hs1.
    fold t in Hn1', Hs1. fold n in Hn1'.
    assert (Hseed1 : int32_range (srand_seed_ (this q1) +
                                  num_minibatches_processed_ (this q1)))
      by (rewrite Hn1', Hs1; exact Hseed).
    rewrite (substep_entry_eq false q1 Hseed1), Hn1', Hs1. fold seed.
    pose proof (TrainInternal_extends eg computation false
                  (substep_entry false seed q1)) as E2.
    destruct (TrainInternal eg computation false (substep_entry false seed q1))
      as [[[]|msg] q2]; [|reflexivity].
    cbn [snd] in E2. destruct E2 as (_ & Hn2 & _ & _).
    cbn [substep_entry this set_nnet_ set_delta_nnet_
         num_minibatches_processed_] in Hn2.
    rewrite Hcount; [reflexivity|]. rewrite Hn2. exact Hn1'.
  - intros Hb. rewrite Train_unfold. cbv zeta. fold t. fold n.
    fold computation.
    destruct (is_backstitch_minibatch (config_ t) n) eqn:Hib;
      [exfalso; apply Hb, Hspec; reflexivity|].
    pose proof (TrainInternal_extends eg computation false p) as E.
    destruct (TrainInternal eg computation false p) as [[[]|msg] q];
      [|reflexivity].
    cbn [snd] in E. destruct E as (_ & Hq & _ & _).
    rewrite Hcount; [reflexivity|exact Hq].
  - intros Hok. exact (Train_returns_trace eg p Hk Hk0 Hn1 Hseed Hok).
  - intros Hfatal. destruct (Train_step eg p) as (_ & _ & Hcounter & _).
    rewrite Hfatal in Hcounter. exact Hcounter.
Qed.

(** C2: the update parameters ([max_change_scale], [scale_adding],
    [scale_delta_nnet]) of a sub-step are (1, 1 - momentum, momentum)
    outside a backstitch minibatch, (scale, -scale, 0) in the backstitch
    sub-step of one and (1 + scale, 1 + scale, 0) in its normal sub-step. *)
Theorem update_parameters_table (config : NnetTrainerOptions F)
    (num_minibatches_processed : Z) (is_backstitch_step : bool) :
  (is_backstitch_minibatch config num_minibatches_processed = false ->
   update_parameters config num_minibatches_processed is_backstitch_step =
   (fone, fone -! momentum config, momentum config)) /\
  (is_backstitch_minibatch config num_minibatches_processed = true ->
   update_parameters config num_minibatches_processed true =
   (backstitch_training_scale config,
    -! backstitch_training_scale config, fzero)) /\
  (is_backstitch_minibatch config num_minibatches_processed = true ->
   update_parameters config num_minibatches_processed false =
   (fone +! backstitch_training_scale config,
    fone +! backstitch_training_scale config, fzero)).
Proof.
  unfold update_parameters.
  repeat split; intros ->; reflexivity.
Qed.

(** A sub-step that returns ends with the call of the update engine on
    the state the backward pass left. *)
Lemma TrainInternal_ends_with_update (eg : NnetExample F)
    (computation : NnetComputation) (is_backstitch_step : bool)
    (p p' : Process F) :
  TrainInternal eg computation is_backstitch_step p = (Ok tt, p') ->
  exists t, this p' = TrainInternal_update is_backstitch_step t /\
            config_ t = config_ (this p) /\
            num_minibatches_processed_ t = num_minibatches_processed_ (this p).
Proof.
  unfold TrainInternal. intros H.
  apply bind_inv in H as ([] & q1 & H1 & H). injection H1 as <-.
  apply bind_inv in H as (q2 & q2' & Hget & H). injection Hget as <- <-.
  apply bind_inv in H as (c1 & q3 & H3 & H).
  apply bind_inv in H as (c2 & q4 & H4 & H).
  apply bind_inv in H as (c3 & q5 & H5 & H).
  apply bind_inv in H as ([] & q6 & H6 & H7).
  injection H6 as <-. injection H7 as <-.
  pose proof (extends_of_eq _ _ _ _ _ (quiet_run _ _) H3) as E3.
  pose proof (extends_of_eq _ _ _ _ _ (quiet_ProcessOutputs_loop _ _ _ _) H4) as E4.
  pose proof (extends_of_eq _ _ _ _ _ (quiet_run _ _) H5) as E5.
  destruct (extends_trans _ _ _ _ _ (extends_trans _ _ _ _ _ E3 E4) E5)
    as (Hc & Hn & _ & _).
  eexists. split; [reflexivity|]. cbn in *. auto.
Qed.

Section ExactScaling.
Context {exact : BaseFloatExact F}.

Lemma nnet_buffer_ScaleNnet (scale : F) (nnet : Nnet F) :
  nnet_buffer (ScaleNnet scale nnet) = map (map (fmul scale)) (nnet_buffer nnet).
Proof.
  unfold nnet_buffer, ScaleNnet. cbn [components].
  induction (components nnet) as [|c cs IH]; [reflexivity|].
  cbn [map params]. rewrite IH. reflexivity.
Qed.

Lemma scale_by_zero (buffer : list (list F)) :
  Forall (Forall (eq fzero)) (map (map (fmul fzero)) buffer).
Proof.
  induction buffer as [|v buffer IH]; constructor; [|exact IH].
  induction v as [|x v IHv]; constructor; [|exact IHv].
  symmetry. apply fmul_zero_l.
Qed.

(** C3: after the update engine was called, [delta_nnet_] holds its former
    parameters times [scale_delta_nnet] when the engine reported success
    (times the momentum outside a backstitch minibatch), and times zero,
    that is all zero, when it reported failure. *)
Theorem TrainInternal_update_scales_delta (is_backstitch_step : bool)
    (t : NnetTrainer F) (max_change_scale scale_adding scale_delta_nnet : F)
    (success : bool) (nnet : Nnet F) (per_component : list Z) (global : Z) :
  update_parameters (config_ t) (num_minibatches_processed_ t)
    is_backstitch_step = (max_change_scale, scale_adding, scale_delta_nnet) ->
  UpdateNnetWithMaxChange (delta_nnet_ t) (max_param_change (config_ t))
    max_change_scale scale_adding (nnet_ t)
    (num_max_change_per_component_applied_ t)
    (num_max_change_global_applied_ t) = (success, nnet, per_component, global) ->
  let buffer := nnet_buffer (delta_nnet_ t) in
  let buffer' := nnet_buffer (delta_nnet_ (TrainInternal_update is_backstitch_step t)) in
  (success = true -> buffer' = map (map (fmul scale_delta_nnet)) buffer) /\
  (success = true ->
   is_backstitch_minibatch (config_ t) (num_minibatches_processed_ t) = false ->
   buffer' = map (map (fmul (momentum (config_ t)))) buffer) /\
  (success = false ->
   buffer' = map (map (fmul fzero)) buffer /\
   Forall (Forall (eq fzero)) buffer').
Proof.
  intros Hparams Hengine buffer buffer'. subst buffer buffer'.
  unfold TrainInternal_update. rewrite Hparams, Hengine.
  cbn [set_update delta_nnet_].
  split; [|split].
  - intros ->. apply nnet_buffer_ScaleNnet.
  - intros -> Hb. rewrite nnet_buffer_ScaleNnet.
    unfold update_parameters in Hparams. rewrite Hb in Hparams.
    injection Hparams as _ _ <-. reflexivity.
  - intros ->. rewrite nnet_buffer_ScaleNnet. split; [reflexivity|].
    apply scale_by_zero.
Qed.

End ExactScaling.
End TrainFacts.

(** *** Construction and the momentum check *)

Section ConstructionFacts.
Context {F : Type} {ops : BaseFloatOps F} {ext : Collaborators F}
        {order : BaseFloatOrder F}.

(** C7, as the code has it: a configuration with positive momentum and
    positive backstitch scale passes the constructor (which only asserts
    that momentum and max_param_change are not negative); the check is the
    assertion in [Train]: the first call of [Train] ends fatally there,
    before any sub-step, and leaves the process as it was. *)
Theorem momentum_with_backstitch_fails_in_Train
    (config : NnetTrainerOptions F) (nnet : Nnet F) (rand_int : Z)
    (cache_opens : bool) (eg : NnetExample F) (r : Z) :
  momentum config >! fzero = true ->
  backstitch_training_scale config >! fzero = true ->
  max_param_change config >=! fzero = true ->
  backstitch_training_interval config <> 0%Z ->
  exists t lines,
    NnetTrainer_new config nnet rand_int cache_opens = Ok (t, lines) /\
    Train eg (start t lines r) =
      (Fatal "KALDI_ASSERT: config_.momentum == 0.0", start t lines r) /\
    substeps (trace (snd (Train eg (start t lines r)))) = [].
Proof.
  intros Hm Hb Hmax Hk0. unfold NnetTrainer_new.
  rewrite (fgt_zero_ge _ Hm), Hmax. cbn [andb negb].
  eexists _, _. split; [reflexivity|].
  match goal with |- ?call = ?res /\ _ =>
    assert (Hcall : call = res); [|split; [exact Hcall|rewrite Hcall; reflexivity]]
  end.
  unfold Train, bind, get, start. cbn [fst snd this config_ num_minibatches_processed_].
  unfold is_backstitch_minibatch. rewrite Hb. cbn [andb].
  replace (int32_rem 0 (backstitch_training_interval config) =? 0)%Z with true.
  - unfold KALDI_ASSERT. rewrite (fgt_zero_neq _ Hm). reflexivity.
  - unfold int32_rem. rewrite Z.rem_0_l by exact Hk0. reflexivity.
Qed.

End ConstructionFacts.

(** *** PrintTotalStats *)

Section PrintFacts.
Context {F : Type} {ops : BaseFloatOps F} {ext : Collaborators F}.

Lemma PrintTotalStats_loop_spec (entries : list (string * ObjectiveFunctionInfo F))
    (ans : bool) (p : Process F) :
  exists p',
    PrintTotalStats_loop entries ans p =
      (Ok (ans || existsb has_data entries), p') /\
    this p' = this p.
Proof.
  revert ans p; induction entries as [|[nm info] entries IH]; intros ans p;
    cbn [PrintTotalStats_loop existsb].
  - exists p. rewrite orb_false_r. auto.
  - unfold bind at 1. destruct ans.
    + cbn [ret]. destruct (IH true p) as (p' & -> & Hp'). exists p'. auto.
    + unfold ObjectiveFunctionInfo_PrintTotalStats. unfold bind at 1.
      cbn [KALDI_LOG ret orb has_data snd].
      match goal with |- context [PrintTotalStats_loop entries ?b ?q] =>
        destruct (IH b q) as (p' & -> & Hp') end.
      exists p'. split; [reflexivity|]. rewrite Hp'. reflexivity.
Qed.

Lemma PrintMaxChangeStats_loop_spec (comps : list (Component F)) (i : nat)
    (p : Process F) :
  Forall (fun comp => updatable_property comp = true ->
                      inherits_UpdatableComponent comp = true) comps ->
  exists p',
    PrintMaxChangeStats_loop comps i p = (Ok tt, p') /\ this p' = this p.
Proof.
  intros Hall. revert i p. induction Hall as [|comp comps Hcomp _ IH];
    intros i p; cbn [PrintMaxChangeStats_loop].
  - exists p. auto.
  - destruct (updatable_property comp); [|apply IH].
    rewrite (Hcomp eq_refl). unfold bind at 1. cbn [ret].
    unfold bind at 1. cbn [get]. unfold bind at 1.
    destruct (_ >? 0)%Z.
    + cbn [KALDI_LOG].
      match goal with |- context [PrintMaxChangeStats_loop comps ?j ?q] =>
        destruct (IH j q) as (p' & -> & Hp') end.
      exists p'. split; [reflexivity|]. rewrite Hp'. reflexivity.
    + cbn [ret]. destruct (IH (S i) p) as (p' & -> & Hp'). exists p'. auto.
Qed.

Lemma PrintMaxChangeStats_spec (p : Process F) :
  Forall (fun comp => updatable_property comp = true ->
                      inherits_UpdatableComponent comp = true)
         (components (delta_nnet_ (this p))) ->
  exists p', PrintMaxChangeStats p = (Ok tt, p') /\ this p' = this p.
Proof.
  intros Hall. unfold PrintMaxChangeStats. unfold bind at 1. cbn [get].
  unfold bind at 1.
  destruct (PrintMaxChangeStats_loop_spec _ 0 p Hall) as (p1 & -> & Hp1).
  destruct (_ >? 0)%Z.
  - eexists. split; [reflexivity|]. cbn. exact Hp1.
  - exists p1. auto.
Qed.

(** C10: [PrintTotalStats], when no updatable component fails the check
    of [PrintMaxChangeStats], returns true exactly when some entry of
    [accuracy_info_] has a non-zero lifetime weight; what the entries of
    [objf_info_] gave is dropped, so with an empty [accuracy_info_] the
    result is false whatever [objf_info_] holds. *)
Theorem PrintTotalStats_accuracy_only (p : Process F) :
  Forall (fun comp => updatable_property comp = true ->
                      inherits_UpdatableComponent comp = true)
         (components (delta_nnet_ (this p))) ->
  exists ans,
    fst (PrintTotalStats p) = Ok ans /\
    (ans = true <->
     exists nm info, accuracy_info_ (this p) !! nm = Some info /\
                     tot_weight info ==! fzero = false) /\
    (accuracy_info_ (this p) = ∅ -> ans = false).
Proof.
  intros Hall. unfold PrintTotalStats. unfold bind at 1. cbn [get].
  unfold bind at 1.
  destruct (PrintTotalStats_loop_spec (map_to_list (objf_info_ (this p))) false p)
    as (p1 & -> & Hp1).
  unfold bind at 1. cbn [KALDI_LOG]. unfold bind at 1.
  match goal with |- context [PrintTotalStats_loop ?l false ?q] =>
    destruct (PrintTotalStats_loop_spec l false q) as (p2 & -> & Hp2) end.
  cbn [this] in Hp2. unfold bind at 1.
  destruct (PrintMaxChangeStats_spec p2) as (p3 & -> & Hp3).
  { rewrite Hp2, Hp1. exact Hall. }
  cbn [ret fst orb]. eexists. split; [reflexivity|].
  split.
  - rewrite existsb_exists. split.
    + intros ([nm info] & Hin & Hdata). exists nm, info.
      apply list_elem_of_In, elem_of_map_to_list in Hin.
      split; [exact Hin|]. unfold has_data in Hdata. cbn [snd] in Hdata.
      apply negb_true_iff. exact Hdata.
    + intros (nm & info & Hlook & Hw). exists (nm, info). split.
      * apply list_elem_of_In, elem_of_map_to_list. exact Hlook.
      * unfold has_data. cbn [snd]. rewrite Hw. reflexivity.
  - intros ->. rewrite map_to_list_empty. reflexivity.
Qed.

End PrintFacts.

(** ** The rationals are an exact, ordered [BaseFloat] *)

Lemma Qc_gtb_zero_neq (x : Qc) :
  Qc_gtb x (Q2Qc 0) = true -> Qc_eq_bool x (Q2Qc 0) = false.
Proof.
  unfold Qc_gtb. intros Hgt.
  destruct (Qc_eq_bool x (Q2Qc 0)) eqn:Heq; [|reflexivity].
  apply Qc_eq_bool_correct in Heq. subst x. discriminate Hgt.
Qed.

Lemma Qc_gtb_zero_ge (x : Qc) :
  Qc_gtb x (Q2Qc 0) = true -> Qc_geb x (Q2Qc 0) = true.
Proof.
  unfold Qc_gtb, Qc_geb. destruct (x ?= Q2Qc 0)%Qc; congruence.
Qed.

Lemma Qc_eq_bool_spec (x y : Qc) : Qc_eq_bool x y = true <-> x = y.
Proof.
  split; [apply Qc_eq_bool_correct|].
  intros ->. unfold Qc_eq_bool. destruct (Qcanon.Qc_eq_dec y y); congruence.
Qed.

Lemma Qc_order : BaseFloatOrder Qc.
Proof. split; [exact Qc_gtb_zero_neq|exact Qc_gtb_zero_ge]. Qed.

Lemma Qc_exact : BaseFloatExact Qc.
Proof. split; [exact Qcrt|exact Qc_eq_bool_spec]. Qed.

#[export] Existing Instance Qc_order.
#[export] Existing Instance Qc_exact.

(** ** The results at the sample inputs *)

(** The specification's example, evaluated: weight 1 and objective
    [output[0][2] = -3], from the sparse and from the dense encoding. *)
Example linear_example_sparse :
  match ComputeObjectiveFunction (kSparseMatrix sample_sparse) kLinear "output"
          false sample_computer with
  | Ok (_, tot_weight, tot_objf) => tot_weight = Q2Qc 1 /\ tot_objf = Q2Qc (-3)
  | Fatal _ => False
  end.
Proof. vm_compute. split; apply Qc_is_canon; reflexivity. Qed.

Example linear_example_dense :
  match ComputeObjectiveFunction (kFullMatrix sample_dense) kLinear "output"
          false sample_computer with
  | Ok (_, tot_weight, tot_objf) => tot_weight = Q2Qc 1 /\ tot_objf = Q2Qc (-3)
  | Fatal _ => False
  end.
Proof. vm_compute. split; apply Qc_is_canon; reflexivity. Qed.

(** A quadratic objective: supervision [[-1; 0; -3; -4]] against the
    output [[-1; -2; -3; -4]] gives [-0.5 * 4 = -2] and weight 1. *)
Example quadratic_example :
  match ComputeObjectiveFunction
          (kFullMatrix [[Q2Qc (-1); Q2Qc 0; Q2Qc (-3); Q2Qc (-4)]])
          kQuadratic "output" false sample_computer with
  | Ok (_, tot_weight, tot_objf) => tot_weight = Q2Qc 1 /\ tot_objf = Q2Qc (-2)
  | Fatal _ => False
  end.
Proof. vm_compute. split; apply Qc_is_canon; reflexivity. Qed.

(** A supervision of five columns against the output of four ends the
    call. *)
Example column_mismatch_example :
  ComputeObjectiveFunction
    (kFullMatrix [[Q2Qc 0; Q2Qc 0; Q2Qc 1; Q2Qc 0; Q2Qc 0]])
    kLinear "output" false sample_computer =
  Fatal "Nnet versus example output dimension (num-classes) mismatch".
Proof. reflexivity. Qed.

(** Five minibatches, two per phase: the phases 0 and 1 are flushed, with
    the ranges 0-1 and 2-3. *)
Example feed_five_by_two :
  match feed_minibatches "output" 2 (Q2Qc 1) (Q2Qc (-3)) (first_counters 5)
          ObjectiveFunctionInfo_new with
  | Ok (info, lines) =>
      current_phase info = 2%Z /\
      map reported_range lines = [Some (0, 1)%Z; Some (2, 3)%Z]
  | Fatal _ => False
  end.
Proof. vm_compute. split; reflexivity. Qed.

(** A counter that lies in an earlier phase than the stored one. *)
Example phase_moving_backward :
  match feed_minibatches "output" 2 (Q2Qc 1) (Q2Qc (-3)) [4; 1]%Z
          ObjectiveFunctionInfo_new with
  | Ok _ => False
  | Fatal msg => msg = "KALDI_ASSERT: phase > current_phase"
  end.
Proof. reflexivity. Qed.

(** The three encodings of the specification's example give weight 1 and
    the output's entry at column 2. *)
Lemma ComputeObjectiveFunction_linear_encodings_witness :
  encodes (kSparseMatrix sample_sparse) sample_dense /\
  Shape sample_dense 1 4 /\
  Shape (GetOutput sample_computer "output") 1 4 /\
  ComputeObjectiveFunction (kSparseMatrix sample_sparse) kLinear "output" true
    sample_computer =
  Ok (AcceptInput "output" sample_dense sample_computer,
      Sum sample_dense,
      TraceMatMat_kTrans (GetOutput sample_computer "output") sample_dense).
Proof.
  assert (Henc : encodes (kSparseMatrix sample_sparse) sample_dense).
  { split; [|reflexivity].
    repeat constructor; cbn; try lia. intros Hin. inversion Hin. }
  assert (Hm : Shape sample_dense 1 4) by (split; repeat constructor).
  assert (Hout : Shape (GetOutput sample_computer "output") 1 4)
    by (split; repeat constructor).
  split; [exact Henc|]. split; [exact Hm|]. split; [exact Hout|].
  exact (ComputeObjectiveFunction_linear_encodings
           (kSparseMatrix sample_sparse) sample_dense "output" true
           sample_computer 1 4 Henc Hm Hout).
Defined.


Lemma ComputeObjectiveFunction_quadratic_witness :
  Shape (GeneralMatrix_GetMatrix (kFullMatrix sample_output)) 1 4 /\
  Shape (GetOutput sample_computer "output") 1 4 /\
  exists computer',
    ComputeObjectiveFunction (kFullMatrix sample_output) kQuadratic "output"
      true sample_computer =
    Ok (computer', of_int32 (Z.of_nat 1), fzero).
Proof.
  assert (Hs : Shape (GeneralMatrix_GetMatrix (kFullMatrix sample_output)) 1 4)
    by (split; repeat constructor).
  assert (Hout : Shape (GetOutput sample_computer "output") 1 4)
    by (split; repeat constructor).
  split; [exact Hs|]. split; [exact Hout|].
  exact (proj2 (ComputeObjectiveFunction_quadratic
                  (kFullMatrix sample_output) "output" true sample_computer
                  1 4 Hs Hout) eq_refl).
Defined.

Lemma feed_minibatches_flushes_witness :
  (1 <= 2 <= 2147483647)%Z /\ (1 <= 5)%nat /\ (Z.of_nat 5 <= 2147483648)%Z /\
  exists info lines,
    feed_minibatches "output" 2 (Q2Qc 1) (Q2Qc (-3)) (first_counters 5)
      ObjectiveFunctionInfo_new = Ok (info, lines) /\
    Z.of_nat (length lines) = ((Z.of_nat 5 - 1) / 2)%Z /\
    forall p : nat, (p < length lines)%nat ->
      reported_range <$> lines !! p =
      Some (Some (Z.of_nat p * 2, (Z.of_nat p + 1) * 2 - 1)%Z).
Proof.
  assert (HK : (1 <= 2 <= 2147483647)%Z) by lia.
  assert (HN1 : (1 <= 5)%nat) by lia.
  assert (HN : (Z.of_nat 5 <= 2147483648)%Z) by lia.
  split; [exact HK|]. split; [exact HN1|]. split; [exact HN|].
  exact (feed_minibatches_flushes "output" 2 (Q2Qc 1) (Q2Qc (-3)) 5 HK HN1 HN).
Defined.

(** One minibatch with one minibatch per phase: the quotient [N / K] is 1,
    and no phase line is logged. *)
Lemma one_minibatch_is_not_flushed :
  phase_flushes "output" 1 (Q2Qc 1) (Q2Qc (-3)) 1 = Some 0%nat /\
  Z.to_nat (Z.of_nat 1 / 1) = 1%nat.
Proof. split; reflexivity. Qed.

Lemma UpdateStats_phase_monotone_witness :
  2%Z <> 0%Z /\
  (current_phase sample_info <= int32_div 4 2)%Z /\
  exists info' lines,
    UpdateStats "output" 2 4 (Q2Qc 1) (Q2Qc (-3)) (Q2Qc 0) sample_info =
      Ok (info', lines) /\
    current_phase sample_info = 0%Z /\
    current_phase info' = 2%Z /\
    lines = [PrintStatsForThisPhase "output" 2 sample_info] /\
    tot_weight_this_phase info' = fzero +! Q2Qc 1 /\
    tot_objf_this_phase info' = fzero +! Q2Qc (-3) /\
    tot_aux_objf_this_phase info' = fzero +! Q2Qc 0.
Proof.
  assert (H2 : 2%Z <> 0%Z) by lia.
  assert (Hle : (current_phase sample_info <= int32_div 4 2)%Z)
    by (vm_compute; discriminate).
  split; [exact H2|]. split; [exact Hle|].
  destruct (UpdateStats_phase_monotone "output" 2 4 (Q2Qc 1) (Q2Qc (-3)) (Q2Qc 0)
              sample_info H2) as (_ & Hreturns & Hall).
  destruct (Hreturns Hle) as (info' & lines & Hcall).
  destruct (Hall info' lines Hcall) as (_ & Hphase & Hadvanced).
  exists info', lines. split; [exact Hcall|]. split; [reflexivity|].
  split; [exact Hphase|].
  apply Hadvanced. rewrite Hphase. reflexivity.
Defined.

Lemma Train_substeps_witness :
  int32_range (backstitch_training_interval backstitch_config) /\
  backstitch_training_interval backstitch_config <> 0%Z /\
  int32_range (0 + 1) /\
  int32_range (4711 + 0) /\
  (exists q1 q2,
     c_rand (substep_entry true 4711 (process_of backstitch_config)) = 4711%Z /\
     TrainInternal sample_eg (table_of_example sample_eg) true
       (substep_entry true 4711 (process_of backstitch_config)) = (Ok tt, q1) /\
     c_rand (substep_entry false 4711 q1) = 4711%Z /\
     TrainInternal sample_eg (table_of_example sample_eg) false
       (substep_entry false 4711 q1) = (Ok tt, q2) /\
     Train sample_eg (process_of backstitch_config) =
       (Ok tt, with_this (set_num_minibatches_processed_ 1) q2)) /\
  trace (snd (Train sample_eg (process_of backstitch_config))) =
    [EvFreezeNaturalGradient true;
     EvSrand 4711; EvResetGenerators; EvTrainInternal true;
     EvFreezeNaturalGradient false;
     EvSrand 4711; EvResetGenerators; EvTrainInternal false] /\
  num_minibatches_processed_
    (this (snd (Train sample_eg (process_of backstitch_config)))) = 1%Z.
Proof.
  assert (Hok : fst (Train sample_eg (process_of backstitch_config)) = Ok tt)
    by (vm_compute; reflexivity).
  assert (Hk : int32_range (backstitch_training_interval backstitch_config))
    by (unfold int32_range; cbn; lia).
  assert (Hk0 : backstitch_training_interval backstitch_config <> 0%Z)
    by (cbn; lia).
  assert (Hn1 : int32_range (0 + 1)) by (unfold int32_range; lia).
  assert (Hseed : int32_range (4711 + 0)) by (unfold int32_range; lia).
  assert (Hb : backstitch_training_scale
                 (config_ (this (process_of backstitch_config))) >! fzero = true /\
               (backstitch_training_interval
                  (config_ (this (process_of backstitch_config)))
                | num_minibatches_processed_
                    (this (process_of backstitch_config)))%Z)
    by (split; [reflexivity|exists 0%Z; reflexivity]).
  assert (Hm : momentum (config_ (this (process_of backstitch_config))) ==! fzero
               = true) by reflexivity.
  destruct (Train_substeps sample_eg (process_of backstitch_config)
              Hk Hk0 Hn1 Hseed) as (_ & Hrun & _ & Htrace & _).
  specialize (Hrun Hb Hm). destruct (Htrace Hok) as (Hyes & _ & Hn).
  split; [exact Hk|]. split; [exact Hk0|]. split; [exact Hn1|].
  split; [exact Hseed|]. split; [|split; [exact (Hyes Hb)|exact Hn]].
  destruct (TrainInternal sample_eg _ true _) as [[[]|msg] q1] eqn:E1.
  2: { apply (f_equal fst) in E1. vm_compute in E1. discriminate E1. }
  assert (Hq1 : q1 = snd (TrainInternal sample_eg (table_of_example sample_eg) true
                            (substep_entry true 4711
                               (process_of backstitch_config))))
    by (change (q1 = snd (TrainInternal sample_eg
                       (Compile (nnet_ (this (process_of backstitch_config)))
                          sample_eg true
                          (store_component_stats
                             (config_ (this (process_of backstitch_config)))))
                       true
                       (substep_entry true
                          (srand_seed_ (this (process_of backstitch_config)) +
                           num_minibatches_processed_
                             (this (process_of backstitch_config)))
                          (process_of backstitch_config))));
        rewrite E1; reflexivity).
  destruct (TrainInternal sample_eg _ false _) as [[[]|msg] q2] eqn:E2.
  2: { rewrite Hq1 in E2. apply (f_equal fst) in E2. vm_compute in E2.
       discriminate E2. }
  exists q1, q2. split; [reflexivity|]. split; [first [exact E1|reflexivity]|].
  split; [reflexivity|]. split; [first [exact E2|reflexivity]|exact Hrun].
Defined.

(** At a backstitch minibatch with momentum one half no sub-step runs and
    the counter stays where it was. *)
Lemma Train_with_momentum_runs_no_substep :
  backstitch_training_scale conflicting_config >! fzero = true /\
  (backstitch_training_interval conflicting_config
   | num_minibatches_processed_ (this (process_of conflicting_config)))%Z /\
  is_fatal (fst (Train sample_eg (process_of conflicting_config))) = true /\
  substeps (trace (snd (Train sample_eg (process_of conflicting_config)))) = [] /\
  num_minibatches_processed_
    (this (snd (Train sample_eg (process_of conflicting_config)))) = 0%Z.
Proof.
  split; [reflexivity|]. split; [exists 0%Z; reflexivity|].
  repeat split; reflexivity.
Qed.

Lemma TrainInternal_update_scales_delta_witness :
  nnet_buffer (delta_nnet_ (carrying_trainer momentum_config)) =
    [[Q2Qc 1; Q2Qc 2]] /\
  (update_parameters (config_ (carrying_trainer momentum_config))
     (num_minibatches_processed_ (carrying_trainer momentum_config)) false =
     (fone, fone -! Q2Qc (1 # 2), Q2Qc (1 # 2)) /\
   UpdateNnetWithMaxChange (delta_nnet_ (carrying_trainer momentum_config))
     (max_param_change momentum_config) fone (fone -! Q2Qc (1 # 2))
     (nnet_ (carrying_trainer momentum_config)) [0%Z] 0%Z =
     (true, sample_nnet, [0%Z], 0%Z) /\
   nnet_buffer
     (delta_nnet_ (TrainInternal_update false (carrying_trainer momentum_config))) =
   [[Q2Qc (1 # 2) *! Q2Qc 1; Q2Qc (1 # 2) *! Q2Qc 2]]) /\
  (update_parameters (config_ (carrying_trainer momentum_config))
     (num_minibatches_processed_ (carrying_trainer momentum_config)) false =
     (fone, fone -! Q2Qc (1 # 2), Q2Qc (1 # 2)) /\
   UpdateNnetWithMaxChange (Collaborators := refusing_collaborators)
     (delta_nnet_ (carrying_trainer momentum_config))
     (max_param_change momentum_config) fone (fone -! Q2Qc (1 # 2))
     (nnet_ (carrying_trainer momentum_config)) [0%Z] 0%Z =
     (false, sample_nnet, [0%Z], 0%Z) /\
   nnet_buffer
     (delta_nnet_ (TrainInternal_update (ext := refusing_collaborators) false
                     (carrying_trainer momentum_config))) =
   [[fzero *! Q2Qc 1; fzero *! Q2Qc 2]] /\
   Forall (Forall (eq fzero))
     (nnet_buffer
        (delta_nnet_ (TrainInternal_update (ext := refusing_collaborators) false
                        (carrying_trainer momentum_config))))).
Proof.
  assert (Hp : update_parameters (config_ (carrying_trainer momentum_config))
                 (num_minibatches_processed_ (carrying_trainer momentum_config))
                 false =
               (fone, fone -! Q2Qc (1 # 2), Q2Qc (1 # 2))) by reflexivity.
  assert (He : UpdateNnetWithMaxChange (delta_nnet_ (carrying_trainer momentum_config))
                 (max_param_change (config_ (carrying_trainer momentum_config)))
                 fone (fone -! Q2Qc (1 # 2))
                 (nnet_ (carrying_trainer momentum_config))
                 (num_max_change_per_component_applied_
                    (carrying_trainer momentum_config))
                 (num_max_change_global_applied_
                    (carrying_trainer momentum_config)) =
               (true, sample_nnet, [0%Z], 0%Z)) by reflexivity.
  assert (Hf : UpdateNnetWithMaxChange (Collaborators := refusing_collaborators)
                 (delta_nnet_ (carrying_trainer momentum_config))
                 (max_param_change (config_ (carrying_trainer momentum_config)))
                 fone (fone -! Q2Qc (1 # 2))
                 (nnet_ (carrying_trainer momentum_config))
                 (num_max_change_per_component_applied_
                    (carrying_trainer momentum_config))
                 (num_max_change_global_applied_
                    (carrying_trainer momentum_config)) =
               (false, sample_nnet, [0%Z], 0%Z)) by reflexivity.
  split; [reflexivity|]. split.
  - split; [exact Hp|]. split; [exact He|].
    exact (proj1 (TrainInternal_update_scales_delta false
                    (carrying_trainer momentum_config) _ _ _ true _ _ _ Hp He)
                 eq_refl).
  - split; [exact Hp|]. split; [exact Hf|].
    exact (proj2 (proj2 (TrainInternal_update_scales_delta
                           (ext := refusing_collaborators) false
                           (carrying_trainer momentum_config) _ _ _ false _ _ _
                           Hp Hf))
                 eq_refl).
Defined.

(** The constructor accepts momentum one half together with backstitch
    scale one. *)
Lemma constructor_accepts_momentum_with_backstitch :
  momentum conflicting_config >! fzero = true /\
  backstitch_training_scale conflicting_config >! fzero = true /\
  is_fatal (NnetTrainer_new conflicting_config sample_nnet 4711 false) = false.
Proof. repeat split; reflexivity. Qed.

Lemma momentum_with_backstitch_fails_in_Train_witness :
  momentum conflicting_config >! fzero = true /\
  backstitch_training_scale conflicting_config >! fzero = true /\
  max_param_change conflicting_config >=! fzero = true /\
  backstitch_training_interval conflicting_config <> 0%Z /\
  exists t lines,
    NnetTrainer_new conflicting_config sample_nnet 4711 false = Ok (t, lines) /\
    Train sample_eg (start t lines 1) =
      (Fatal "KALDI_ASSERT: config_.momentum == 0.0", start t lines 1) /\
    substeps (trace (snd (Train sample_eg (start t lines 1)))) = [].
Proof.
  assert (Hm : momentum conflicting_config >! fzero = true) by reflexivity.
  assert (Hb : backstitch_training_scale conflicting_config >! fzero = true)
    by reflexivity.
  assert (Hmax : max_param_change conflicting_config >=! fzero = true)
    by reflexivity.
  assert (Hk0 : backstitch_training_interval conflicting_config <> 0%Z)
    by (cbn; lia).
  split; [exact Hm|]. split; [exact Hb|]. split; [exact Hmax|].
  split; [exact Hk0|].
  exact (momentum_with_backstitch_fails_in_Train conflicting_config sample_nnet
           4711 false sample_eg 1 Hm Hb Hmax Hk0).
Defined.

Lemma PrintTotalStats_accuracy_only_witness :
  Forall (fun comp => updatable_property comp = true ->
                      inherits_UpdatableComponent comp = true)
         (components (delta_nnet_ (this stats_process))) /\
  (exists info, objf_info_ (this stats_process) !! "output" = Some info /\
                tot_weight info ==! fzero = false) /\
  exists ans,
    fst (PrintTotalStats stats_process) = Ok ans /\
    (ans = true <->
     exists nm info, accuracy_info_ (this stats_process) !! nm = Some info /\
                     tot_weight info ==! fzero = false) /\
    (accuracy_info_ (this stats_process) = ∅ -> ans = false).
Proof.
  assert (Hall : Forall (fun comp => updatable_property comp = true ->
                                     inherits_UpdatableComponent comp = true)
                   (components (delta_nnet_ (this stats_process))))
    by (repeat constructor).
  split; [exact Hall|]. split.
  - exists sample_info. split; reflexivity.
  - exact (PrintTotalStats_accuracy_only stats_process Hall).
Defined.

(** * Further results *)

(** ** The statistics of a run of minibatches, in closed form *)

Lemma pred_div_cases (K n : nat) :
  1 <= K -> 1 <= n ->
  (n mod K = 0 /\ n / K = Nat.pred n / K + 1 /\ K * (n / K) = n) \/
  (n mod K <> 0 /\ n / K = Nat.pred n / K).
Proof.
  intros HK Hn.
  pose proof (Nat.div_mod_eq n K) as Hdm.
  pose proof (Nat.mod_upper_bound n K ltac:(lia)) as Hlt.
  destruct (Nat.eq_dec (n mod K) 0) as [H0|H0].
  - left. split; [exact H0|]. split; [|lia].
    assert (Hp : Nat.pred n / K = n / K - 1).
    { symmetry. apply (Nat.div_unique (Nat.pred n) K _ (K - 1)); [lia|].
      assert (1 <= n / K) by (destruct (n / K); [lia|lia]). nia. }
    rewrite Hp. assert (1 <= n / K) by (destruct (n / K); [lia|lia]). lia.
  - right. split; [exact H0|].
    apply (Nat.div_unique (Nat.pred n) K _ (n mod K - 1)); lia.
Qed.

Lemma in_phase_S (K n : nat) : 1 <= K -> in_phase K (S n) = S (n mod K).
Proof.
  intros HK. unfold in_phase. cbn [Nat.pred].
  pose proof (Nat.div_mod_eq n K). lia.
Qed.

Lemma in_phase_full (K p : nat) : 1 <= K -> in_phase K ((p + 1) * K) = K.
Proof.
  intros HK. destruct ((p + 1) * K) as [|m] eqn:Hm; [nia|].
  rewrite in_phase_S by exact HK.
  assert (Hmod : S m mod K = 0) by (rewrite <- Hm; apply Nat.Div0.mod_mul).
  pose proof (Nat.div_mod_eq m K) as Hdm.
  pose proof (Nat.mod_upper_bound m K ltac:(lia)) as Hlt.
  destruct (Nat.eq_dec (S (m mod K)) K) as [He|Hne]; [exact He|].
  exfalso.
  assert (Hs : S m mod K = S (m mod K)).
  { symmetry. apply (Nat.mod_unique (S m) K (m / K)); lia. }
  lia.
Qed.

Section ClosedForm.
Context {F : Type} {ops : BaseFloatOps F}.

Lemma repeat_add_S (k : nat) (x : F) : repeat_add (S k) x = repeat_add k x +! x.
Proof. reflexivity. Qed.

(** The call with counter [n], after the counters below it. *)
Lemma UpdateStats_state_after (output_name : string) (K : nat)
    (weight objf : F) (n : nat) :
  1 <= K -> (Z.of_nat K <= 2147483647)%Z -> (Z.of_nat n <= 2147483647)%Z ->
  UpdateStats output_name (Z.of_nat K) (Z.of_nat n) weight objf fzero
    (state_after K weight objf n) =
  Ok (state_after K weight objf (S n),
      if (1 <=? n) && (n mod K =? 0) then
        [PrintStatsForThisPhase output_name (Z.of_nat K)
           (state_after K weight objf n)]
      else []).
Proof.
  intros HK HKr Hn. unfold UpdateStats.
  assert (Hphase : int32_div (Z.of_nat n) (Z.of_nat K) = Z.of_nat (n / K)).
  { unfold int32_div. rewrite Z.quot_div_nonneg by lia.
    rewrite <- Nat2Z.inj_div. apply int32_wrap_id. unfold int32_range.
    pose proof (Nat.Div0.div_le_upper_bound n K n ltac:(nia)). lia. }
  rewrite Hphase. cbn [current_phase state_after].
  destruct n as [|n].
  - cbn [Nat.pred andb Nat.leb]. rewrite Nat.Div0.div_0_l. cbn [Z.of_nat Z.eqb negb].
    unfold state_after. cbn [Nat.pred]. rewrite Nat.Div0.div_0_l.
    unfold in_phase. cbn [Nat.pred]. rewrite Nat.Div0.div_0_l.
    replace (1 - K * 0) with 1 by lia. replace (0 - K * 0) with 0 by lia.
    reflexivity.
  - destruct (pred_div_cases K (S n) HK ltac:(lia)) as [(Hmod & Hdiv & Hmul)|(Hmod & Hdiv)].
    + rewrite Hmod. cbn [Nat.leb Nat.eqb andb].
      replace (Z.of_nat (S n / K) =? Z.of_nat (Nat.pred (S n) / K))%Z with false
        by (symmetry; apply Z.eqb_neq; lia).
      replace (Z.of_nat (S n / K) >? Z.of_nat (Nat.pred (S n) / K))%Z with true
        by (symmetry; apply Z.gtb_lt; lia).
      cbn [negb]. f_equal. f_equal.
      unfold state_after. cbn [Nat.pred tot_weight tot_objf tot_aux_objf current_phase].
      rewrite (in_phase_S K (S n) HK), Hmod. reflexivity.
    + replace ((1 <=? S n) && (S n mod K =? 0)) with false
        by (symmetry; apply andb_false_iff; right; apply Nat.eqb_neq; exact Hmod).
      rewrite Hdiv, Z.eqb_refl. cbn [negb]. f_equal. f_equal.
      unfold state_after.
      cbn [Nat.pred tot_weight tot_objf tot_aux_objf current_phase
           tot_weight_this_phase tot_objf_this_phase tot_aux_objf_this_phase].
      rewrite Hdiv.
      rewrite (in_phase_S K (S n) HK), (in_phase_S K n HK).
      assert (Hs : S n mod K = S (n mod K)).
      { pose proof (Nat.div_mod_eq n K). pose proof (Nat.div_mod_eq (S n) K).
        pose proof (Nat.mod_upper_bound n K ltac:(lia)).
        cbn [Nat.pred] in Hdiv.
        symmetry. apply (Nat.mod_unique (S n) K (n / K)); [|lia].
        destruct (Nat.eq_dec (S (n mod K)) K) as [He|Hne]; [|lia].
        exfalso. apply Hmod. symmetry.
        apply (Nat.mod_unique (S n) K (n / K + 1)); lia. }
      rewrite Hs. reflexivity.
Qed.

(** X1: the whole run in closed form.  After the counters [0 .. N-1] with
    a constant weight and objective the record holds the [N]-fold sums as
    lifetime totals and the sums over the minibatches of the last phase as
    per-phase totals, and the line logged for phase [p] is the one of the
    record after [(p + 1) * K] minibatches, whose per-phase totals are the
    [K]-fold sums. *)
Theorem feed_minibatches_closed_form (output_name : string) (K N : nat)
    (weight objf : F) :
  1 <= K -> (Z.of_nat K <= 2147483647)%Z -> (Z.of_nat N <= 2147483648)%Z ->
  feed_minibatches output_name (Z.of_nat K) weight objf (first_counters N)
    ObjectiveFunctionInfo_new =
  Ok (state_after K weight objf N,
      map (fun p => PrintStatsForThisPhase output_name (Z.of_nat K)
                      (state_after K weight objf ((p + 1) * K)))
          (seq 0 (Nat.pred N / K))) /\
  forall p : nat,
    current_phase (state_after K weight objf ((p + 1) * K)) = Z.of_nat p /\
    tot_weight_this_phase (state_after K weight objf ((p + 1) * K)) =
      repeat_add K weight /\
    tot_objf_this_phase (state_after K weight objf ((p + 1) * K)) =
      repeat_add K objf.
Proof.
  intros HK HKr HN. split.
  - induction N as [|N IH].
    + cbn. unfold state_after, ObjectiveFunctionInfo_new, in_phase. cbn.
      rewrite Nat.Div0.div_0_l. cbn. rewrite Nat.mul_0_r. reflexivity.
    + rewrite first_counters_S, feed_minibatches_app, IH by lia.
      cbn [feed_minibatches].
      rewrite (UpdateStats_state_after output_name K weight objf N HK HKr) by lia.
      f_equal. f_equal. rewrite app_nil_r. cbn [Nat.pred].
      destruct N as [|N]; [cbn [Nat.leb andb Nat.pred]; rewrite Nat.Div0.div_0_l;
                           reflexivity|].
      destruct (pred_div_cases K (S N) HK ltac:(lia)) as [(Hmod & Hdiv & Hmul)|(Hmod & Hdiv)].
      * rewrite Hmod. cbn [Nat.leb Nat.eqb andb]. rewrite Hdiv.
        rewrite seq_app, map_app. cbn [seq map Nat.add]. do 3 f_equal.
        f_equal. rewrite <- Hdiv. lia.
      * replace ((1 <=? S N) && (S N mod K =? 0)) with false
          by (symmetry; apply andb_false_iff; right; apply Nat.eqb_neq; exact Hmod).
        rewrite Hdiv, app_nil_r. reflexivity.
  - intros p. unfold state_after.
    cbn [current_phase tot_weight_this_phase tot_objf_this_phase].
    rewrite (in_phase_full K p HK). repeat split. f_equal. symmetry.
    apply (Nat.div_unique _ K p (K - 1)); [lia|].
    destruct ((p + 1) * K) as [|m] eqn:Hm; [nia|]. cbn [Nat.pred]. nia.
Qed.

End ClosedForm.

(** ** What the printing methods print and leave alone *)

Section PrintingFacts.
Context {F : Type} {ops : BaseFloatOps F} {ext : Collaborators F}.

Lemma only_log_refl (p : Process F) : only_log p p.
Proof. unfold only_log. repeat split. exists []. rewrite app_nil_r. reflexivity. Qed.

Lemma only_log_trans (p p1 p2 : Process F) :
  only_log p p1 -> only_log p1 p2 -> only_log p p2.
Proof.
  unfold only_log. intros (Ht & Hr & He & l1 & Hl1) (Ht' & Hr' & He' & l2 & Hl2).
  rewrite Ht', Hr', He', Ht, Hr, He. repeat split.
  exists (l1 ++ l2). rewrite Hl2, Hl1, app_assoc. reflexivity.
Qed.

Lemma only_log_KALDI_LOG (lines : list (LogLine F)) (p : Process F) :
  only_log p (snd (KALDI_LOG lines p)).
Proof. unfold only_log. cbn. repeat split. exists lines. reflexivity. Qed.

Lemma KALDI_LOG_nil (p : Process F) : snd (KALDI_LOG [] p) = p.
Proof. destruct p. cbn. rewrite app_nil_r. reflexivity. Qed.

Lemma KALDI_LOG_app (l1 l2 : list (LogLine F)) (p : Process F) :
  snd (KALDI_LOG l2 (snd (KALDI_LOG l1 p))) = snd (KALDI_LOG (l1 ++ l2) p).
Proof. cbn. rewrite app_assoc. reflexivity. Qed.

Lemma bind_of_eq {A B} (m : M F A) (k : A -> M F B) (p q : Process F) (a : A) :
  m p = (Ok a, q) -> bind m k p = k a q.
Proof. unfold bind. intros ->. reflexivity. Qed.

Lemma bind_of_fatal {A B} (m : M F A) (k : A -> M F B) (p q : Process F)
    (msg : string) :
  m p = (Fatal msg, q) -> bind m k p = (Fatal msg, q).
Proof. unfold bind. intros ->. reflexivity. Qed.

Lemma bind_get {B} (k : Process F -> M F B) (p : Process F) :
  bind get k p = k p p.
Proof. reflexivity. Qed.

Lemma bind_ret {A B} (a : A) (k : A -> M F B) (p : Process F) :
  bind (ret a) k p = k a p.
Proof. reflexivity. Qed.

Lemma bind_KALDI_LOG {B} (lines : list (LogLine F)) (k : unit -> M F B)
    (p : Process F) :
  bind (KALDI_LOG lines) k p = k tt (snd (KALDI_LOG lines p)).
Proof. reflexivity. Qed.

Lemma bind_KALDI_ERR {A B} (msg : string) (k : A -> M F B) (p : Process F) :
  bind (KALDI_ERR msg) k p = (Fatal msg, p).
Proof. reflexivity. Qed.

Lemma KALDI_LOG_eq (lines : list (LogLine F)) (p : Process F) :
  KALDI_LOG lines p = (Ok tt, snd (KALDI_LOG lines p)).
Proof. reflexivity. Qed.

(** The loop over a statistics map: the answer, and the lines of the
    entries up to the first one with data. *)
Lemma PrintTotalStats_loop_prints
    (entries : list (string * ObjectiveFunctionInfo F)) (p : Process F) :
  PrintTotalStats_loop entries false p =
  (Ok (existsb has_data entries),
   snd (KALDI_LOG (total_lines (printed_entries entries)) p)).
Proof.
  revert p; induction entries as [|[nm info] entries IH]; intros p;
    cbn [PrintTotalStats_loop existsb printed_entries].
  - unfold total_lines. cbn [map concat]. rewrite KALDI_LOG_nil. reflexivity.
  - assert (Hb : fst (ObjectiveFunctionInfo_PrintTotalStats nm info) =
                 has_data (nm, info)) by reflexivity.
    assert (Hstep : forall (b : bool) (lines : list (LogLine F)),
              (let '(b, lines) := (b, lines) in
               bind (KALDI_LOG lines) (fun _ => ret b)) p =
              (Ok b, snd (KALDI_LOG lines p))) by reflexivity.
    destruct (ObjectiveFunctionInfo_PrintTotalStats nm info) as [b lines] eqn:Hinfo.
    cbn [fst] in Hb. subst b.
    rewrite (bind_of_eq _ _ _ _ _ (Hstep _ _)).
    destruct (has_data (nm, info)) eqn:Hd; cbn [orb].
    + assert (Hskip : forall q, PrintTotalStats_loop entries true q = (Ok true, q)).
      { clear. induction entries as [|[nm' info'] entries IH']; intros q;
          cbn [PrintTotalStats_loop]; [reflexivity|].
        rewrite bind_ret. apply IH'. }
      rewrite Hskip. unfold total_lines. cbn [map concat fst snd].
      rewrite Hinfo. cbn [snd]. rewrite app_nil_r. reflexivity.
    + rewrite IH, KALDI_LOG_app. unfold total_lines. cbn [map concat fst snd].
      rewrite Hinfo. reflexivity.
Qed.

Lemma PrintMaxChangeStats_loop_outcome (comps : list (Component F)) (i : nat)
    (p : Process F) :
  only_log p (snd (PrintMaxChangeStats_loop comps i p)) /\
  (is_fatal (fst (PrintMaxChangeStats_loop comps i p)) = true <->
   Exists bad_component comps).
Proof.
  revert i p; induction comps as [|comp comps IH]; intros i p;
    cbn [PrintMaxChangeStats_loop].
  - split; [apply only_log_refl|]. cbn. split; [discriminate|].
    intros H. inversion H.
  - rewrite Exists_cons. unfold bad_component at 1.
    destruct (updatable_property comp) eqn:Hu.
    + destruct (inherits_UpdatableComponent comp) eqn:Hi.
      * rewrite bind_ret, bind_get.
        destruct (_ >? 0)%Z.
        -- rewrite bind_KALDI_LOG.
           match goal with |- context [PrintMaxChangeStats_loop comps ?j ?q] =>
             destruct (IH j q) as (Hlog & Hfatal)
           end.
           split; [exact (only_log_trans _ _ _ (only_log_KALDI_LOG _ p) Hlog)|].
           rewrite Hfatal. split; [auto|]. intros [[_ Hc]|H]; [discriminate|exact H].
        -- rewrite bind_ret.
           destruct (IH (S i) p) as (Hlog & Hfatal).
           split; [exact Hlog|]. rewrite Hfatal. split; [auto|].
           intros [[_ Hc]|H]; [discriminate|exact H].
      * rewrite bind_KALDI_ERR. cbn [fst snd is_fatal].
        split; [apply only_log_refl|].
        split; [intros _; left; auto|reflexivity].
    + destruct (IH i p) as (Hlog & Hfatal). split; [exact Hlog|].
      rewrite Hfatal. split; [auto|]. intros [[Hc _]|H]; [discriminate|exact H].
Qed.

Lemma PrintMaxChangeStats_outcome (p : Process F) :
  only_log p (snd (PrintMaxChangeStats p)) /\
  (is_fatal (fst (PrintMaxChangeStats p)) = true <->
   Exists bad_component (components (delta_nnet_ (this p)))).
Proof.
  unfold PrintMaxChangeStats. rewrite bind_get.
  destruct (PrintMaxChangeStats_loop_outcome
              (components (delta_nnet_ (this p))) 0 p) as (Hlog & Hfatal).
  destruct (PrintMaxChangeStats_loop (components (delta_nnet_ (this p))) 0 p)
    as [[[]|msg] p1] eqn:Hloop; cbn [fst snd is_fatal] in *.
  - rewrite (bind_of_eq _ _ _ _ _ Hloop).
    destruct (_ >? 0)%Z; cbn [fst snd is_fatal ret].
    + rewrite KALDI_LOG_eq. cbn [fst snd is_fatal].
      split; [|exact Hfatal].
      exact (only_log_trans _ _ _ Hlog (only_log_KALDI_LOG _ p1)).
    + split; [exact Hlog|exact Hfatal].
  - rewrite (bind_of_fatal _ _ _ _ _ Hloop). cbn [fst snd is_fatal].
    split; [exact Hlog|exact Hfatal].
Qed.

(** X2: [PrintMaxChangeStats] ends fatally exactly when some component of
    [delta_nnet_] has the updatable property without deriving from
    [UpdatableComponent]; whether it returns or not it changes nothing but
    the log. *)
Theorem PrintMaxChangeStats_fatal_iff (p : Process F) :
  (is_fatal (fst (PrintMaxChangeStats p)) = true <->
   Exists bad_component (components (delta_nnet_ (this p)))) /\
  only_log p (snd (PrintMaxChangeStats p)).
Proof.
  destruct (PrintMaxChangeStats_outcome p) as (Hlog & Hfatal).
  split; [exact Hfatal|exact Hlog].
Qed.

Lemma PrintMaxChangeStats_loop_silent (comps : list (Component F)) (i : nat)
    (p : Process F) :
  Forall (fun comp => updatable_property comp = true ->
                      inherits_UpdatableComponent comp = true) comps ->
  Forall (fun count => (count <= 0)%Z)
         (num_max_change_per_component_applied_ (this p)) ->
  PrintMaxChangeStats_loop comps i p = (Ok tt, p).
Proof.
  intros Hall Hzero. revert i. induction Hall as [|comp comps Hcomp _ IH];
    intros i; cbn [PrintMaxChangeStats_loop]; [reflexivity|].
  destruct (updatable_property comp); [|apply IH].
  rewrite (Hcomp eq_refl), bind_ret, bind_get.
  assert (Hc : (default 0 (num_max_change_per_component_applied_ (this p) !! i)
                >? 0)%Z = false).
  { rewrite Z.gtb_ltb. apply Z.ltb_ge.
    destruct (num_max_change_per_component_applied_ (this p) !! i) as [c|] eqn:Hl;
      cbn; [|lia].
    rewrite Forall_forall in Hzero. apply Hzero.
    apply list_elem_of_lookup. exists i. exact Hl. }
  rewrite Hc, bind_ret. apply IH.
Qed.

Lemma PrintMaxChangeStats_silent_aux (p : Process F) :
  Forall (fun comp => updatable_property comp = true ->
                      inherits_UpdatableComponent comp = true)
         (components (delta_nnet_ (this p))) ->
  Forall (fun count => (count <= 0)%Z)
         (num_max_change_per_component_applied_ (this p)) ->
  (num_max_change_global_applied_ (this p) <= 0)%Z ->
  PrintMaxChangeStats p = (Ok tt, p).
Proof.
  intros Hall Hzero Hglobal. unfold PrintMaxChangeStats.
  rewrite bind_get.
  rewrite (bind_of_eq _ _ _ _ _ (PrintMaxChangeStats_loop_silent _ 0 p Hall Hzero)).
  replace (num_max_change_global_applied_ (this p) >? 0)%Z with false
    by (symmetry; rewrite Z.gtb_ltb; apply Z.ltb_ge; exact Hglobal).
  reflexivity.
Qed.

(** X3: when no max-change was ever enforced (no clip counter is
    positive) and the components pass the check, [PrintMaxChangeStats]
    returns without logging a line. *)
Theorem PrintMaxChangeStats_silent (p : Process F) :
  Forall (fun comp => updatable_property comp = true ->
                      inherits_UpdatableComponent comp = true)
         (components (delta_nnet_ (this p))) ->
  Forall (fun count => (count <= 0)%Z)
         (num_max_change_per_component_applied_ (this p)) ->
  (num_max_change_global_applied_ (this p) <= 0)%Z ->
  PrintMaxChangeStats p = (Ok tt, p).
Proof. exact (PrintMaxChangeStats_silent_aux p). Qed.

(** [PrintTotalStats] up to the call of [PrintMaxChangeStats]. *)
Lemma PrintTotalStats_log (p : Process F) :
  exists q,
    (this q = this p /\ c_rand q = c_rand p /\ trace q = trace p /\
     kaldi_log q =
       kaldi_log p ++
       total_lines (printed_entries (map_to_list (objf_info_ (this p)))) ++
       [LogAccuracyFollows] ++
       total_lines (printed_entries (map_to_list (accuracy_info_ (this p))))) /\
    snd (PrintTotalStats p) = snd (PrintMaxChangeStats q) /\
    is_fatal (fst (PrintTotalStats p)) = is_fatal (fst (PrintMaxChangeStats q)).
Proof.
  unfold PrintTotalStats. rewrite bind_get.
  rewrite (bind_of_eq _ _ _ _ _ (PrintTotalStats_loop_prints _ p)).
  rewrite bind_KALDI_LOG.
  rewrite (bind_of_eq _ _ _ _ _ (PrintTotalStats_loop_prints _ _)).
  match goal with |- context [bind PrintMaxChangeStats _ ?q] => exists q end.
  split; [|unfold bind; destruct (PrintMaxChangeStats _) as [[[]|msg] q'];
           split; reflexivity].
  cbn. repeat split. rewrite <- !app_assoc. reflexivity.
Qed.

(** X4: [PrintTotalStats] is read-only: whatever its outcome, the trainer,
    the generator and the trace are as before and the log has only grown.
    It ends fatally exactly when [PrintMaxChangeStats] does, that is, when
    some component of [delta_nnet_] has the updatable property without
    deriving from [UpdatableComponent]; the statistics never make it
    fail. *)
Theorem PrintTotalStats_changes_only_the_log (p : Process F) :
  only_log p (snd (PrintTotalStats p)) /\
  (is_fatal (fst (PrintTotalStats p)) = true <->
   Exists bad_component (components (delta_nnet_ (this p)))).
Proof.
  destruct (PrintTotalStats_log p) as (q & Hq & Hrun & Hfatal).
  destruct Hq as (Ht & Hr & He & Hl).
  destruct (PrintMaxChangeStats_outcome q) as (Hm & Hbad).
  assert (Hpq : only_log p q).
  { unfold only_log. rewrite Ht, Hr, He, Hl. repeat split.
    eexists. reflexivity. }
  rewrite Hrun, Hfatal, Hbad, Ht.
  split; [exact (only_log_trans _ _ _ Hpq Hm)|reflexivity].
Qed.

Lemma PrintTotalStats_in_order_eq (p : Process F) :
  PrintTotalStats p =
  PrintTotalStats_in_order (map_to_list (objf_info_ (this p)))
    (map_to_list (accuracy_info_ (this p))) p.
Proof. unfold PrintTotalStats. rewrite bind_get. reflexivity. Qed.

(** X5: in whichever order the two statistics maps are iterated,
    [PrintTotalStats] prints of each map the entries only up to the first
    one whose lifetime weight is not zero: the log grows by the lines of
    those objective entries, the accuracy header, the lines of those
    accuracy entries, and then what [PrintMaxChangeStats] logs. *)
Theorem PrintTotalStats_prints_up_to_first_data
    (objf_entries accuracy_entries : list (string * ObjectiveFunctionInfo F))
    (p : Process F) :
  objf_entries ≡ₚ map_to_list (objf_info_ (this p)) ->
  accuracy_entries ≡ₚ map_to_list (accuracy_info_ (this p)) ->
  (exists rest,
     kaldi_log (snd (PrintTotalStats_in_order objf_entries accuracy_entries p)) =
     kaldi_log p ++
     total_lines (printed_entries objf_entries) ++
     [LogAccuracyFollows] ++
     total_lines (printed_entries accuracy_entries) ++
     rest) /\
  PrintTotalStats p =
  PrintTotalStats_in_order (map_to_list (objf_info_ (this p)))
    (map_to_list (accuracy_info_ (this p))) p.
Proof.
  intros Hobjf Haccuracy. split; [|apply PrintTotalStats_in_order_eq].
  unfold PrintTotalStats_in_order.
  rewrite (bind_of_eq _ _ _ _ _ (PrintTotalStats_loop_prints _ p)).
  rewrite bind_KALDI_LOG.
  rewrite (bind_of_eq _ _ _ _ _ (PrintTotalStats_loop_prints _ _)).
  match goal with |- context [bind PrintMaxChangeStats _ ?q] =>
    destruct (PrintMaxChangeStats_outcome q) as ((_ & _ & _ & rest & Hrest) & _);
    exists rest; unfold bind;
    destruct (PrintMaxChangeStats q) as [[[]|msg] q']
  end; cbn [fst snd ret] in *; rewrite Hrest; cbn [kaldi_log snd KALDI_LOG];
    rewrite <- !app_assoc; reflexivity.
Qed.

(** X6: a trainer that was just constructed has nothing to report:
    [PrintTotalStats] returns false and logs the accuracy header only. *)
Theorem PrintTotalStats_of_new_trainer (config : NnetTrainerOptions F)
    (nnet : Nnet F) (rand_int : Z) (cache_opens : bool)
    (t : NnetTrainer F) (lines : list (LogLine F)) (r : Z) :
  NnetTrainer_new config nnet rand_int cache_opens = Ok (t, lines) ->
  Forall (fun comp => updatable_property comp = true ->
                      inherits_UpdatableComponent comp = true)
         (components (delta_nnet_ t)) ->
  PrintTotalStats (start t lines r) =
  (Ok false, snd (KALDI_LOG [LogAccuracyFollows] (start t lines r))).
Proof.
  intros Hnew Hall. unfold NnetTrainer_new in Hnew.
  destruct (negb _); [discriminate|]. injection Hnew as <- <-.
  unfold PrintTotalStats. rewrite bind_get.
  cbn [start this objf_info_ accuracy_info_]. rewrite map_to_list_empty.
  rewrite (bind_of_eq _ _ _ _ _ (PrintTotalStats_loop_prints _ _)).
  change (total_lines (printed_entries [])) with (@nil (LogLine F)).
  rewrite KALDI_LOG_nil, bind_KALDI_LOG.
  rewrite (bind_of_eq _ _ _ _ _ (PrintTotalStats_loop_prints _ _)).
  change (total_lines (printed_entries [])) with (@nil (LogLine F)).
  rewrite KALDI_LOG_nil.
  match goal with |- context [bind PrintMaxChangeStats _ ?q] =>
    assert (Hs : PrintMaxChangeStats q = (Ok tt, q))
  end.
  { apply PrintMaxChangeStats_silent_aux.
    - exact Hall.
    - cbn. apply Forall_forall. intros c Hc.
      apply elem_of_replicate in Hc as [-> _]. lia.
    - cbn. lia. }
  rewrite (bind_of_eq _ _ _ _ _ Hs). reflexivity.
Qed.

End PrintingFacts.

(** ** ProcessOutputs *)

Section OutputsFacts.
Context {F : Type} {ops : BaseFloatOps F} {ext : Collaborators F}.

Lemma find_node_absent (nm : string) (l : list (string * NodeKind)) (i : Z) :
  nm ∉ map fst l -> find_node nm l i = (-1)%Z.
Proof.
  revert i; induction l as [|[nm' k] l IH]; intros i Hnot; [reflexivity|].
  cbn [find_node]. cbn [map fst] in Hnot.
  destruct (String.eqb_spec nm nm') as [->|Hne].
  - exfalso. apply Hnot. left.
  - apply IH. intros Hin. apply Hnot. right. exact Hin.
Qed.

Lemma bind_modify {B} (f : NnetTrainer F -> NnetTrainer F) (k : unit -> M F B)
    (p : Process F) :
  bind (modify f) k p = k tt (with_this f p).
Proof. reflexivity. Qed.

Lemma bind_lift_Ok {A B} (a : A) (k : A -> M F B) (p : Process F) :
  bind (lift (Ok a)) k p = k a p.
Proof. reflexivity. Qed.

Lemma bind_lift_Fatal {A B} (msg : string) (k : A -> M F B) (p : Process F) :
  bind (lift (Fatal msg)) k p = (Fatal msg, p).
Proof. reflexivity. Qed.

Lemma only_stats_refl (p : Process F) : only_stats p p.
Proof.
  unfold only_stats. repeat split. exists []. rewrite app_nil_r. reflexivity.
Qed.

Lemma only_stats_trans (p p1 p2 : Process F) :
  only_stats p p1 -> only_stats p1 p2 -> only_stats p p2.
Proof.
  unfold only_stats.
  intros (H1 & H2 & H3 & H4 & H5 & H6 & H7 & H8 & H9 & l1 & Hl1)
         (G1 & G2 & G3 & G4 & G5 & G6 & G7 & G8 & G9 & l2 & Hl2).
  rewrite G1, G2, G3, G4, G5, G6, G7, G8, G9, H1, H2, H3, H4, H5, H6, H7, H8, H9.
  repeat split. exists (l1 ++ l2). rewrite Hl2, Hl1, app_assoc. reflexivity.
Qed.

Lemma stats_grow_refl (p : Process F) : stats_grow [] [] p p.
Proof. unfold stats_grow. split; [apply only_stats_refl|]. auto. Qed.

Lemma stats_grow_trans (o1 a1 o2 a2 : list string) (p p1 p2 : Process F) :
  stats_grow o1 a1 p p1 -> stats_grow o2 a2 p1 p2 ->
  stats_grow (o1 ++ o2) (a1 ++ a2) p p2.
Proof.
  unfold stats_grow. intros (H & Ho & Ha & Hko & Hka) (H' & Ho' & Ha' & Hko' & Hka').
  split; [exact (only_stats_trans _ _ _ H H')|].
  split; [|split; [|split]].
  - intros key Hk. rewrite Ho', Ho; [reflexivity| |];
      intros Hin; apply Hk; apply elem_of_app; auto.
  - intros key Hk. rewrite Ha', Ha; [reflexivity| |];
      intros Hin; apply Hk; apply elem_of_app; auto.
  - auto.
  - auto.
Qed.

(** [objf_info_[key].UpdateStats(...)]: only the record under [key]
    changes, and it is there afterwards. *)
Lemma update_objf_info_grows (key : string) (weight objf : F) (p : Process F) :
  stats_grow [key] [] p (snd (update_objf_info key weight objf p)) /\
  is_Some (objf_info_ (this (snd (update_objf_info key weight objf p))) !! key).
Proof.
  unfold update_objf_info.
  rewrite bind_get, bind_modify.
  destruct (UpdateStats _ _ _ _ _ _ _) as [[info lines]|msg].
  - rewrite bind_lift_Ok, bind_KALDI_LOG. unfold stats_grow, only_stats. cbn.
    split; [split; [repeat split; eexists; reflexivity|]|].
    + split; [|split; [|split]]; try tauto.
      * intros k Hk. rewrite !lookup_insert_ne; [reflexivity| |];
          intros ->; apply Hk; left.
      * intros k Hs. destruct (decide (key = k)) as [->|Hne].
        -- rewrite lookup_insert_eq. eauto.
        -- rewrite !lookup_insert_ne by exact Hne. exact Hs.
    + rewrite lookup_insert_eq. eauto.
  - rewrite bind_lift_Fatal. unfold stats_grow, only_stats. cbn.
    split; [split; [repeat split; exists []; rewrite app_nil_r; reflexivity|]|].
    + split; [|split; [|split]]; try tauto.
      * intros k Hk. rewrite lookup_insert_ne; [reflexivity|].
        intros ->; apply Hk; left.
      * intros k Hs. destruct (decide (key = k)) as [->|Hne].
        -- rewrite lookup_insert_eq. eauto.
        -- rewrite lookup_insert_ne by exact Hne. exact Hs.
    + rewrite lookup_insert_eq. eauto.
Qed.

Lemma update_accuracy_info_grows (key : string) (weight accuracy : F)
    (p : Process F) :
  stats_grow [] [key] p (snd (update_accuracy_info key weight accuracy p)) /\
  is_Some (accuracy_info_
             (this (snd (update_accuracy_info key weight accuracy p))) !! key).
Proof.
  unfold update_accuracy_info.
  rewrite bind_get, bind_modify.
  destruct (UpdateStats _ _ _ _ _ _ _) as [[info lines]|msg].
  - rewrite bind_lift_Ok, bind_KALDI_LOG. unfold stats_grow, only_stats. cbn.
    split; [split; [repeat split; eexists; reflexivity|]|].
    + split; [|split; [|split]]; try tauto.
      * intros k Hk. rewrite !lookup_insert_ne; [reflexivity| |];
          intros ->; apply Hk; left.
      * intros k Hs. destruct (decide (key = k)) as [->|Hne].
        -- rewrite lookup_insert_eq. eauto.
        -- rewrite !lookup_insert_ne by exact Hne. exact Hs.
    + rewrite lookup_insert_eq. eauto.
  - rewrite bind_lift_Fatal. unfold stats_grow, only_stats. cbn.
    split; [split; [repeat split; exists []; rewrite app_nil_r; reflexivity|]|].
    + split; [|split; [|split]]; try tauto.
      * intros k Hk. rewrite lookup_insert_ne; [reflexivity|].
        intros ->; apply Hk; left.
      * intros k Hs. destruct (decide (key = k)) as [->|Hne].
        -- rewrite lookup_insert_eq. eauto.
        -- rewrite lookup_insert_ne by exact Hne. exact Hs.
    + rewrite lookup_insert_eq. eauto.
Qed.

Lemma find_node_present (nm : string) (l : list (string * NodeKind)) (i : Z) :
  nm ∈ map fst l -> (0 <= i)%Z -> (0 <= find_node nm l i)%Z.
Proof.
  revert i; induction l as [|[nm' k] l IH]; intros i Hin Hi.
  - inversion Hin.
  - cbn [find_node]. destruct (String.eqb_spec nm nm') as [->|Hne]; [exact Hi|].
    apply IH; [|lia]. cbn [map fst] in Hin.
    apply elem_of_cons in Hin as [Heq|Hin]; [contradiction|exact Hin].
Qed.

(** One pass of the loop of [ProcessOutputs], its binds written out. *)
Lemma ProcessOutputs_loop_cons (suffix : string) (io : NnetIo F)
    (rest : list (NnetIo F)) (computer : NnetComputer) (p : Process F) :
  ProcessOutputs_loop suffix (io :: rest) computer p =
  let nnet := nnet_ (this p) in
  let node_index := GetNodeIndex nnet (name io) in
  if (0 <=? node_index)%Z then
    if IsOutputNode nnet node_index then
      match ComputeObjectiveFunction (features io)
              (node_objective_type nnet node_index) (name io) true computer with
      | Fatal msg => (Fatal msg, p)
      | Ok (c, w, o) =>
          match update_objf_info (name io ++ suffix) w o p with
          | (Fatal msg, p1) => (Fatal msg, p1)
          | (Ok _, p1) =>
              match accuracy_step (node_objective_type nnet node_index) io
                      (name io ++ suffix) c p1 with
              | (Fatal msg, p2) => (Fatal msg, p2)
              | (Ok _, p2) => ProcessOutputs_loop suffix rest c p2
              end
          end
      end
    else ProcessOutputs_loop suffix rest computer p
  else (Fatal "KALDI_ASSERT: node_index >= 0", p).
Proof.
  cbn [ProcessOutputs_loop]. rewrite bind_get. cbv zeta.
  unfold KALDI_ASSERT at 1. unfold bind at 1.
  destruct (0 <=? _)%Z; [|reflexivity].
  destruct (IsOutputNode _ _); [|reflexivity].
  unfold bind at 1. unfold bind at 1. unfold lift at 1.
  destruct (ComputeObjectiveFunction _ _ _ _ _) as [[[c w] o]|msg]; [|reflexivity].
  unfold bind at 1.
  destruct (update_objf_info _ _ _ _) as [[[]|msg] p1]; [|reflexivity].
  unfold bind at 1. unfold accuracy_step.
  destruct (node_objective_type _ _); cbn [ret].
  - destruct (ComputeAccuracy _ _) as [w' a'].
    destruct (update_accuracy_info _ _ _ _) as [[[]|msg] p2]; reflexivity.
  - reflexivity.
  - reflexivity.
Qed.

Lemma accuracy_step_grows (obj_type : ObjectiveType) (io : NnetIo F)
    (key : string) (computer : NnetComputer) (p : Process F) :
  stats_grow [] (match obj_type with kLinear => [key] | _ => [] end) p
    (snd (accuracy_step obj_type io key computer p)) /\
  (obj_type = kLinear ->
   is_Some (accuracy_info_
              (this (snd (accuracy_step obj_type io key computer p))) !! key)).
Proof.
  unfold accuracy_step. destruct obj_type.
  - destruct (ComputeAccuracy _ _) as [w a].
    destruct (update_accuracy_info_grows key w a p) as (Hg & Hs). auto.
  - split; [apply stats_grow_refl|discriminate].
  - split; [apply stats_grow_refl|discriminate].
Qed.

Lemma keys_of_cons (nnet : Nnet F) (suffix : string) (io : NnetIo F)
    (rest : list (NnetIo F)) :
  objf_keys nnet suffix (io :: rest) =
    (if IsOutputNode nnet (GetNodeIndex nnet (name io))
     then [(name io ++ suffix)%string] else []) ++ objf_keys nnet suffix rest /\
  accuracy_keys nnet suffix (io :: rest) =
    (if is_linear_output nnet io
     then [(name io ++ suffix)%string] else []) ++ accuracy_keys nnet suffix rest.
Proof.
  unfold objf_keys, accuracy_keys. cbn [List.filter].
  destruct (IsOutputNode _ _), (is_linear_output _ _); split; reflexivity.
Qed.

Lemma is_linear_output_spec (nnet : Nnet F) (io : NnetIo F) :
  is_linear_output nnet io =
  IsOutputNode nnet (GetNodeIndex nnet (name io)) &&
  match node_objective_type nnet (GetNodeIndex nnet (name io)) with
  | kLinear => true
  | _ => false
  end.
Proof.
  unfold is_linear_output, IsOutputNode, node_objective_type.
  destruct (GetNode _ _) as [|[| |v]|]; reflexivity.
Qed.

Lemma keys_pass (a l : list string) : a ⊆ a ++ l.
Proof. intros x Hx. apply elem_of_app. left. exact Hx. Qed.

Lemma keys_same (l : list string) : l ⊆ l.
Proof. intros x Hx. exact Hx. Qed.

Lemma stats_grow_weaken (o a o' a' : list string) (p p' : Process F) :
  stats_grow o a p p' -> o ⊆ o' -> a ⊆ a' -> stats_grow o' a' p p'.
Proof.
  unfold stats_grow. intros (H & Ho & Ha & Hko & Hka) Hso Hsa.
  split; [exact H|]. split; [|split; [|split; assumption]].
  - intros key Hk. apply Ho. intros Hin. apply Hk, Hso, Hin.
  - intros key Hk. apply Ha. intros Hin. apply Hk, Hsa, Hin.
Qed.

Lemma stats_grow_nnet (o a : list string) (p p' : Process F) :
  stats_grow o a p p' -> nnet_ (this p') = nnet_ (this p).
Proof. intros ((_ & H & _) & _). exact H. Qed.

(** The loop: which records it may touch, and which are there when it
    returns. *)
Lemma ProcessOutputs_loop_grows (suffix : string) (ios : list (NnetIo F))
    (computer : NnetComputer) (p : Process F) :
  stats_grow (objf_keys (nnet_ (this p)) suffix ios)
             (accuracy_keys (nnet_ (this p)) suffix ios)
             p (snd (ProcessOutputs_loop suffix ios computer p)) /\
  (is_fatal (fst (ProcessOutputs_loop suffix ios computer p)) = false ->
   (forall key, key ∈ objf_keys (nnet_ (this p)) suffix ios ->
      is_Some (objf_info_
                 (this (snd (ProcessOutputs_loop suffix ios computer p))) !! key)) /\
   (forall key, key ∈ accuracy_keys (nnet_ (this p)) suffix ios ->
      is_Some (accuracy_info_
                 (this (snd (ProcessOutputs_loop suffix ios computer p))) !! key))).
Proof.
  revert computer p; induction ios as [|io ios IH]; intros computer p.
  - cbn [ProcessOutputs_loop ret fst snd is_fatal]. split; [apply stats_grow_refl|].
    intros _. split; intros key Hin; inversion Hin.
  - rewrite ProcessOutputs_loop_cons. cbv zeta.
    destruct (keys_of_cons (nnet_ (this p)) suffix io ios) as (-> & ->).
    rewrite is_linear_output_spec.
    set (nnet := nnet_ (this p)).
    set (key := (name io ++ suffix)%string).
    set (obj_type := node_objective_type nnet (GetNodeIndex nnet (name io))).
    assert (Hstay : forall o a, stats_grow o a p p).
    { intros o a. apply (stats_grow_weaken [] []); [apply stats_grow_refl| |];
        intros x Hx; inversion Hx. }
    clearbody obj_type key.
    destruct (0 <=? _)%Z; [|split; [apply Hstay|discriminate]].
    destruct (IsOutputNode nnet _) eqn:Hout; cbn [andb app].
    + destruct (ComputeObjectiveFunction _ _ _ _ _) as [[[c w] o]|msg];
        [|split; [apply Hstay|discriminate]].
      destruct (update_objf_info_grows key w o p) as (G1 & S1).
      destruct (update_objf_info key w o p) as [[[]|msg] p1]; cbn [fst snd] in G1, S1.
      2: { split; [|discriminate].
           apply (stats_grow_weaken _ _ _ _ _ _ G1);
             [exact (keys_pass [key] _)|exact (keys_pass [] _)]. }
      destruct (accuracy_step_grows obj_type io key c p1) as (G2 & S2).
      pose proof (stats_grow_trans _ _ _ _ _ _ _ G1 G2) as G12.
      destruct (accuracy_step obj_type io key c p1) as [[[]|msg] p2];
        cbn [fst snd] in G2, S2, G12.
      2: { split; [|discriminate].
           apply (stats_grow_weaken _ _ _ _ _ _ G12);
             [exact (keys_pass [key] _)|].
           destruct obj_type;
             [exact (keys_pass [key] _)|exact (keys_pass [] _)|exact (keys_pass [] _)]. }
      destruct (IH c p2) as (G3 & S3).
      assert (Hn : nnet_ (this p2) = nnet) by exact (stats_grow_nnet _ _ _ _ G12).
      rewrite Hn in G3, S3.
      pose proof (stats_grow_trans _ _ _ _ _ _ _ G12 G3) as G.
      split.
      * apply (stats_grow_weaken _ _ _ _ _ _ G);
          [exact (keys_same _)|destruct obj_type; exact (keys_same _)].
      * intros Hok. destruct (S3 Hok) as (So & Sa).
        destruct G3 as (_ & _ & _ & Hko & Hka).
        destruct G2 as (_ & _ & _ & Hko2 & _).
        split; intros k Hk.
        -- apply elem_of_cons in Hk as [->|Hk]; [|exact (So k Hk)].
           apply Hko, Hko2, S1.
        -- destruct obj_type eqn:Ht; cbn [app] in Hk; try exact (Sa k Hk).
           apply elem_of_cons in Hk as [->|Hk]; [|exact (Sa k Hk)].
           apply Hka, S2. reflexivity.
    + exact (IH computer p).
Qed.

(** X7: [ProcessOutputs] changes nothing but statistics, and of these only
    the records of the example's output streams, kept under the name of
    the stream with the suffix [_backstitch] in a backstitch sub-step and
    under the bare name otherwise; whatever its outcome it drops no
    record, of these keys or of others; when it returns, every output
    stream has its objective record and every linear one its accuracy
    record. *)
Theorem ProcessOutputs_statistics (is_backstitch_step : bool)
    (eg : NnetExample F) (computer : NnetComputer) (p : Process F) :
  let suffix := if is_backstitch_step then "_backstitch" else "" in
  let nnet := nnet_ (this p) in
  let p' := snd (ProcessOutputs is_backstitch_step eg computer p) in
  only_stats p p' /\
  (forall key, key ∉ objf_keys nnet suffix (io eg) ->
     objf_info_ (this p') !! key = objf_info_ (this p) !! key) /\
  (forall key, key ∉ accuracy_keys nnet suffix (io eg) ->
     accuracy_info_ (this p') !! key = accuracy_info_ (this p) !! key) /\
  (forall key, is_Some (objf_info_ (this p) !! key) ->
     is_Some (objf_info_ (this p') !! key)) /\
  (forall key, is_Some (accuracy_info_ (this p) !! key) ->
     is_Some (accuracy_info_ (this p') !! key)) /\
  (is_fatal (fst (ProcessOutputs is_backstitch_step eg computer p)) = false ->
   (forall key, key ∈ objf_keys nnet suffix (io eg) ->
      is_Some (objf_info_ (this p') !! key)) /\
   (forall key, key ∈ accuracy_keys nnet suffix (io eg) ->
      is_Some (accuracy_info_ (this p') !! key))).
Proof.
  intros suffix nnet p'. subst p'. unfold ProcessOutputs. fold suffix.
  destruct (ProcessOutputs_loop_grows suffix (io eg) computer p)
    as ((Honly & Ho & Ha & Hko & Hka) & Hpresent).
  auto 10.
Qed.

Lemma ProcessOutputs_loop_unknown (suffix : string) (ios : list (NnetIo F))
    (computer : NnetComputer) (p : Process F) :
  Exists (fun io => name io ∉ map fst (nodes (nnet_ (this p)))) ios ->
  is_fatal (fst (ProcessOutputs_loop suffix ios computer p)) = true.
Proof.
  intros Hex. revert computer p Hex. induction ios as [|io ios IH];
    intros computer p Hex; [inversion Hex|].
  rewrite ProcessOutputs_loop_cons. cbv zeta.
  apply Exists_cons in Hex.
  destruct (0 <=? _)%Z eqn:Hidx; [|reflexivity].
  assert (Hrest : Exists (fun io => name io ∉ map fst (nodes (nnet_ (this p)))) ios).
  { destruct Hex as [Hhead|Hrest]; [|exact Hrest]. exfalso.
    unfold GetNodeIndex in Hidx.
    rewrite (find_node_absent _ _ 0 Hhead) in Hidx. discriminate. }
  destruct (IsOutputNode _ _); [|apply IH; exact Hrest].
  destruct (ComputeObjectiveFunction _ _ _ _ _) as [[[c w] o]|msg]; [|reflexivity].
  destruct (update_objf_info_grows (name io ++ suffix) w o p) as (G1 & _).
  destruct (update_objf_info _ w o p) as [[[]|msg] p1]; cbn [fst snd] in G1;
    [|reflexivity].
  match goal with |- context [accuracy_step ?t ?i ?k ?c ?q] =>
    destruct (accuracy_step_grows t i k c q) as (G2 & _);
    destruct (accuracy_step t i k c q) as [[[]|msg] p2]; cbn [fst snd] in G2;
    [|reflexivity]
  end.
  apply IH.
  rewrite (stats_grow_nnet _ _ _ _ G2), (stats_grow_nnet _ _ _ _ G1). exact Hrest.
Qed.

(** X8: an example with a stream whose name is no node of the model is
    refused: [ProcessOutputs] ends fatally, in a backstitch sub-step as in
    a normal one. *)
Theorem ProcessOutputs_unknown_stream (is_backstitch_step : bool)
    (eg : NnetExample F) (computer : NnetComputer) (p : Process F) :
  Exists (fun io => name io ∉ map fst (nodes (nnet_ (this p)))) (io eg) ->
  is_fatal (fst (ProcessOutputs is_backstitch_step eg computer p)) = true.
Proof. intros Hex. unfold ProcessOutputs. apply ProcessOutputs_loop_unknown, Hex. Qed.

Lemma ProcessOutputs_loop_no_outputs (suffix : string) (ios : list (NnetIo F))
    (computer : NnetComputer) (p : Process F) :
  Forall (fun io =>
            name io ∈ map fst (nodes (nnet_ (this p))) /\
            IsOutputNode (nnet_ (this p))
              (GetNodeIndex (nnet_ (this p)) (name io)) = false) ios ->
  ProcessOutputs_loop suffix ios computer p = (Ok computer, p).
Proof.
  intros Hall. induction Hall as [|io ios [Hin Hout] _ IH]; [reflexivity|].
  rewrite ProcessOutputs_loop_cons. cbv zeta. rewrite Hout.
  replace (0 <=? GetNodeIndex (nnet_ (this p)) (name io))%Z with true; [exact IH|].
  symmetry. apply Z.leb_le. apply find_node_present; [exact Hin|lia].
Qed.

(** X9: for an example without output streams (every stream names a node
    that is not an output node) [ProcessOutputs] does nothing: it returns
    the executor it was given and leaves the process as it was. *)
Theorem ProcessOutputs_without_outputs (is_backstitch_step : bool)
    (eg : NnetExample F) (computer : NnetComputer) (p : Process F) :
  Forall (fun io =>
            name io ∈ map fst (nodes (nnet_ (this p))) /\
            IsOutputNode (nnet_ (this p))
              (GetNodeIndex (nnet_ (this p)) (name io)) = false) (io eg) ->
  ProcessOutputs is_backstitch_step eg computer p = (Ok computer, p).
Proof.
  intros Hall. unfold ProcessOutputs. apply ProcessOutputs_loop_no_outputs, Hall.
Qed.

End OutputsFacts.

(** ** [Train], whatever its outcome, and sequences of calls *)

Section TrainSequences.
Context {F : Type} {ops : BaseFloatOps F} {ext : Collaborators F}.

(** X10: [Train] never changes the configuration or the seed, and it advances
    the minibatch counter exactly when it returns: a call that ends
    fatally, in the momentum assertion or in a sub-step, leaves the counter
    where it was. *)
Theorem Train_counts_only_completed_minibatches (eg : NnetExample F)
    (p : Process F) :
  let t := this p in
  let t' := this (snd (Train eg p)) in
  config_ t' = config_ t /\
  srand_seed_ t' = srand_seed_ t /\
  num_minibatches_processed_ t' =
    (if is_fatal (fst (Train eg p)) then num_minibatches_processed_ t
     else int32_add (num_minibatches_processed_ t) 1).
Proof.
  intros t t'. destruct (Train_step eg p) as (Hc & Hs & Hn & _). auto.
Qed.

(** X11: the events of a call of [Train], whatever its outcome.  Outside a
    backstitch minibatch it is one normal sub-step and nothing else, no
    freezing and no reseeding.  At a backstitch minibatch with a momentum
    other than zero nothing happens at all before the fatal assertion; with
    momentum zero the backstitch sub-step is run after freezing the natural
    gradient and reseeding, and the normal sub-step after unfreezing and
    reseeding with the same seed, and it is run unless the first one ended
    fatally. *)
Theorem Train_events (eg : NnetExample F) (p : Process F) :
  let t := this p in
  let n := num_minibatches_processed_ t in
  let seed := int32_add (srand_seed_ t) n in
  exists events,
    trace (snd (Train eg p)) = trace p ++ events /\
    (is_backstitch_minibatch (config_ t) n = false ->
     events = [EvTrainInternal false]) /\
    (is_backstitch_minibatch (config_ t) n = true ->
     momentum (config_ t) ==! fzero = false ->
     events = [] /\
     Train eg p = (Fatal "KALDI_ASSERT: config_.momentum == 0.0", p)) /\
    (is_backstitch_minibatch (config_ t) n = true ->
     momentum (config_ t) ==! fzero = true ->
     events = [EvFreezeNaturalGradient true; EvSrand seed; EvResetGenerators;
               EvTrainInternal true;
               EvFreezeNaturalGradient false; EvSrand seed; EvResetGenerators;
               EvTrainInternal false] \/
     (events = [EvFreezeNaturalGradient true; EvSrand seed; EvResetGenerators;
                EvTrainInternal true] /\
      is_fatal (fst (Train eg p)) = true)).
Proof.
  intros t n seed.
  destruct (Train_step eg p) as (_ & _ & _ & events & Ht & Hev).
  fold t in Hev. fold n in Hev. fold seed in Hev.
  exists events. split; [exact Ht|].
  destruct (is_backstitch_minibatch (config_ t) n);
    [destruct (momentum (config_ t) ==! fzero)|].
  - split; [discriminate|]. split; [discriminate|]. intros _ _. exact Hev.
  - split; [discriminate|]. split; [|discriminate]. intros _ _. exact Hev.
  - split; [intros _; exact Hev|]. split; discriminate.
Qed.

Lemma backstitch_minibatches_S (config : NnetTrainerOptions F) (n : Z) (k : nat) :
  backstitch_minibatches config n (S k) =
  (if is_backstitch_minibatch config n then 1 else 0) +
  backstitch_minibatches config (n + 1) k.
Proof.
  unfold backstitch_minibatches.
  cbn [seq map List.filter]. rewrite Z.add_0_r.
  rewrite <- seq_shift, map_map.
  rewrite (map_ext (fun i => (n + Z.of_nat (S i))%Z)
                   (fun i => (n + 1 + Z.of_nat i)%Z)) by (intros i; lia).
  destruct (is_backstitch_minibatch config n); reflexivity.
Qed.

Lemma substeps_app (e1 e2 : list Event) :
  substeps (e1 ++ e2) = substeps e1 ++ substeps e2.
Proof. unfold substeps. apply omap_app. Qed.

Lemma Train_all_step (egs : list (NnetExample F)) (p : Process F) :
  let t := this p in
  let n := num_minibatches_processed_ t in
  int32_range n ->
  int32_range (n + Z.of_nat (length egs)) ->
  fst (Train_all egs p) = Ok tt ->
  config_ (this (snd (Train_all egs p))) = config_ t /\
  srand_seed_ (this (snd (Train_all egs p))) = srand_seed_ t /\
  num_minibatches_processed_ (this (snd (Train_all egs p))) =
    (n + Z.of_nat (length egs))%Z /\
  exists events,
    trace (snd (Train_all egs p)) = trace p ++ events /\
    length (substeps events) =
      length egs + backstitch_minibatches (config_ t) n (length egs).
Proof.
  revert p. induction egs as [|eg egs IH]; intros p t n Hn Hend Hok.
  - cbn [Train_all ret snd fst length]. rewrite Z.add_0_r.
    repeat split. exists []. rewrite app_nil_r. split; reflexivity.
  - cbn [Train_all] in *. unfold bind in *.
    destruct (Train_step eg p) as (Hc & Hs & Hcount & events & Ht & Hev).
    fold t in Hc, Hs, Hcount, Hev. fold n in Hcount, Hev.
    destruct (Train eg p) as [[[]|msg] p1]; [|discriminate].
    cbn [fst snd is_fatal] in Hc, Hs, Hcount, Ht, Hev.
    cbn [length] in Hend.
    assert (Hn1 : int32_add n 1 = (n + 1)%Z).
    { unfold int32_add. apply int32_wrap_id. unfold int32_range in *. lia. }
    rewrite Hn1 in Hcount.
    destruct (IH p1) as (Hc' & Hs' & Hcount' & events' & Ht' & Hlen');
      [rewrite Hcount; unfold int32_range in *; lia
      |rewrite Hcount; unfold int32_range in *;
       replace (n + 1 + Z.of_nat (length egs))%Z
         with (n + Z.of_nat (S (length egs)))%Z by lia; exact Hend
      |exact Hok|].
    rewrite Hc', Hs', Hcount', Hc, Hs, Hcount.
    repeat split; [cbn [length]; lia|].
    exists (events ++ events'). split; [rewrite Ht', Ht, app_assoc; reflexivity|].
    rewrite Hc, Hcount in Hlen'.
    rewrite substeps_app, length_app, Hlen'. cbn [length].
    rewrite backstitch_minibatches_S.
    destruct (is_backstitch_minibatch (config_ t) n).
    + destruct (momentum (config_ t) ==! fzero).
      * destruct Hev as [->| [_ Hf]]; [|discriminate]. cbn. lia.
      * destruct Hev as [_ Hf]. discriminate.
    + subst events. cbn. lia.
Qed.

(** X12: after [Train] was called on a list of examples, one after the
    other, and every call returned, the minibatch counter has grown by the
    number of examples, and the number of sub-steps that were run is the
    number of examples plus the number of backstitch minibatches among
    them: those whose counter the interval divides, when the backstitch
    scale is positive. *)
Theorem Train_all_counts (egs : list (NnetExample F)) (p : Process F) :
  let t := this p in
  let n := num_minibatches_processed_ t in
  int32_range n ->
  int32_range (n + Z.of_nat (length egs)) ->
  fst (Train_all egs p) = Ok tt ->
  num_minibatches_processed_ (this (snd (Train_all egs p))) =
    (n + Z.of_nat (length egs))%Z /\
  exists events,
    trace (snd (Train_all egs p)) = trace p ++ events /\
    length (substeps events) =
      length egs + backstitch_minibatches (config_ t) n (length egs).
Proof.
  intros t n Hn Hend Hok.
  destruct (Train_all_step egs p Hn Hend Hok) as (_ & _ & Hcount & Hev). auto.
Qed.

End TrainSequences.

(** ** One call of [UpdateStats] and the first use of a key *)

Section AccumulatorFacts.
Context {F : Type} {ops : BaseFloatOps F} {ext : Collaborators F}.

(** X13: for a divisor other than zero and a counter that is not negative
    (the quotient is undefined or overflows otherwise), [UpdateStats] ends
    fatally exactly when the phase of the minibatch lies before the stored
    one.  When it returns, the lifetime totals have grown by the values of
    the minibatch, whether or not the phase changed: they are never
    restarted; and while the phase stays the same nothing is logged and
    the per-phase totals grow by the same values. *)
Theorem UpdateStats_accumulates (output_name : string)
    (minibatches_per_phase minibatch_counter : Z)
    (weight objf aux_objf : F) (info : ObjectiveFunctionInfo F) :
  let phase := int32_div minibatch_counter minibatches_per_phase in
  minibatches_per_phase <> 0%Z ->
  (0 <= minibatch_counter)%Z ->
  (is_fatal (UpdateStats output_name minibatches_per_phase minibatch_counter
               weight objf aux_objf info) = true <->
   (phase < current_phase info)%Z) /\
  (forall info' lines,
     UpdateStats output_name minibatches_per_phase minibatch_counter
       weight objf aux_objf info = Ok (info', lines) ->
     tot_weight info' = tot_weight info +! weight /\
     tot_objf info' = tot_objf info +! objf /\
     tot_aux_objf info' = tot_aux_objf info +! aux_objf /\
     (phase = current_phase info ->
      lines = [] /\
      current_phase info' = current_phase info /\
      tot_weight_this_phase info' = tot_weight_this_phase info +! weight /\
      tot_objf_this_phase info' = tot_objf_this_phase info +! objf /\
      tot_aux_objf_this_phase info' =
        tot_aux_objf_this_phase info +! aux_objf)).
Proof.
  intros phase HK Hcounter. unfold UpdateStats. fold phase.
  destruct (Z.eqb_spec phase (current_phase info)) as [Heq|Hne]; cbn [negb].
  - split; [cbn [is_fatal]; split; [discriminate|lia]|].
    intros info' lines [= <- <-]. cbn. auto 10.
  - destruct (Z.gtb_spec phase (current_phase info)) as [Hgt|Hle].
    + split; [cbn [is_fatal]; split; [discriminate|lia]|].
      intros info' lines [= <- <-]. cbn.
      repeat split; try reflexivity; contradiction.
    + split; [cbn [is_fatal]; split; [lia|reflexivity]|]. discriminate.
Qed.

(** X14: the first statistics of a key, for a print interval other than
    zero and a counter that is not negative.  [objf_info_[key]] inserts a
    default record (phase 0, zero totals) before [UpdateStats] runs on it.
    So for a key not seen before: in phase 0 the record holds the values
    of the minibatch and nothing is logged; in a later phase the line of
    the empty phase 0 is logged first; and when the phase is negative the
    call ends fatally and the default record stays in the map. *)
Theorem update_objf_info_first_use (key : string) (weight objf : F)
    (p : Process F) :
  let t := this p in
  let K := print_interval (config_ t) in
  let phase := int32_div (num_minibatches_processed_ t) K in
  let r := update_objf_info key weight objf p in
  let first :=
    {| current_phase := phase;
       tot_weight := fzero +! weight; tot_objf := fzero +! objf;
       tot_aux_objf := fzero +! fzero;
       tot_weight_this_phase := fzero +! weight;
       tot_objf_this_phase := fzero +! objf;
       tot_aux_objf_this_phase := fzero +! fzero |} in
  K <> 0%Z ->
  (0 <= num_minibatches_processed_ t)%Z ->
  objf_info_ t !! key = None ->
  ((phase < 0)%Z ->
   is_fatal (fst r) = true /\
   objf_info_ (this (snd r)) !! key = Some ObjectiveFunctionInfo_new /\
   kaldi_log (snd r) = kaldi_log p) /\
  (phase = 0%Z ->
   fst r = Ok tt /\
   objf_info_ (this (snd r)) !! key = Some first /\
   kaldi_log (snd r) = kaldi_log p) /\
  ((0 < phase)%Z ->
   fst r = Ok tt /\
   objf_info_ (this (snd r)) !! key = Some first /\
   kaldi_log (snd r) =
     kaldi_log p ++ [PrintStatsForThisPhase key K ObjectiveFunctionInfo_new]).
Proof.
  intros t K phase r first HK Hcounter Hnew. subst r first.
  unfold update_objf_info. rewrite bind_get, bind_modify.
  fold t. rewrite Hnew. cbn [default]. fold K.
  unfold UpdateStats. fold phase.
  cbn [current_phase ObjectiveFunctionInfo_new].
  destruct (Z.eqb_spec phase 0) as [Heq|Hne]; cbn [negb].
  - rewrite bind_lift_Ok, bind_KALDI_LOG.
    cbn [fst snd modify with_this this kaldi_log set_objf_info_ objf_info_
         is_fatal KALDI_LOG].
    rewrite lookup_insert_eq, app_nil_r, Heq.
    split; [lia|]. split; [auto|]. lia.
  - destruct (Z.gtb_spec phase 0) as [Hgt|Hle].
    + rewrite bind_lift_Ok, bind_KALDI_LOG.
      cbn [fst snd modify with_this this kaldi_log set_objf_info_ objf_info_
           is_fatal KALDI_LOG].
      rewrite lookup_insert_eq.
      split; [lia|]. split; [lia|]. auto.
    + rewrite bind_lift_Fatal.
      cbn [fst snd modify with_this this kaldi_log set_objf_info_ objf_info_
           is_fatal].
      rewrite lookup_insert_eq.
      split; [auto|]. split; lia.
Qed.

End AccumulatorFacts.

(** ** A sub-step: statistics and the momentum buffer *)

Section SubstepFacts.
Context {F : Type} {ops : BaseFloatOps F} {ext : Collaborators F}.

Lemma TrainInternal_update_stats (is_backstitch_step : bool) (t : NnetTrainer F) :
  objf_info_ (TrainInternal_update is_backstitch_step t) = objf_info_ t /\
  accuracy_info_ (TrainInternal_update is_backstitch_step t) = accuracy_info_ t.
Proof.
  unfold TrainInternal_update.
  destruct (update_parameters _ _ _) as [[mcs sa] sdn].
  destruct (UpdateNnetWithMaxChange _ _ _ _ _ _ _) as [[[success n] pc] g].
  auto.
Qed.

(** A sub-step, its binds written out. *)
Lemma TrainInternal_unfold (eg : NnetExample F) (computation : NnetComputation)
    (is_backstitch_step : bool) (p : Process F) :
  TrainInternal eg computation is_backstitch_step p =
  let computer :=
    AcceptInputs (nnet_ (this p)) (io eg)
      (NnetComputer_new computation (nnet_ (this p)) (delta_nnet_ (this p))) in
  let '(computer, r1) := Run computer (c_rand p) in
  match ProcessOutputs is_backstitch_step eg computer
          {| this := this p; c_rand := r1; kaldi_log := kaldi_log p;
             trace := trace p ++ [EvTrainInternal is_backstitch_step] |} with
  | (Ok computer, q) =>
      let '(computer, r2) := Run computer (c_rand q) in
      (Ok tt,
       {| this := TrainInternal_update is_backstitch_step
                    (set_delta_nnet_ (nnet_to_update computer) (this q));
          c_rand := r2; kaldi_log := kaldi_log q; trace := trace q |})
  | (Fatal msg, q) => (Fatal msg, q)
  end.
Proof.
  unfold TrainInternal. unfold bind at 1. cbn [emit]. unfold bind at 1. cbn [get].
  cbn [this]. cbv zeta.
  unfold bind at 1. unfold run at 1. cbn [c_rand this kaldi_log trace].
  destruct (Run _ (c_rand p)) as [c1 r1].
  unfold bind at 1.
  destruct (ProcessOutputs _ _ _ _) as [[c2|msg] q]; [|reflexivity].
  unfold bind at 1. unfold run at 1. destruct (Run c2 (c_rand q)) as [c3 r3].
  reflexivity.
Qed.

(** X15: a sub-step touches the statistics only under the keys of the
    example's output streams, with the suffix [_backstitch] in a
    backstitch sub-step, and drops no record, whatever its outcome: the
    update of the parameters that follows [ProcessOutputs] leaves both
    maps alone.  When the sub-step returns, every output stream of the
    example has its objective record and every linear one its accuracy
    record. *)
Theorem TrainInternal_statistics (eg : NnetExample F)
    (computation : NnetComputation) (is_backstitch_step : bool)
    (p : Process F) :
  let suffix := if is_backstitch_step then "_backstitch" else "" in
  let nnet := nnet_ (this p) in
  let r := TrainInternal eg computation is_backstitch_step p in
  (forall key, key ∉ objf_keys nnet suffix (io eg) ->
     objf_info_ (this (snd r)) !! key = objf_info_ (this p) !! key) /\
  (forall key, key ∉ accuracy_keys nnet suffix (io eg) ->
     accuracy_info_ (this (snd r)) !! key = accuracy_info_ (this p) !! key) /\
  (forall key, is_Some (objf_info_ (this p) !! key) ->
     is_Some (objf_info_ (this (snd r)) !! key)) /\
  (forall key, is_Some (accuracy_info_ (this p) !! key) ->
     is_Some (accuracy_info_ (this (snd r)) !! key)) /\
  (is_fatal (fst r) = false ->
   (forall key, key ∈ objf_keys nnet suffix (io eg) ->
      is_Some (objf_info_ (this (snd r)) !! key)) /\
   (forall key, key ∈ accuracy_keys nnet suffix (io eg) ->
      is_Some (accuracy_info_ (this (snd r)) !! key))).
Proof.
  intros suffix nnet r. subst r. rewrite TrainInternal_unfold. cbv zeta.
  destruct (Run _ (c_rand p)) as [c1 r1].
  unfold ProcessOutputs. fold suffix.
  match goal with |- context [ProcessOutputs_loop suffix (io eg) c1 ?q] =>
    destruct (ProcessOutputs_loop_grows suffix (io eg) c1 q)
      as ((_ & Ho & Ha & Hko & Hka) & Hpresent);
    destruct (ProcessOutputs_loop suffix (io eg) c1 q) as [[c2|msg] p3]
  end; cbn [fst snd this] in Ho, Ha, Hko, Hka, Hpresent; fold nnet in Ho, Ha, Hpresent.
  - destruct (Run c2 (c_rand p3)) as [c3 r3].
    cbn [fst snd this is_fatal].
    destruct (TrainInternal_update_stats is_backstitch_step
                (set_delta_nnet_ (nnet_to_update c3) (this p3))) as (-> & ->).
    cbn [set_delta_nnet_ objf_info_ accuracy_info_].
    destruct (Hpresent eq_refl) as (So & Sa). auto 10.
  - cbn [fst snd is_fatal]. repeat split; try assumption; discriminate.
Qed.

Section ExactBuffer.
Context {exact : BaseFloatExact F}.

(** X16: no momentum is carried out of a backstitch minibatch.  After a
    sub-step that returned, [delta_nnet_] is all zero when the minibatch
    is a backstitch minibatch or the momentum is zero, whether or not the
    update engine reported success. *)
Theorem TrainInternal_clears_delta (eg : NnetExample F)
    (computation : NnetComputation) (is_backstitch_step : bool)
    (p : Process F) :
  let t := this p in
  fst (TrainInternal eg computation is_backstitch_step p) = Ok tt ->
  is_backstitch_minibatch (config_ t) (num_minibatches_processed_ t) = true \/
  momentum (config_ t) = fzero ->
  Forall (Forall (eq fzero))
    (nnet_buffer
       (delta_nnet_ (this (snd (TrainInternal eg computation
                                  is_backstitch_step p))))).
Proof.
  intros t Hok Hzero. apply pair_of_fst in Hok.
  destruct (TrainInternal_ends_with_update _ _ _ _ _ Hok) as (t0 & -> & Hc & Hn).
  unfold TrainInternal_update. rewrite Hc, Hn. fold t.
  assert (Hscale : exists a b, update_parameters (config_ t)
                     (num_minibatches_processed_ t) is_backstitch_step =
                   (a, b, fzero)).
  { unfold update_parameters.
    destruct (is_backstitch_minibatch _ _).
    - destruct is_backstitch_step; eexists _, _; reflexivity.
    - destruct Hzero as [Hb| ->]; [discriminate|]. eexists _, _; reflexivity. }
  destruct Hscale as (a & b & ->).
  destruct (UpdateNnetWithMaxChange _ _ _ _ _ _ _) as [[[success n] pc] g].
  cbn [set_update delta_nnet_].
  destruct success; rewrite nnet_buffer_ScaleNnet; apply scale_by_zero.
Qed.

End ExactBuffer.
End SubstepFacts.

(** ** The constructor *)

Section ConstructorFacts.
Context {F : Type} {ops : BaseFloatOps F} {ext : Collaborators F}.

Lemma same_topology_ScaleNnet (scale : F) (nnet : Nnet F) :
  same_topology (ScaleNnet scale nnet) nnet.
Proof.
  unfold same_topology, ScaleNnet. cbn [nodes components]. split; [reflexivity|].
  rewrite map_map. apply map_ext. intros c.
  cbn [component_name updatable_property inherits_UpdatableComponent params].
  rewrite length_map. reflexivity.
Qed.

Lemma NumUpdatableComponents_ScaleNnet (scale : F) (nnet : Nnet F) :
  NumUpdatableComponents (ScaleNnet scale nnet) = NumUpdatableComponents nnet.
Proof.
  unfold NumUpdatableComponents, ScaleNnet. cbn [components].
  induction (components nnet) as [|c cs IH]; [reflexivity|].
  cbn [map]. rewrite !filter_cons. cbn [updatable_property].
  destruct (decide (updatable_property c = true)); cbn [length]; rewrite IH;
    reflexivity.
Qed.

(** X17: the constructor ends fatally exactly when the momentum or the
    maximum parameter change is negative.  A cache file that cannot be
    opened is no error: it only turns the line that reports the reading
    into a warning, and with no cache file named nothing is logged. *)
Theorem NnetTrainer_new_fatal_iff (config : NnetTrainerOptions F)
    (nnet : Nnet F) (rand_int : Z) (cache_opens : bool) :
  (is_fatal (NnetTrainer_new config nnet rand_int cache_opens) = true <->
   momentum config >=! fzero = false \/
   max_param_change config >=! fzero = false) /\
  (forall t lines,
     NnetTrainer_new config nnet rand_int cache_opens = Ok (t, lines) ->
     lines =
       (if String.eqb (read_cache config) "" then []
        else if cache_opens then [LogReadCache (read_cache config)]
             else [WarnNoCache])).
Proof.
  unfold NnetTrainer_new.
  destruct (momentum config >=! fzero), (max_param_change config >=! fzero);
    cbn [andb negb is_fatal].
  - split; [split; [discriminate|intros [H|H]; discriminate]|].
    intros t lines [= <- <-].
    destruct (String.eqb (read_cache config) ""); reflexivity.
  - split; [split; auto|discriminate].
  - split; [split; auto|discriminate].
  - split; [split; auto|discriminate].
Qed.

Section ExactStart.
Context {exact : BaseFloatExact F}.

(** X18: the state a new trainer starts in.  No minibatch is counted, both
    statistics maps are empty, the seed is the random number drawn, no
    max-change has been counted and there is one per-component counter
    for each updatable component of the model; [delta_nnet_] is a copy of
    the model, of the same nodes and components, with all parameters
    zero. *)
Theorem NnetTrainer_new_initial_state (config : NnetTrainerOptions F)
    (nnet : Nnet F) (rand_int : Z) (cache_opens : bool)
    (t : NnetTrainer F) (lines : list (LogLine F)) :
  NnetTrainer_new config nnet rand_int cache_opens = Ok (t, lines) ->
  config_ t = config /\
  nnet_ t = (if zero_component_stats config then ZeroComponentStats nnet
             else nnet) /\
  num_minibatches_processed_ t = 0%Z /\
  srand_seed_ t = rand_int /\
  objf_info_ t = ∅ /\
  accuracy_info_ t = ∅ /\
  num_max_change_global_applied_ t = 0%Z /\
  num_max_change_per_component_applied_ t =
    replicate (NumUpdatableComponents (nnet_ t)) 0%Z /\
  same_topology (delta_nnet_ t) (nnet_ t) /\
  length (nnet_buffer (delta_nnet_ t)) = length (nnet_buffer (nnet_ t)) /\
  Forall (Forall (eq fzero)) (nnet_buffer (delta_nnet_ t)).
Proof.
  unfold NnetTrainer_new.
  destruct (negb _); [discriminate|]. intros [= <- _].
  cbn [config_ nnet_ delta_nnet_ num_minibatches_processed_ srand_seed_
       objf_info_ accuracy_info_ num_max_change_per_component_applied_
       num_max_change_global_applied_].
  rewrite NumUpdatableComponents_ScaleNnet.
  repeat split; try reflexivity.
  - apply same_topology_ScaleNnet.
  - rewrite nnet_buffer_ScaleNnet, length_map. reflexivity.
  - rewrite nnet_buffer_ScaleNnet. apply scale_by_zero.
Qed.

End ExactStart.
End ConstructorFacts.

(** ** The further results at the sample inputs *)

Lemma feed_minibatches_closed_form_witness :
  1 <= 2 /\ (Z.of_nat 2 <= 2147483647)%Z /\ (Z.of_nat 5 <= 2147483648)%Z /\
  feed_minibatches "output" (Z.of_nat 2) (Q2Qc 1) (Q2Qc (-3)) (first_counters 5)
    ObjectiveFunctionInfo_new =
  Ok (state_after 2 (Q2Qc 1) (Q2Qc (-3)) 5,
      map (fun p => PrintStatsForThisPhase "output" (Z.of_nat 2)
                      (state_after 2 (Q2Qc 1) (Q2Qc (-3)) ((p + 1) * 2)))
          (seq 0 (Nat.pred 5 / 2))).
Proof.
  assert (HK : 1 <= 2) by lia.
  assert (HKr : (Z.of_nat 2 <= 2147483647)%Z) by lia.
  assert (HN : (Z.of_nat 5 <= 2147483648)%Z) by lia.
  split; [exact HK|]. split; [exact HKr|]. split; [exact HN|].
  exact (proj1 (feed_minibatches_closed_form "output" 2 5 (Q2Qc 1) (Q2Qc (-3))
                  HK HKr HN)).
Defined.

Lemma PrintMaxChangeStats_silent_witness :
  Forall (fun comp => updatable_property comp = true ->
                      inherits_UpdatableComponent comp = true)
         (components (delta_nnet_ (this (process_of momentum_config)))) /\
  Forall (fun count => (count <= 0)%Z)
         (num_max_change_per_component_applied_
            (this (process_of momentum_config))) /\
  (num_max_change_global_applied_ (this (process_of momentum_config)) <= 0)%Z /\
  PrintMaxChangeStats (process_of momentum_config) =
    (Ok tt, process_of momentum_config).
Proof.
  assert (Hall : Forall (fun comp => updatable_property comp = true ->
                                     inherits_UpdatableComponent comp = true)
                   (components (delta_nnet_ (this (process_of momentum_config)))))
    by (repeat constructor).
  assert (Hzero : Forall (fun count => (count <= 0)%Z)
                    (num_max_change_per_component_applied_
                       (this (process_of momentum_config))))
    by (repeat constructor; cbn; lia).
  assert (Hglobal : (num_max_change_global_applied_
                       (this (process_of momentum_config)) <= 0)%Z)
    by (cbn; lia).
  split; [exact Hall|]. split; [exact Hzero|]. split; [exact Hglobal|].
  exact (PrintMaxChangeStats_silent (process_of momentum_config)
           Hall Hzero Hglobal).
Defined.

Lemma PrintTotalStats_prints_up_to_first_data_witness :
  [("output", sample_info); ("output_backstitch", sample_info)]
    ≡ₚ map_to_list (objf_info_ (this backstitch_stats_process)) /\
  [] ≡ₚ map_to_list (accuracy_info_ (this backstitch_stats_process)) /\
  exists rest,
    kaldi_log
      (snd (PrintTotalStats_in_order
              [("output", sample_info); ("output_backstitch", sample_info)] []
              backstitch_stats_process)) =
    snd (ObjectiveFunctionInfo_PrintTotalStats "output" sample_info) ++
    [LogAccuracyFollows] ++ rest.
Proof.
  assert (Hobjf : [("output", sample_info); ("output_backstitch", sample_info)]
                    ≡ₚ map_to_list (objf_info_ (this backstitch_stats_process))).
  { replace (map_to_list (objf_info_ (this backstitch_stats_process)))
      with [("output_backstitch", sample_info); ("output", sample_info)]
      by reflexivity.
    apply perm_swap. }
  assert (Haccuracy : [] ≡ₚ map_to_list
                             (accuracy_info_ (this backstitch_stats_process)))
    by (cbn [backstitch_stats_process this accuracy_info_];
        rewrite map_to_list_empty; reflexivity).
  split; [exact Hobjf|]. split; [exact Haccuracy|].
  destruct (PrintTotalStats_prints_up_to_first_data
              [("output", sample_info); ("output_backstitch", sample_info)] []
              backstitch_stats_process Hobjf Haccuracy) as ((rest & Hlog) & _).
  exists rest. exact Hlog.
Defined.

Lemma PrintTotalStats_of_new_trainer_witness :
  NnetTrainer_new momentum_config sample_nnet 4711 false =
    Ok (trainer_of momentum_config, []) /\
  Forall (fun comp => updatable_property comp = true ->
                      inherits_UpdatableComponent comp = true)
         (components (delta_nnet_ (trainer_of momentum_config))) /\
  PrintTotalStats (start (trainer_of momentum_config) [] 1) =
  (Ok false,
   snd (KALDI_LOG [LogAccuracyFollows] (start (trainer_of momentum_config) [] 1))).
Proof.
  assert (Hnew : NnetTrainer_new momentum_config sample_nnet 4711 false =
                 Ok (trainer_of momentum_config, [])) by reflexivity.
  assert (Hall : Forall (fun comp => updatable_property comp = true ->
                                     inherits_UpdatableComponent comp = true)
                   (components (delta_nnet_ (trainer_of momentum_config))))
    by (repeat constructor).
  split; [exact Hnew|]. split; [exact Hall|].
  exact (PrintTotalStats_of_new_trainer momentum_config sample_nnet 4711 false
           (trainer_of momentum_config) [] 1 Hnew Hall).
Defined.

Lemma ProcessOutputs_unknown_stream_witness :
  Exists (fun io => name io ∉ map fst (nodes (nnet_ (this (process_of momentum_config)))))
         (io unknown_eg) /\
  is_fatal (fst (ProcessOutputs false unknown_eg sample_computer
                   (process_of momentum_config))) = true.
Proof.
  assert (Hex : Exists (fun io => name io ∉
                          map fst (nodes (nnet_ (this (process_of momentum_config)))))
                  (io unknown_eg)).
  { apply Exists_cons_hd. cbn. intros Hin.
    repeat (apply elem_of_cons in Hin as [Hin|Hin]; [discriminate|]).
    inversion Hin. }
  split; [exact Hex|].
  exact (ProcessOutputs_unknown_stream false unknown_eg sample_computer
           (process_of momentum_config) Hex).
Defined.

Lemma ProcessOutputs_without_outputs_witness :
  Forall (fun io =>
            name io ∈ map fst (nodes (nnet_ (this (process_of momentum_config)))) /\
            IsOutputNode (nnet_ (this (process_of momentum_config)))
              (GetNodeIndex (nnet_ (this (process_of momentum_config))) (name io))
            = false)
         (io input_only_eg) /\
  ProcessOutputs true input_only_eg sample_computer (process_of momentum_config) =
    (Ok sample_computer, process_of momentum_config).
Proof.
  assert (Hall : Forall (fun io =>
            name io ∈ map fst (nodes (nnet_ (this (process_of momentum_config)))) /\
            IsOutputNode (nnet_ (this (process_of momentum_config)))
              (GetNodeIndex (nnet_ (this (process_of momentum_config))) (name io))
            = false)
         (io input_only_eg)).
  { repeat constructor. }
  split; [exact Hall|].
  exact (ProcessOutputs_without_outputs true input_only_eg sample_computer
           (process_of momentum_config) Hall).
Defined.

Lemma Train_all_counts_witness :
  int32_range 0 /\
  int32_range (0 + Z.of_nat (length [sample_eg; input_only_eg])) /\
  fst (Train_all [sample_eg; input_only_eg] (process_of backstitch_config)) = Ok tt /\
  num_minibatches_processed_
    (this (snd (Train_all [sample_eg; input_only_eg]
                  (process_of backstitch_config)))) = 2%Z /\
  exists events,
    trace (snd (Train_all [sample_eg; input_only_eg]
                  (process_of backstitch_config))) = [] ++ events /\
    length (substeps events) =
      2 + backstitch_minibatches backstitch_config 0 2.
Proof.
  assert (Hn : int32_range 0) by (unfold int32_range; lia).
  assert (Hend : int32_range (0 + Z.of_nat (length [sample_eg; input_only_eg])))
    by (unfold int32_range; cbn; lia).
  assert (Hok : fst (Train_all [sample_eg; input_only_eg]
                       (process_of backstitch_config)) = Ok tt)
    by (vm_compute; reflexivity).
  split; [exact Hn|]. split; [exact Hend|]. split; [exact Hok|].
  exact (Train_all_counts [sample_eg; input_only_eg]
           (process_of backstitch_config) Hn Hend Hok).
Defined.

Lemma UpdateStats_accumulates_witness :
  2%Z <> 0%Z /\ (0 <= 1)%Z /\
  exists info',
    UpdateStats "output" 2 1 (Q2Qc 1) (Q2Qc (-3)) (Q2Qc 0) sample_info =
      Ok (info', []) /\
    current_phase info' = current_phase sample_info /\
    tot_weight info' = tot_weight sample_info +! Q2Qc 1 /\
    tot_objf info' = tot_objf sample_info +! Q2Qc (-3) /\
    tot_weight_this_phase info' = tot_weight_this_phase sample_info +! Q2Qc 1 /\
    tot_objf_this_phase info' = tot_objf_this_phase sample_info +! Q2Qc (-3).
Proof.
  assert (HK : 2%Z <> 0%Z) by lia.
  assert (Hcounter : (0 <= 1)%Z) by lia.
  split; [exact HK|]. split; [exact Hcounter|].
  destruct (UpdateStats_accumulates "output" 2 1 (Q2Qc 1) (Q2Qc (-3)) (Q2Qc 0)
              sample_info HK Hcounter) as (Hfatal & Hall).
  destruct (UpdateStats "output" 2 1 (Q2Qc 1) (Q2Qc (-3)) (Q2Qc 0) sample_info)
    as [[info' lines]|msg].
  - destruct (Hall info' lines eq_refl) as (Hw & Ho & _ & Hsame).
    destruct (Hsame eq_refl) as (-> & Hphase & Hwp & Hop & _).
    exists info'. auto 10.
  - exfalso. pose proof (proj1 Hfatal eq_refl) as Hlt.
    vm_compute in Hlt. discriminate Hlt.
Defined.

Lemma update_objf_info_first_use_witness :
  print_interval (config_ (this stats_process)) <> 0%Z /\
  (0 <= num_minibatches_processed_ (this stats_process))%Z /\
  objf_info_ (this stats_process) !! "target" = None /\
  fst (update_objf_info "target" (Q2Qc 1) (Q2Qc (-3)) stats_process) = Ok tt /\
  objf_info_ (this (snd (update_objf_info "target" (Q2Qc 1) (Q2Qc (-3))
                           stats_process))) !! "target" =
    Some {| current_phase := 0;
            tot_weight := fzero +! Q2Qc 1; tot_objf := fzero +! Q2Qc (-3);
            tot_aux_objf := fzero +! fzero;
            tot_weight_this_phase := fzero +! Q2Qc 1;
            tot_objf_this_phase := fzero +! Q2Qc (-3);
            tot_aux_objf_this_phase := fzero +! fzero |} /\
  kaldi_log (snd (update_objf_info "target" (Q2Qc 1) (Q2Qc (-3)) stats_process)) =
    kaldi_log stats_process.
Proof.
  assert (HK : print_interval (config_ (this stats_process)) <> 0%Z)
    by (cbn; lia).
  assert (Hcounter : (0 <= num_minibatches_processed_ (this stats_process))%Z)
    by (cbn; lia).
  assert (Hnew : objf_info_ (this stats_process) !! "target" = None)
    by reflexivity.
  split; [exact HK|]. split; [exact Hcounter|]. split; [exact Hnew|].
  exact (proj1 (proj2 (update_objf_info_first_use "target" (Q2Qc 1) (Q2Qc (-3))
                         stats_process HK Hcounter Hnew))
               eq_refl).
Defined.

Lemma TrainInternal_clears_delta_witness :
  nnet_buffer (delta_nnet_ (this (start (carrying_trainer backstitch_config) [] 1))) =
    [[Q2Qc 1; Q2Qc 2]] /\
  fst (TrainInternal sample_eg (table_of_example sample_eg) true
         (start (carrying_trainer backstitch_config) [] 1)) = Ok tt /\
  (is_backstitch_minibatch
     (config_ (this (start (carrying_trainer backstitch_config) [] 1)))
     (num_minibatches_processed_
        (this (start (carrying_trainer backstitch_config) [] 1))) = true \/
   momentum (config_ (this (start (carrying_trainer backstitch_config) [] 1))) =
     fzero) /\
  Forall (Forall (eq fzero))
    (nnet_buffer
       (delta_nnet_
          (this (snd (TrainInternal sample_eg (table_of_example sample_eg) true
                        (start (carrying_trainer backstitch_config) [] 1)))))) /\
  nnet_buffer
    (delta_nnet_
       (this (snd (TrainInternal sample_eg (table_of_example sample_eg) true
                     (start (carrying_trainer backstitch_config) [] 1))))) =
    [[fzero *! Q2Qc 1; fzero *! Q2Qc 2]].
Proof.
  assert (Hok : fst (TrainInternal sample_eg (table_of_example sample_eg) true
                       (start (carrying_trainer backstitch_config) [] 1)) = Ok tt)
    by (vm_compute; reflexivity).
  assert (Hzero :
    is_backstitch_minibatch
      (config_ (this (start (carrying_trainer backstitch_config) [] 1)))
      (num_minibatches_processed_
         (this (start (carrying_trainer backstitch_config) [] 1))) = true \/
    momentum (config_ (this (start (carrying_trainer backstitch_config) [] 1))) =
      fzero)
    by (left; reflexivity).
  split; [reflexivity|]. split; [exact Hok|]. split; [exact Hzero|].
  split; [|reflexivity].
  exact (TrainInternal_clears_delta sample_eg (table_of_example sample_eg) true
           (start (carrying_trainer backstitch_config) [] 1) Hok Hzero).
Defined.

Lemma NnetTrainer_new_initial_state_witness :
  NnetTrainer_new backstitch_config sample_nnet 4711 false =
    Ok (trainer_of backstitch_config, []) /\
  num_max_change_per_component_applied_ (trainer_of backstitch_config) =
    replicate (NumUpdatableComponents (nnet_ (trainer_of backstitch_config))) 0%Z /\
  Forall (Forall (eq fzero))
    (nnet_buffer (delta_nnet_ (trainer_of backstitch_config))).
Proof.
  assert (Hnew : NnetTrainer_new backstitch_config sample_nnet 4711 false =
                 Ok (trainer_of backstitch_config, [])) by reflexivity.
  split; [exact Hnew|].
  pose proof (NnetTrainer_new_initial_state backstitch_config sample_nnet 4711
                false (trainer_of backstitch_config) [] Hnew)
    as (_ & _ & _ & _ & _ & _ & _ & Hcounters & _ & _ & Hzero).
  split; [exact Hcounters|exact Hzero].
Defined.
